(** * Breast-cancer prediction front end: the page scripts, embedded and verified

    The repository holds two variants of one browser script,
    [static/script.js] and [templates/script.js].  Both wire a tabbed page:
    a form of thirty tumour measurements posted to [/predict], and a CSV
    upload posted to [/predict_csv]; the answer of the prediction service is
    rendered into a result region of the page.

    The embedding follows the scripts function by function.  JavaScript values
    are an inductive type, strings are sequences of UTF-16 code units, numbers
    are binary64 floats, exceptions are explicit, and the page (document,
    console, requests sent, pending timers) is a state threaded through a small
    state-and-exception monad.  What belongs to the JavaScript engine and not to
    the repository (Unicode case mapping, [JSON.parse], the conversions between
    strings and fractional numbers, the wording of [TypeError] messages) is a
    record of functions, [engine]; theorems hold for every engine, under the
    stated assumptions where they need one, and [ref_engine] is a concrete
    engine on which everything runs. *)

From Stdlib Require Import String Ascii.
From Stdlib Require Import List ZArith NArith Bool Lia.
From Stdlib Require Import PrimFloat SpecFloat FloatOps.
Import ListNotations.

Set Warnings "-inexact-float,-register-all".

(** ** Strings: sequences of UTF-16 code units *)

Definition code_unit := N.
Definition jsstring := list code_unit.

(** A literal of Basic Latin characters, as the script writes it. *)
Definition js (s : string) : jsstring :=
  map N_of_ascii (list_ascii_of_string s).

(** The UTF-16 encoding of one code point (a surrogate pair above the BMP). *)
Definition utf16 (cp : N) : jsstring :=
  if (cp <? 0x10000)%N then [cp]
  else [(0xD800 + N.shiftr (cp - 0x10000) 10)%N;
        (0xDC00 + N.land (cp - 0x10000) 0x3FF)%N].

(** The pictographs of the script's messages. *)
Definition cross_mark : jsstring := utf16 0x274C.
Definition check_mark : jsstring := utf16 0x2705.
Definition warning_sign : jsstring := utf16 0x26A0 ++ utf16 0xFE0F.
Definition robot_face : jsstring := utf16 0x1F916.
Definition bar_chart : jsstring := utf16 0x1F4CA.
Definition clipboard : jsstring := utf16 0x1F4CB.
Definition arrows_circle : jsstring := utf16 0x1F504.
Definition file_folder : jsstring := utf16 0x1F4C1.
Definition antenna : jsstring := utf16 0x1F4E1.

(** A double-quoted attribute value inside markup: ["text"]. *)
Definition quoted (s : string) : jsstring := [34%N] ++ js s ++ [34%N].

Fixpoint str_eqb (a b : jsstring) : bool :=
  match a, b with
  | [], [] => true
  | x :: a', y :: b' => (x =? y)%N && str_eqb a' b'
  | _, _ => false
  end.

Fixpoint starts_with (p s : jsstring) : bool :=
  match p, s with
  | [], _ => true
  | x :: p', y :: s' => (x =? y)%N && starts_with p' s'
  | _ :: _, [] => false
  end.

(** [String.prototype.includes]. *)
Fixpoint includes (s sub : jsstring) : bool :=
  starts_with sub s ||
  match s with
  | [] => false
  | _ :: s' => includes s' sub
  end.

(** [String.prototype.substring]: both indices are clamped to the length and
    swapped when out of order. *)
Definition substring (s : jsstring) (from to : nat) : jsstring :=
  let a := Nat.min from (length s) in
  let b := Nat.min to (length s) in
  firstn (Nat.max a b - Nat.min a b) (skipn (Nat.min a b) s).

Fixpoint digits_of_uint (d : Decimal.uint) : jsstring :=
  match d with
  | Decimal.Nil => []
  | Decimal.D0 d' => 48%N :: digits_of_uint d'
  | Decimal.D1 d' => 49%N :: digits_of_uint d'
  | Decimal.D2 d' => 50%N :: digits_of_uint d'
  | Decimal.D3 d' => 51%N :: digits_of_uint d'
  | Decimal.D4 d' => 52%N :: digits_of_uint d'
  | Decimal.D5 d' => 53%N :: digits_of_uint d'
  | Decimal.D6 d' => 54%N :: digits_of_uint d'
  | Decimal.D7 d' => 55%N :: digits_of_uint d'
  | Decimal.D8 d' => 56%N :: digits_of_uint d'
  | Decimal.D9 d' => 57%N :: digits_of_uint d'
  end.

(** The decimal digits of a non-negative integer. *)
Definition dec (n : N) : jsstring := digits_of_uint (N.to_uint n).

(** Basic Latin, and its case mapping. *)
Definition is_ascii (u : code_unit) : Prop := (u < 128)%N.

Definition ascii_lower (u : code_unit) : code_unit :=
  if (65 <=? u)%N && (u <=? 90)%N then (u + 32)%N else u.

Definition ascii_upper (u : code_unit) : code_unit :=
  if (97 <=? u)%N && (u <=? 122)%N then (u - 32)%N else u.

(** Lower-casing of Basic Latin together with the one code point outside it
    whose lower case lies inside it: U+212A KELVIN SIGN, mapped to [k]. *)
Definition latin_lower (u : code_unit) : code_unit :=
  if (u =? 0x212A)%N then 107%N else ascii_lower u.

(** [s] spells [word] up to the case of each letter. *)
Definition is_casing_of (word s : jsstring) : Prop :=
  Forall2 (fun c u => u = c \/ u = ascii_upper c) word s.

(** ** Numbers: binary64 *)

Definition number := float.

(** The Number nearest to an integer (exact below 2^53). *)
Definition number_of_Z (z : Z) : number :=
  SF2Prim (binary_normalize prec emax z 0 false).

Definition number_of_nat (n : nat) : number := number_of_Z (Z.of_nat n).

(** [m * 2^e * 10^f] rounded to the nearest integer, the larger one at a tie:
    the integer [n] of [Number.prototype.toFixed]. *)
Definition scaled_round (m : positive) (e : Z) (f : nat) : Z :=
  let p := (Zpos m * 10 ^ Z.of_nat f)%Z in
  if (0 <=? e)%Z then (p * 2 ^ e)%Z
  else ((2 * p + 2 ^ (- e)) / (2 * 2 ^ (- e)))%Z.

Definition at_least_1e21 (m : positive) (e : Z) : bool :=
  if (0 <=? e)%Z then (10 ^ 21 <=? Zpos m * 2 ^ e)%Z
  else (10 ^ 21 * 2 ^ (- e) <=? Zpos m)%Z.

(** The digits of [n] with a decimal point before the last [f] of them, padded
    with zeros on the left to [f + 1] digits. *)
Definition place_point (digits : jsstring) (f : nat) : jsstring :=
  match f with
  | O => digits
  | S _ =>
      let padded := repeat 48%N (f + 1 - length digits) ++ digits in
      let k := length padded in
      firstn (k - f) padded ++ js "." ++ skipn (k - f) padded
  end.

(** A finite number with an integral value, and that value. *)
Definition integral_value (m : positive) (e : Z) : option Z :=
  if (0 <=? e)%Z then Some (Zpos m * 2 ^ e)%Z
  else if (Zpos m mod 2 ^ (- e) =? 0)%Z then Some (Zpos m / 2 ^ (- e))%Z
  else None.

(** ** Values and exceptions *)

Inductive value :=
| VUndefined
| VNull
| VBool (b : bool)
| VNum (x : number)
| VStr (s : jsstring)
| VArr (items : list value)
| VObj (props : list (jsstring * value)).

Inductive error_kind := PlainError | TypeError | SyntaxError.

Record js_error := mkError { kind : error_kind; message : jsstring }.

(** What a [TypeError] is about; its wording is the engine's. *)
Inductive fault :=
| CannotReadProperty (base : value) (prop : jsstring)
| CannotSetProperty (base : value) (prop : jsstring)
| NotAFunction (base : value) (prop : jsstring)
| CannotConvertToPrimitive.

Inductive completion (A : Type) :=
| Normal (a : A)
| Throw (e : js_error).
Arguments Normal {A} a.
Arguments Throw {A} e.

Definition cbind {A B} (c : completion A) (k : A -> completion B) : completion B :=
  match c with
  | Normal a => k a
  | Throw e => Throw e
  end.

(** ** The engine *)

Record engine := {
  toLowerCase : jsstring -> jsstring;
  toUpperCase : jsstring -> jsstring;
  JSON_parse : jsstring -> completion value;
  string_to_number : jsstring -> number;
  parseFloat : jsstring -> number;
  (** [Number::toString] of a positive finite number that is not an integer
      below 2^53 *)
  fraction_to_string : number -> jsstring;
  type_error_message : fault -> jsstring
}.

(** ** Coercions, property access and method calls

    Only data reaches the scripts: the values [JSON.parse] builds and the
    literals the scripts write.  Such an object has no callable property of its
    own, so a method call succeeds exactly where the prototype of the receiver
    provides the method. *)

Definition type_error (E : engine) (f : fault) : js_error :=
  mkError TypeError (type_error_message E f).

Notation "'let!' x ':=' c 'in' k" := (cbind c (fun x => k))
  (at level 10, x name, c at level 100, k at level 200).

(** [ToBoolean]. *)
Definition truthy (v : value) : bool :=
  match v with
  | VUndefined | VNull => false
  | VBool b => b
  | VNum x => negb (PrimFloat.is_zero x || PrimFloat.is_nan x)
  | VStr s => match s with [] => false | _ :: _ => true end
  | VArr _ | VObj _ => true
  end.

(** [a || b] on values already evaluated. *)
Definition or_else (a b : value) : value := if truthy a then a else b.

Fixpoint own_property (props : list (jsstring * value)) (k : jsstring) : option value :=
  match props with
  | [] => None
  | (k', v) :: rest => if str_eqb k' k then Some v else own_property rest k
  end.

(** [v.k] for the names the scripts read: own data properties, and [length]
    of arrays and strings.  Reading a property of [null] or [undefined] throws. *)
Definition get (E : engine) (v : value) (k : jsstring) : completion value :=
  match v with
  | VUndefined | VNull => Throw (type_error E (CannotReadProperty v k))
  | VObj props =>
      Normal (match own_property props k with Some x => x | None => VUndefined end)
  | VArr items =>
      Normal (if str_eqb k (js "length") then VNum (number_of_nat (length items))
              else VUndefined)
  | VStr s =>
      Normal (if str_eqb k (js "length") then VNum (number_of_nat (length s))
              else VUndefined)
  | VBool _ | VNum _ => Normal VUndefined
  end.

(** [Number::toString]: the special values and the integers below 2^53, whose
    shortest digits are all their digits, are printed here, the other numbers
    by the engine. *)
Definition number_to_string (E : engine) (x : number) : jsstring :=
  match Prim2SF x with
  | S754_nan => js "NaN"
  | S754_zero _ => js "0"
  | S754_infinity s => (if s then js "-" else []) ++ js "Infinity"
  | S754_finite s m e =>
      (if s then js "-" else []) ++
      match integral_value m e with
      | Some z => if (z <? 2 ^ 53)%Z then dec (Z.to_N z)
                  else fraction_to_string E (abs x)
      | None => fraction_to_string E (abs x)
      end
  end.

(** [Number.prototype.toFixed]. *)
Definition toFixed (E : engine) (x : number) (f : nat) : jsstring :=
  match Prim2SF x with
  | S754_nan => js "NaN"
  | S754_infinity s => (if s then js "-" else []) ++ js "Infinity"
  | S754_zero _ => place_point (js "0") f
  | S754_finite s m e =>
      (if s then js "-" else []) ++
      (if at_least_1e21 m e then fraction_to_string E (abs x)
       else place_point (dec (Z.to_N (scaled_round m e f))) f)
  end.

(** [ToString].  An array joins its elements with commas, [null] and
    [undefined] elements as empty strings; an object prints as
    [[object Object]] unless a property of its own hides [toString], and then
    the conversion throws. *)
Fixpoint to_string (E : engine) (v : value) : completion jsstring :=
  match v with
  | VUndefined => Normal (js "undefined")
  | VNull => Normal (js "null")
  | VBool b => Normal (if b then js "true" else js "false")
  | VNum x => Normal (number_to_string E x)
  | VStr s => Normal s
  | VArr items =>
      (fix join (l : list value) : completion jsstring :=
         match l with
         | [] => Normal []
         | x :: rest =>
             let! sx := match x with
                        | VUndefined | VNull => Normal []
                        | _ => to_string E x
                        end in
             match rest with
             | [] => Normal sx
             | _ :: _ => let! sr := join rest in Normal (sx ++ js "," ++ sr)
             end
         end) items
  | VObj props =>
      match own_property props (js "toString") with
      | Some _ => Throw (type_error E CannotConvertToPrimitive)
      | None => Normal (js "[object Object]")
      end
  end.

(** [ToNumber]. *)
Definition to_number (E : engine) (v : value) : completion number :=
  match v with
  | VUndefined => Normal nan
  | VNull => Normal 0%float
  | VBool b => Normal (if b then 1%float else 0%float)
  | VNum x => Normal x
  | VStr s => Normal (string_to_number E s)
  | VArr _ | VObj _ => let! s := to_string E v in Normal (string_to_number E s)
  end.

(** [v.name()] for a method of [String.prototype]. *)
Definition string_method (E : engine) (name : string) (f : jsstring -> jsstring)
    (v : value) : completion jsstring :=
  match v with
  | VStr s => Normal (f s)
  | VUndefined | VNull => Throw (type_error E (CannotReadProperty v (js name)))
  | _ => Throw (type_error E (NotAFunction v (js name)))
  end.

(** The elements [v.name(...)] iterates over, for a method of [Array.prototype]. *)
Definition array_method (E : engine) (name : string) (v : value) : completion (list value) :=
  match v with
  | VArr items => Normal items
  | VUndefined | VNull => Throw (type_error E (CannotReadProperty v (js name)))
  | _ => Throw (type_error E (NotAFunction v (js name)))
  end.

Definition isArray (v : value) : bool :=
  match v with VArr _ => true | _ => false end.

(** ** The page *)

Record element := {
  el_id : option jsstring;
  classList : list jsstring;
  innerHTML : jsstring
}.

(** An element is referred to by its position in the document. *)
Definition handle := nat.

Inductive log_level := LevelLog | LevelWarn | LevelError.

Inductive log_arg :=
| ArgStr (s : jsstring)
| ArgVal (v : value)
| ArgErr (e : js_error).

Record log_entry := { level : log_level; args : list log_arg }.

Record file := { file_name : jsstring; file_size : N }.

Inductive form_value :=
| FormString (s : jsstring)
| FormFile (f : file).

(** The entry list of a [FormData], in order. *)
Definition formdata := list (jsstring * form_value).

Inductive payload :=
| JsonBody (data : list (jsstring * form_value))
| MultipartBody (fd : formdata).

Record request := {
  url : jsstring;
  http_method : jsstring;
  content_type : option jsstring;
  body : payload
}.

Inductive body_read :=
| BodyText (t : jsstring)
| BodyFails (e : js_error).

Record response := {
  status : N;
  statusText : jsstring;
  resp_body : body_read
}.

(** [Response.ok]: the status is in the range 200-299. *)
Definition ok (r : response) : bool :=
  ((200 <=? status r) && (status r <=? 299))%N.

Inductive fetch_outcome :=
| Resolves (r : response)
| Rejects (e : js_error).

(** A function handed to [setTimeout], with what it captured. *)
Inductive callback :=
| SimulatedPrediction (data : list (jsstring * form_value)) (container : handle).

Record timer := { timer_callback : callback; timer_delay : N }.

Record world := {
  document : list element;
  console : list log_entry;
  sent : list request;
  timers : list timer;
  randoms_drawn : nat
}.

(** What the scripts do not control: the prediction service behind [fetch],
    and the sequence of values [Math.random] returns. *)
Record browser := {
  server : request -> fetch_outcome;
  random : nat -> number
}.

(** ** Computations on the page: state and exceptions *)

Inductive outcome (A : Type) :=
| Done (a : A) (w : world)
| Raised (e : js_error) (w : world).
Arguments Done {A} a w.
Arguments Raised {A} e w.

Definition M (A : Type) := world -> outcome A.

Definition ret {A} (a : A) : M A := fun w => Done a w.

Definition bind {A B} (c : M A) (k : A -> M B) : M B :=
  fun w => match c w with
           | Done a w' => k a w'
           | Raised e w' => Raised e w'
           end.

Definition raise {A} (e : js_error) : M A := fun w => Raised e w.

Definition lift {A} (c : completion A) : M A :=
  match c with
  | Normal a => ret a
  | Throw e => raise e
  end.

(** [try { body } catch (error) { handler }]. *)
Definition try_catch {A} (body : M A) (handler : js_error -> M A) : M A :=
  fun w => match body w with
           | Done a w' => Done a w'
           | Raised e w' => handler e w'
           end.

Notation "x <- c ;; k" := (bind c (fun x => k))
  (at level 61, c at next level, right associativity).
Notation "c ;; k" := (bind c (fun _ => k))
  (at level 61, right associativity).

Definition final_world {A} (o : outcome A) : world :=
  match o with
  | Done _ w => w
  | Raised _ w => w
  end.

Definition throws {A} (o : outcome A) : bool :=
  match o with
  | Done _ _ => false
  | Raised _ _ => true
  end.

Definition set_document (d : list element) (w : world) : world :=
  {| document := d; console := console w; sent := sent w;
     timers := timers w; randoms_drawn := randoms_drawn w |}.

Definition console_write (l : log_level) (a : list log_arg) : M unit :=
  fun w => Done tt {| document := document w;
                      console := console w ++ [{| level := l; args := a |}];
                      sent := sent w; timers := timers w;
                      randoms_drawn := randoms_drawn w |}.

Definition console_log := console_write LevelLog.
Definition console_warn := console_write LevelWarn.
Definition console_error := console_write LevelError.

Definition has_id (id : jsstring) (el : element) : bool :=
  match el_id el with
  | Some i => str_eqb i id
  | None => false
  end.

Definition has_class (c : jsstring) (el : element) : bool :=
  existsb (str_eqb c) (classList el).

Fixpoint find_index {A} (p : A -> bool) (l : list A) : option nat :=
  match l with
  | [] => None
  | x :: rest => if p x then Some O else option_map S (find_index p rest)
  end.

Fixpoint indices_where {A} (p : A -> bool) (i : nat) (l : list A) : list nat :=
  match l with
  | [] => []
  | x :: rest => (if p x then [i] else []) ++ indices_where p (S i) rest
  end.

Fixpoint update_at {A} (i : nat) (f : A -> A) (l : list A) : list A :=
  match l, i with
  | [], _ => []
  | x :: rest, O => f x :: rest
  | x :: rest, S i' => x :: update_at i' f rest
  end.

(** [document.getElementById]: the first element in document order, or [null]. *)
Definition getElementById (id : string) : M (option handle) :=
  fun w => Done (find_index (has_id (js id)) (document w)) w.

Definition getElementByIdOf (id : jsstring) : M (option handle) :=
  fun w => Done (find_index (has_id id) (document w)) w.

Definition getElementsByClassName (c : string) : M (list handle) :=
  fun w => Done (indices_where (has_class (js c)) O (document w)) w.

Definition add_class (c : jsstring) (el : element) : element :=
  {| el_id := el_id el;
     classList := if has_class c el then classList el else classList el ++ [c];
     innerHTML := innerHTML el |}.

Definition remove_class (c : jsstring) (el : element) : element :=
  {| el_id := el_id el;
     classList := filter (fun c' => negb (str_eqb c c')) (classList el);
     innerHTML := innerHTML el |}.

Definition classList_add (h : handle) (c : string) : M unit :=
  fun w => Done tt (set_document (update_at h (add_class (js c)) (document w)) w).

Definition classList_remove (h : handle) (c : string) : M unit :=
  fun w => Done tt (set_document (update_at h (remove_class (js c)) (document w)) w).

Definition with_innerHTML (html : jsstring) (el : element) : element :=
  {| el_id := el_id el; classList := classList el; innerHTML := html |}.

(** [container.innerHTML = html]; the markup is kept as assigned. *)
Definition set_innerHTML (h : handle) (html : jsstring) : M unit :=
  fun w => Done tt (set_document (update_at h (with_innerHTML html) (document w)) w).

(** A loop over the handles of a collection. *)
Fixpoint for_each {A} (l : list A) (f : A -> M unit) : M unit :=
  match l with
  | [] => ret tt
  | x :: rest => f x ;; for_each rest f
  end.

(** [await fetch(...)]: the request leaves the page, and the service's answer
    comes back or the promise rejects. *)
Definition fetch (B : browser) (r : request) : M response :=
  fun w =>
    let w' := {| document := document w; console := console w;
                 sent := sent w ++ [r]; timers := timers w;
                 randoms_drawn := randoms_drawn w |} in
    match server B r with
    | Resolves resp => Done resp w'
    | Rejects e => Raised e w'
    end.

(** [await response.text()]. *)
Definition response_text (r : response) : completion jsstring :=
  match resp_body r with
  | BodyText t => Normal t
  | BodyFails e => Throw e
  end.

Definition setTimeout (cb : callback) (ms : N) : M unit :=
  fun w => Done tt {| document := document w; console := console w;
                      sent := sent w;
                      timers := timers w ++ [{| timer_callback := cb; timer_delay := ms |}];
                      randoms_drawn := randoms_drawn w |}.

Definition Math_random (B : browser) : M number :=
  fun w => Done (random B (randoms_drawn w))
                {| document := document w; console := console w;
                   sent := sent w; timers := timers w;
                   randoms_drawn := S (randoms_drawn w) |}.

(** [new FormData(form).get(name)]: the first entry of that name, or [null]. *)
Fixpoint formdata_get (fd : formdata) (name : jsstring) : option form_value :=
  match fd with
  | [] => None
  | (k, v) :: rest => if str_eqb k name then Some v else formdata_get rest name
  end.

(** [Object.fromEntries(formData.entries())]: one property per name, holding
    the value of the last entry of that name. *)
Fixpoint set_property {V} (k : jsstring) (v : V) (props : list (jsstring * V))
    : list (jsstring * V) :=
  match props with
  | [] => [(k, v)]
  | (k', v') :: rest =>
      if str_eqb k' k then (k', v) :: rest else (k', v') :: set_property k v rest
  end.

Definition fromEntries (fd : formdata) : list (jsstring * form_value) :=
  fold_left (fun obj kv => set_property (fst kv) (snd kv) obj) fd [].

Definition data_get (data : list (jsstring * form_value)) (name : string)
    : option form_value :=
  formdata_get data (js name).

(** [!file] for what [FormData.get] returned: [null] and the empty string are
    falsy, a [File] is an object. *)
Definition form_truthy (v : option form_value) : bool :=
  match v with
  | None => false
  | Some (FormString s) => match s with [] => false | _ :: _ => true end
  | Some (FormFile _) => true
  end.

Definition nl : jsstring := [10%N].

Record event := { currentTarget : handle }.

(** The [input] elements of the page, in document order, with the [name]
    attribute and the current value of each; and the console beside them. *)
Record field := { field_name : option jsstring; field_value : jsstring }.

Record form_page := { fields : list field; form_console : list log_entry }.

Definition named (name : jsstring) (f : field) : bool :=
  match field_name f with
  | Some n => str_eqb n name
  | None => false
  end.

Definition with_value (v : jsstring) (f : field) : field :=
  {| field_name := field_name f; field_value := v |}.

Definition rocket : jsstring := utf16 0x1F680.

(** ** [static/script.js] *)

Module Static.
Section Script.
Variable E : engine.
Variable B : browser.

(** [safeJsonResponse(response)], lines 2-12. *)
Definition safeJsonResponse (response : response) : completion value :=
  let! text := response_text response in
  match text with
  | [] => Throw (mkError PlainError (js "Server returned empty response"))
  | _ :: _ =>
      match JSON_parse E text with
      | Normal v => Normal v
      | Throw _ =>
          Throw (mkError PlainError
                   (js "Invalid JSON response: " ++ substring text 0 100 ++ js "..."))
      end
  end.

(** [openTab(evt, tabName)], lines 15-40.  The two collections are live, but
    removing [active] never changes which elements carry [tab-content] or
    [tab-btn], so each loop visits the elements found at its start. *)
Definition openTab (evt : event) (tabName : jsstring) : M unit :=
  console_log [ArgStr (js "Tab clicked:"); ArgStr tabName] ;;
  tabContents <- getElementsByClassName "tab-content" ;;
  tabBtns <- getElementsByClassName "tab-btn" ;;
  for_each tabContents (fun h => classList_remove h "active") ;;
  for_each tabBtns (fun h => classList_remove h "active") ;;
  targetTab <- getElementByIdOf tabName ;;
  match targetTab with
  | Some targetTab =>
      classList_add targetTab "active" ;;
      classList_add (currentTarget evt) "active" ;;
      console_log [ArgStr (check_mark ++ js " Tab switched to:"); ArgStr tabName]
  | None =>
      console_error [ArgStr (cross_mark ++ js " Tab not found:"); ArgStr tabName]
  end.

(** [prediction.toLowerCase() === 'malignant' ? 'malignant' : 'benign']. *)
Definition className_of (lower : jsstring) : jsstring :=
  if str_eqb lower (js "malignant") then js "malignant" else js "benign".

Definition emoji_of (className : jsstring) : jsstring :=
  if str_eqb className (js "malignant") then warning_sign else check_mark.

Definition message_of (className : jsstring) : jsstring :=
  if str_eqb className (js "malignant")
  then js "Please consult with a healthcare professional immediately"
  else js "The tumor appears to be non-cancerous".

(** The template literal of [displayResult], lines 198-205. *)
Definition result_markup (className emoji upper percent message : jsstring) : jsstring :=
  nl ++ js "    <div class=" ++ [34%N] ++ js "result " ++ className ++ [34%N] ++ js ">" ++
  nl ++ js "      <h3>" ++ emoji ++ js " ML Model Prediction</h3>" ++
  nl ++ js "      <p><strong>" ++ upper ++ js "</strong></p>" ++
  nl ++ js "      <p>Confidence: " ++ percent ++ js "%</p>" ++
  nl ++ js "      <small>" ++ robot_face ++ js " " ++ message ++ js "</small>" ++
  nl ++ js "    </div>" ++
  nl ++ js "  ".

(** [displayResult(result, container)], lines 188-206. *)
Definition displayResult (result : value) (container : handle) : M unit :=
  prediction <- lift (get E result (js "prediction")) ;;
  c <- lift (get E result (js "confidence")) ;;
  let confidence := or_else c (VNum 0.85%float) in
  lower <- lift (string_method E "toLowerCase" (toLowerCase E) prediction) ;;
  let className := className_of lower in
  let emoji := emoji_of className in
  let message := message_of className in
  upper <- lift (string_method E "toUpperCase" (toUpperCase E) prediction) ;;
  x <- lift (to_number E confidence) ;;
  set_innerHTML container
    (result_markup className emoji upper (toFixed E (x * 100)%float 1) message).

(** One row of the table, lines 230-236. *)
Definition row_markup (number className label confidence : jsstring) : jsstring :=
  nl ++ js "      <tr>" ++
  nl ++ js "        <td>" ++ number ++ js "</td>" ++
  nl ++ js "        <td class=" ++ [34%N] ++ className ++ [34%N] ++ js "><strong>" ++
        label ++ js "</strong></td>" ++
  nl ++ js "        <td>" ++ confidence ++ js "</td>" ++
  nl ++ js "      </tr>" ++
  nl ++ js "    ".

(** The body of the [forEach] callback, lines 227-236. *)
Definition row (pred : value) (index : nat) : completion jsstring :=
  let! p := get E pred (js "prediction") in
  let! lower := string_method E "toLowerCase" (toLowerCase E) p in
  let className := className_of lower in
  let! c := get E pred (js "confidence") in
  let! confidence :=
    (if truthy c
     then let! x := to_number E c in Normal (toFixed E (x * 100)%float 1 ++ js "%")
     else Normal (js "N/A")) in
  let! label := to_string E p in
  Normal (row_markup (dec (N.of_nat (index + 1))) className label confidence).

Fixpoint rows (items : list value) (index : nat) : completion jsstring :=
  match items with
  | [] => Normal []
  | pred :: rest =>
      let! r := row pred index in
      let! rs := rows rest (S index) in
      Normal (r ++ rs)
  end.

(** [results.filter(r => r.prediction.toLowerCase() === label).length]. *)
Fixpoint count_label (label : string) (items : list value) : completion nat :=
  match items with
  | [] => Normal O
  | r :: rest =>
      let! p := get E r (js "prediction") in
      let! lower := string_method E "toLowerCase" (toLowerCase E) p in
      let! n := count_label label rest in
      Normal ((if str_eqb lower (js label) then 1 else 0) + n)%nat
  end.

(** [result.benign_count || results.filter(...).length], lines 242-243. *)
Definition count_or_filter (given : value) (label : string) (items : list value)
    : completion value :=
  if truthy given then Normal given
  else let! n := count_label label items in Normal (VNum (number_of_nat n)).

(** [((count / results.length) * 100).toFixed(1)]. *)
Definition share (count : value) (total : nat) : completion jsstring :=
  let! x := to_number E count in
  Normal (toFixed E ((x / number_of_nat total) * 100)%float 1).

(** The summary, lines 245-252. *)
Definition summary_markup (benign benignShare malignant malignantShare : jsstring)
    : jsstring :=
  nl ++ js "    <div class=" ++ quoted "summary" ++ js ">" ++
  nl ++ js "      <h4>" ++ bar_chart ++ js " ML Model Summary</h4>" ++
  nl ++ js "      <p>" ++ check_mark ++ js " Benign: " ++ benign ++ js " samples (" ++
        benignShare ++ js "%)</p>" ++
  nl ++ js "      <p>" ++ warning_sign ++ js " Malignant: " ++ malignant ++
        js " samples (" ++ malignantShare ++ js "%)</p>" ++
  nl ++ js "      <small>" ++ robot_face ++
        js " Predictions made using your trained model.pkl</small>" ++
  nl ++ js "    </div>" ++
  nl ++ js "  ".

Definition column_info_markup (original used : jsstring) : jsstring :=
  js "<div class=" ++ quoted "column-info" ++ js ">" ++
  nl ++ js "      <small>" ++ clipboard ++ js " Original CSV had " ++ original ++
        js " columns, used " ++ used ++ js " required columns for prediction</small>" ++
  nl ++ js "    </div>".

Definition table_head : jsstring :=
  js "<table><thead><tr><th>Sample #</th><th>Prediction</th><th>Confidence</th></tr></thead><tbody>".

(** The markup [displayCSVResults] builds, lines 211-254. *)
Definition csv_markup (result : value) : completion jsstring :=
  let! results := get E result (js "predictions") in
  let html := js "<div class=" ++ quoted "csv-results" ++ js ">" in
  let html := html ++ js "<h3>" ++ robot_face ++ js " Trained ML Model Results</h3>" in
  let! len := get E results (js "length") in
  let! slen := to_string E len in
  let html := html ++ js "<p>Processed " ++ slen ++
              js " samples using your trained model.pkl</p>" in
  let! original_columns := get E result (js "original_columns") in
  let! columns_used := get E result (js "columns_used") in
  let! html :=
    (if truthy original_columns && truthy columns_used
     then let! original := to_string E original_columns in
          let! n := get E columns_used (js "length") in
          let! used := to_string E n in
          Normal (html ++ column_info_markup original used)
     else Normal html) in
  let html := html ++ table_head in
  let! items := array_method E "forEach" results in
  let! body := rows items O in
  let html := html ++ body in
  let html := html ++ js "</tbody></table>" in
  let! benign_count := get E result (js "benign_count") in
  let! benignCount := count_or_filter benign_count "benign" items in
  let! malignant_count := get E result (js "malignant_count") in
  let! malignantCount := count_or_filter malignant_count "malignant" items in
  let! benign := to_string E benignCount in
  let! benignShare := share benignCount (length items) in
  let! malignant := to_string E malignantCount in
  let! malignantShare := share malignantCount (length items) in
  let html := html ++ summary_markup benign benignShare malignant malignantShare in
  Normal (html ++ js "</div>").

(** [displayCSVResults(result, container)], lines 210-256. *)
Definition displayCSVResults (result : value) (container : handle) : M unit :=
  html <- lift (csv_markup result) ;;
  set_innerHTML container html.

Definition error_markup (text : jsstring) : jsstring :=
  js "<div class=" ++ quoted "error" ++ js ">" ++ cross_mark ++ js " " ++ text ++ js "</div>".

Definition predict_request (data : list (jsstring * form_value)) : request :=
  {| url := js "/predict"; http_method := js "POST";
     content_type := Some (js "application/json"); body := JsonBody data |}.

Definition predict_csv_request (fd : formdata) : request :=
  {| url := js "/predict_csv"; http_method := js "POST";
     content_type := None; body := MultipartBody fd |}.

(** [errorText || response.statusText]. *)
Definition text_or (errorText fallback : jsstring) : jsstring :=
  match errorText with
  | [] => fallback
  | _ :: _ => errorText
  end.

(** The [submit] handler of [cancerForm], lines 94-131; [form] is the entry
    list of [new FormData(this)]. *)
Definition cancerForm_submit (form : formdata) : M unit :=
  console_log [ArgStr (arrows_circle ++
                       js " Starting manual prediction with trained model...")] ;;
  resultDiv <- getElementById "manualResult" ;;
  match resultDiv with
  | None => raise (type_error E (CannotSetProperty VNull (js "innerHTML")))
  | Some resultDiv =>
      set_innerHTML resultDiv
        (js "<div class=" ++ quoted "loading" ++ js "></div>" ++ robot_face ++
         js " Analyzing with trained ML model...") ;;
      let data := fromEntries form in
      console_log [ArgStr (bar_chart ++ js " Sending data:");
                   ArgVal (VNum (number_of_nat (length data)));
                   ArgStr (js "features")] ;;
      try_catch
        (response <- fetch B (predict_request data) ;;
         if negb (ok response) then
           errorText <- lift (response_text response) ;;
           console_error [ArgStr (cross_mark ++ js " Server error:"); ArgStr errorText] ;;
           set_innerHTML resultDiv
             (error_markup (js "Server Error (" ++ dec (status response) ++ js "): " ++
                            text_or errorText (statusText response)))
         else
           result <- lift (safeJsonResponse response) ;;
           console_log [ArgStr (check_mark ++ js " Prediction result:"); ArgVal result] ;;
           displayResult result resultDiv)
        (fun error =>
           console_error [ArgStr (cross_mark ++ js " Prediction error:"); ArgErr error] ;;
           set_innerHTML resultDiv
             (error_markup (js "Connection error: " ++ message error)))
  end.

(** [file.name] and [file.size] as the console shows them. *)
Definition file_log_args (v : option form_value) : list log_arg :=
  match v with
  | Some (FormFile f) =>
      [ArgStr (file_name f); ArgStr (js "Size:");
       ArgVal (VNum (number_of_Z (Z.of_N (file_size f)))); ArgStr (js "bytes")]
  | _ => [ArgVal VUndefined; ArgStr (js "Size:"); ArgVal VUndefined; ArgStr (js "bytes")]
  end.

(** The [submit] handler of [csvForm], lines 137-183. *)
Definition csvForm_submit (form : formdata) : M unit :=
  console_log [ArgStr (arrows_circle ++
                       js " Starting CSV prediction with trained model...")] ;;
  resultDiv <- getElementById "csvResult" ;;
  match resultDiv with
  | None => raise (type_error E (CannotSetProperty VNull (js "innerHTML")))
  | Some resultDiv =>
      set_innerHTML resultDiv
        (js "<div class=" ++ quoted "loading" ++ js "></div>" ++ robot_face ++
         js " Processing CSV with trained ML model...") ;;
      let file := formdata_get form (js "file") in
      if negb (form_truthy file) then
        set_innerHTML resultDiv (error_markup (js "No file selected"))
      else
        console_log (ArgStr (file_folder ++ js " Uploading file:") :: file_log_args file) ;;
        try_catch
          (response <- fetch B (predict_csv_request form) ;;
           console_log [ArgStr (antenna ++ js " Response status:");
                        ArgVal (VNum (number_of_Z (Z.of_N (status response))))] ;;
           if negb (ok response) then
             errorText <- lift (response_text response) ;;
             console_error [ArgStr (cross_mark ++ js " Server error:"); ArgStr errorText] ;;
             set_innerHTML resultDiv
               (error_markup (js "Server Error (" ++ dec (status response) ++ js "): " ++
                              text_or errorText (statusText response)))
           else
             result <- lift (safeJsonResponse response) ;;
             total_samples <- lift (get E result (js "total_samples")) ;;
             console_log [ArgStr (check_mark ++ js " CSV prediction results:");
                          ArgVal total_samples; ArgStr (js "predictions")] ;;
             predictions <- lift (get E result (js "predictions")) ;;
             if truthy predictions && isArray predictions then
               displayCSVResults result resultDiv
             else
               set_innerHTML resultDiv (error_markup (js "Unexpected response format")))
          (fun error =>
             console_error [ArgStr (cross_mark ++ js " CSV prediction error:");
                            ArgErr error] ;;
             set_innerHTML resultDiv
               (error_markup (js "Connection error: " ++ message error)))
  end.

(** The object literal of [loadSampleData], lines 46-77, in the order of its
    keys. *)
Definition sampleData : list (string * number) :=
  [("radius_mean"%string, 14.127%float); ("texture_mean"%string, 19.26%float);
   ("perimeter_mean"%string, 91.97%float); ("area_mean"%string, 654.9%float);
   ("smoothness_mean"%string, 0.096%float); ("compactness_mean"%string, 0.104%float);
   ("concavity_mean"%string, 0.089%float); ("concave_points_mean"%string, 0.049%float);
   ("symmetry_mean"%string, 0.181%float); ("fractal_dimension_mean"%string, 0.0628%float);
   ("radius_se"%string, 0.405%float); ("texture_se"%string, 1.217%float);
   ("perimeter_se"%string, 2.868%float); ("area_se"%string, 40.34%float);
   ("smoothness_se"%string, 0.007%float); ("compactness_se"%string, 0.025%float);
   ("concavity_se"%string, 0.032%float); ("concave_points_se"%string, 0.012%float);
   ("symmetry_se"%string, 0.020%float); ("fractal_dimension_se"%string, 0.003%float);
   ("radius_worst"%string, 16.27%float); ("texture_worst"%string, 26.22%float);
   ("perimeter_worst"%string, 108.9%float); ("area_worst"%string, 858.1%float);
   ("smoothness_worst"%string, 0.133%float); ("compactness_worst"%string, 0.253%float);
   ("concavity_worst"%string, 0.251%float); ("concave_points_worst"%string, 0.132%float);
   ("symmetry_worst"%string, 0.29%float); ("fractal_dimension_worst"%string, 0.08%float)].

(** The body of the [forEach] of [loadSampleData], lines 80-85: the first
    input of that name, when there is one, takes the number as its value. *)
Definition fill (fs : list field) (entry : string * number) : list field :=
  match find_index (named (js (fst entry))) fs with
  | Some input => update_at input (with_value (number_to_string E (snd entry))) fs
  | None => fs
  end.

(** [loadSampleData()], lines 43-88. *)
Definition loadSampleData (p : form_page) : form_page :=
  {| fields := fold_left fill sampleData (fields p);
     form_console :=
       form_console p ++
       [{| level := LevelLog; args := [ArgStr (js "Loading sample data...")] |};
        {| level := LevelLog;
           args := [ArgStr (check_mark ++ js " Sample data loaded")] |}] |}.

(** The promise chain on [fetch('/health')], lines 317-326; [health] is what
    the fetch settles to.  The request is a GET without payload; [sent] keeps
    the submissions only. *)
Definition checkHealth (health : fetch_outcome) : M unit :=
  try_catch
    (response <- match health with
                 | Resolves r => ret r
                 | Rejects e => raise e
                 end ;;
     status <- lift (let! text := response_text response in JSON_parse E text) ;;
     model_loaded <- lift (get E status (js "model_loaded")) ;;
     if truthy model_loaded
     then console_log [ArgStr (check_mark ++ js " Trained ML Model is loaded and ready")]
     else console_warn [ArgStr (warning_sign ++
                                js " ML Model may not be loaded properly")])
    (fun error =>
       console_error [ArgStr (cross_mark ++ js " Health check failed:"); ArgErr error]).

(** The last [DOMContentLoaded] listener, lines 306-327. *)
Definition initialize (health : fetch_outcome) : M unit :=
  console_log [ArgStr (rocket ++ js " Breast Cancer Prediction System Initialized")] ;;
  console_log [ArgStr (robot_face ++ js " Using trained model.pkl for all predictions")] ;;
  manualTab <- getElementById "manual" ;;
  csvTab <- getElementById "csv" ;;
  console_log [ArgStr (js "Manual tab found:");
               ArgVal (VBool match manualTab with Some _ => true | None => false end)] ;;
  console_log [ArgStr (js "CSV tab found:");
               ArgVal (VBool match csvTab with Some _ => true | None => false end)] ;;
  checkHealth health.

End Script.
End Static.

(** ** [templates/script.js] *)

Module Templates.
Section Script.
Variable E : engine.
Variable B : browser.

(** [openTab(evt, tabName)], lines 2-19: the target is used without a test. *)
Definition openTab (evt : event) (tabName : jsstring) : M unit :=
  tabContents <- getElementsByClassName "tab-content" ;;
  tabBtns <- getElementsByClassName "tab-btn" ;;
  for_each tabContents (fun h => classList_remove h "active") ;;
  for_each tabBtns (fun h => classList_remove h "active") ;;
  target <- getElementByIdOf tabName ;;
  match target with
  | None => raise (type_error E (CannotReadProperty VNull (js "classList")))
  | Some target =>
      classList_add target "active" ;;
      classList_add (currentTarget evt) "active"
  end.

Definition className_of (lower : jsstring) : jsstring :=
  if str_eqb lower (js "malignant") then js "malignant" else js "benign".

Definition emoji_of (className : jsstring) : jsstring :=
  if str_eqb className (js "malignant") then warning_sign else check_mark.

(** The template literal of [displayResult], lines 133-139. *)
Definition result_markup (className emoji upper percent : jsstring) : jsstring :=
  nl ++ js "    <div class=" ++ [34%N] ++ js "result " ++ className ++ [34%N] ++ js ">" ++
  nl ++ js "      " ++ emoji ++ js " Prediction: <strong>" ++ upper ++ js "</strong>" ++
  nl ++ js "      <br>" ++
  nl ++ js "      <small>Confidence: " ++ percent ++ js "%</small>" ++
  nl ++ js "    </div>" ++
  nl ++ js "  ".

(** [displayResult(result, container)], lines 126-140. *)
Definition displayResult (result : value) (container : handle) : M unit :=
  p <- lift (get E result (js "prediction")) ;;
  let prediction := or_else p result in
  c <- lift (get E result (js "confidence")) ;;
  confidence <- (if truthy c then ret c
                 else r <- Math_random B ;; ret (VNum (r * 0.3 + 0.7)%float)) ;;
  lower <- lift (string_method E "toLowerCase" (toLowerCase E) prediction) ;;
  let className := className_of lower in
  let emoji := emoji_of className in
  upper <- lift (string_method E "toUpperCase" (toUpperCase E) prediction) ;;
  x <- lift (to_number E confidence) ;;
  set_innerHTML container
    (result_markup className emoji upper (toFixed E (x * 100)%float 1)).

(** [simulatePrediction(data, container)], lines 164-181: the work is left to
    a timer. *)
Definition simulatePrediction (data : list (jsstring * form_value))
    (container : handle) : M unit :=
  setTimeout (SimulatedPrediction data container) 1500.

(** [parseFloat(data.name)]: a missing field and a [File] read as [NaN]. *)
Definition parse_field (data : list (jsstring * form_value)) (name : string) : number :=
  match data_get data name with
  | Some (FormString s) => parseFloat E s
  | Some (FormFile _) | None => nan
  end.

(** The function [simulatePrediction] hands to [setTimeout], lines 166-179. *)
Definition simulated_prediction (data : list (jsstring * form_value))
    (container : handle) : M unit :=
  let radiusMean := parse_field data "radius_mean" in
  let areaMean := parse_field data "area_mean" in
  let concavityMean := parse_field data "concavity_mean" in
  let score := ((if (15 <? radiusMean)%float then 1 else 0) +
                (if (800 <? areaMean)%float then 1 else 0) +
                (if (0.1 <? concavityMean)%float then 1 else 0))%nat in
  let prediction := if (2 <=? score)%nat then js "Malignant" else js "Benign" in
  r <- Math_random B ;;
  let confidence := (r * 0.2 + 0.75)%float in
  displayResult (VObj [(js "prediction", VStr prediction);
                       (js "confidence", VNum confidence)]) container.

Definition run_callback (cb : callback) : M unit :=
  match cb with
  | SimulatedPrediction data container => simulated_prediction data container
  end.

(** The pending timers fire, in the order they were set. *)
Definition run_timers : M unit :=
  fun w =>
    for_each (timers w) (fun t => run_callback (timer_callback t))
      {| document := document w; console := console w; sent := sent w;
         timers := []; randoms_drawn := randoms_drawn w |}.

(** [await response.json()]. *)
Definition response_json (response : response) : completion value :=
  let! text := response_text response in
  JSON_parse E text.

Definition predict_request (data : list (jsstring * form_value)) : request :=
  {| url := js "/predict"; http_method := js "POST";
     content_type := Some (js "application/json"); body := JsonBody data |}.

(** The [submit] handler of [cancerForm], lines 66-95. *)
Definition cancerForm_submit (form : formdata) : M unit :=
  resultDiv <- getElementById "manualResult" ;;
  match resultDiv with
  | None => raise (type_error E (CannotSetProperty VNull (js "innerHTML")))
  | Some resultDiv =>
      set_innerHTML resultDiv
        (js "<div class=" ++ quoted "loading" ++ js "></div>Analyzing data...") ;;
      let data := fromEntries form in
      try_catch
        (response <- fetch B (predict_request data) ;;
         if ok response then
           result <- lift (response_json response) ;;
           displayResult result resultDiv
         else
           raise (mkError PlainError (js "Prediction failed")))
        (fun error => simulatePrediction data resultDiv)
  end.

(** The object literal of [loadSampleData], lines 23-54. *)
Definition sampleData : list (string * number) :=
  [("radius_mean"%string, 14.127%float); ("texture_mean"%string, 19.26%float);
   ("perimeter_mean"%string, 91.97%float); ("area_mean"%string, 654.9%float);
   ("smoothness_mean"%string, 0.096%float); ("compactness_mean"%string, 0.104%float);
   ("concavity_mean"%string, 0.089%float); ("concave_points_mean"%string, 0.049%float);
   ("symmetry_mean"%string, 0.181%float); ("fractal_dimension_mean"%string, 0.0628%float);
   ("radius_se"%string, 0.405%float); ("texture_se"%string, 1.217%float);
   ("perimeter_se"%string, 2.868%float); ("area_se"%string, 40.34%float);
   ("smoothness_se"%string, 0.007%float); ("compactness_se"%string, 0.025%float);
   ("concavity_se"%string, 0.032%float); ("concave_points_se"%string, 0.012%float);
   ("symmetry_se"%string, 0.020%float); ("fractal_dimension_se"%string, 0.003%float);
   ("radius_worst"%string, 16.27%float); ("texture_worst"%string, 26.22%float);
   ("perimeter_worst"%string, 108.9%float); ("area_worst"%string, 858.1%float);
   ("smoothness_worst"%string, 0.133%float); ("compactness_worst"%string, 0.253%float);
   ("concavity_worst"%string, 0.251%float); ("concave_points_worst"%string, 0.132%float);
   ("symmetry_worst"%string, 0.29%float); ("fractal_dimension_worst"%string, 0.08%float)].

Definition fill (fs : list field) (entry : string * number) : list field :=
  match find_index (named (js (fst entry))) fs with
  | Some input => update_at input (with_value (number_to_string E (snd entry))) fs
  | None => fs
  end.

(** [loadSampleData()], lines 22-63: nothing is logged. *)
Definition loadSampleData (p : form_page) : form_page :=
  {| fields := fold_left fill sampleData (fields p);
     form_console := form_console p |}.

(** One row of the table, lines 150-156. *)
Definition csv_row_markup (number className label percent : jsstring) : jsstring :=
  nl ++ js "      <tr>" ++
  nl ++ js "        <td>" ++ number ++ js "</td>" ++
  nl ++ js "        <td class=" ++ [34%N] ++ className ++ [34%N] ++ js ">" ++
        label ++ js "</td>" ++
  nl ++ js "        <td>" ++ percent ++ js "%</td>" ++
  nl ++ js "      </tr>" ++
  nl ++ js "    ".

(** The body of the [forEach] callback, lines 149-156: the confidence is
    multiplied whatever it is. *)
Definition csv_row (result : value) (index : nat) : completion jsstring :=
  let! p := get E result (js "prediction") in
  let! lower := string_method E "toLowerCase" (toLowerCase E) p in
  let className := className_of lower in
  let! label := to_string E p in
  let! c := get E result (js "confidence") in
  let! x := to_number E c in
  Normal (csv_row_markup (dec (N.of_nat (index + 1))) className label
            (toFixed E (x * 100)%float 1)).

Fixpoint csv_rows (items : list value) (index : nat) : completion jsstring :=
  match items with
  | [] => Normal []
  | result :: rest =>
      let! r := csv_row result index in
      let! rs := csv_rows rest (S index) in
      Normal (r ++ rs)
  end.

Definition csv_table_head : jsstring :=
  js "<div class=" ++ quoted "csv-results" ++ js ">" ++
  js "<h3>Prediction Results</h3>" ++
  js "<table><thead><tr><th>Row</th><th>Prediction</th><th>Confidence</th></tr></thead><tbody>".

(** The markup [displayCSVResults] builds, lines 144-159. *)
Definition csv_markup (results : value) : completion jsstring :=
  let html := csv_table_head in
  let! items := array_method E "forEach" results in
  let! body := csv_rows items O in
  Normal (html ++ body ++ js "</tbody></table></div>").

(** [displayCSVResults(results, container)], lines 143-161. *)
Definition displayCSVResults (results : value) (container : handle) : M unit :=
  html <- lift (csv_markup results) ;;
  set_innerHTML container html.


(** A timer of the CSV flow: its callback, lines 185-195, shows the mock
    results in the container it captured. *)
Record csv_timer := { csv_container : handle; csv_delay : N }.

(** [simulateCSVPrediction(container)], lines 184-196.  The timers of the CSV
    flow are handed back to the caller; the page's [timers] hold those of the
    single-record flow. *)
Definition simulateCSVPrediction (container : handle) : M (list csv_timer) :=
  ret [{| csv_container := container; csv_delay := 2000 |}].


Definition predict_csv_request (fd : formdata) : request :=
  {| url := js "/predict_csv"; http_method := js "POST";
     content_type := None; body := MultipartBody fd |}.

(** The [submit] handler of [csvForm], lines 98-123; it returns the timers it
    set. *)
Definition csvForm_submit (form : formdata) : M (list csv_timer) :=
  resultDiv <- getElementById "csvResult" ;;
  match resultDiv with
  | None => raise (type_error E (CannotSetProperty VNull (js "innerHTML")))
  | Some resultDiv =>
      set_innerHTML resultDiv
        (js "<div class=" ++ quoted "loading" ++ js "></div>Processing CSV file...") ;;
      try_catch
        (response <- fetch B (predict_csv_request form) ;;
         if ok response then
           result <- lift (response_json response) ;;
           displayCSVResults result resultDiv ;;
           ret []
         else
           raise (mkError PlainError (js "CSV prediction failed")))
        (fun error => simulateCSVPrediction resultDiv)
  end.

End Script.
End Templates.

(** ** A reference engine

    Case mapping restricted to Basic Latin (and the Kelvin sign), a JSON
    parser, decimal numerals read with correct rounding, and shortest
    round-trip printing of fractional numbers. *)

Module Reference.

(** The binary64 value nearest to [digits * 10^exp10], with the sign [neg]. *)
Definition decimal_to_number (neg : bool) (digits : N) (exp10 : Z) : number :=
  match digits with
  | N0 => if neg then neg_zero else zero
  | Npos d =>
      let magnitude := (Z.of_nat (length (dec digits)) + exp10)%Z in
      if (310 <? magnitude)%Z then (if neg then neg_infinity else infinity)
      else if (magnitude <? -330)%Z then (if neg then neg_zero else zero)
      else if (0 <=? exp10)%Z
      then SF2Prim (binary_normalize prec emax
                      ((if neg then Zneg d else Zpos d) * 10 ^ exp10)%Z 0 false)
      else SF2Prim (SFdiv prec emax (S754_finite neg d 0)
                      (S754_finite false (Z.to_pos (10 ^ (- exp10))) 0))
  end.

Definition is_digit (c : code_unit) : bool := ((48 <=? c) && (c <=? 57))%N.

Definition is_json_space (c : code_unit) : bool :=
  ((c =? 32) || (c =? 9) || (c =? 10) || (c =? 13))%N.

(** White space and line terminators of the language. *)
Definition is_space (c : code_unit) : bool :=
  ((c =? 32) || ((9 <=? c) && (c <=? 13)) || (c =? 0xA0) || (c =? 0x1680) ||
   ((0x2000 <=? c) && (c <=? 0x200A)) || (c =? 0x2028) || (c =? 0x2029) ||
   (c =? 0x202F) || (c =? 0x205F) || (c =? 0x3000) || (c =? 0xFEFF))%N.

Fixpoint drop_while (p : code_unit -> bool) (s : jsstring) : jsstring :=
  match s with
  | c :: r => if p c then drop_while p r else s
  | [] => []
  end.

Fixpoint scan_digits (s : jsstring) (acc : N) (n : nat) : N * nat * jsstring :=
  match s with
  | c :: r => if is_digit c then scan_digits r (10 * acc + (c - 48))%N (S n)
              else (acc, n, s)
  | [] => (acc, n, [])
  end.

Definition scan_sign (s : jsstring) : bool * jsstring :=
  match s with
  | 45%N :: r => (true, r)
  | 43%N :: r => (false, r)
  | _ => (false, s)
  end.

(** The longest prefix that is a signed decimal literal: sign, mantissa
    digits as one integer, decimal exponent, and what follows. *)
Definition scan_decimal (s : jsstring) : option (bool * N * Z * jsstring) :=
  let '(neg, s1) := scan_sign s in
  let '(ip, ni, s2) := scan_digits s1 0%N O in
  let '(m, nf, s3) :=
    match s2 with
    | 46%N :: r => scan_digits r ip O
    | _ => (ip, O, s2)
    end in
  if (ni + nf =? 0)%nat then None
  else
    let '(ex, s4) :=
      match s3 with
      | c :: r =>
          if ((c =? 101) || (c =? 69))%N then
            let '(eneg, r1) := scan_sign r in
            let '(ev, ne, r2) := scan_digits r1 0%N O in
            if (ne =? 0)%nat then (0%Z, s3)
            else ((if eneg then - Z.of_N ev else Z.of_N ev)%Z, r2)
          else (0%Z, s3)
      | [] => (0%Z, s3)
      end in
    Some (neg, m, (ex - Z.of_nat nf)%Z, s4).

(** [parseFloat]. *)
Definition parseFloat (s : jsstring) : number :=
  let t := drop_while is_space s in
  let '(neg, u) := scan_sign t in
  if starts_with (js "Infinity") u then (if neg then neg_infinity else infinity)
  else match scan_decimal t with
       | Some (neg, m, ex, _) => decimal_to_number neg m ex
       | None => nan
       end.

Fixpoint scan_radix (radix : N) (s : jsstring) (acc : N) (n : nat) : option N :=
  match s with
  | [] => if (n =? 0)%nat then None else Some acc
  | c :: r =>
      let d := if is_digit c then (c - 48)%N
               else if ((97 <=? c) && (c <=? 102))%N then (c - 87)%N
               else if ((65 <=? c) && (c <=? 70))%N then (c - 55)%N
               else radix in
      if (d <? radix)%N then scan_radix radix r (radix * acc + d)%N (S n) else None
  end.

(** [StringToNumber]. *)
Definition string_to_number (s : jsstring) : number :=
  let t := rev (drop_while is_space (rev (drop_while is_space s))) in
  match t with
  | [] => zero
  | 48%N :: x :: r =>
      let radix := if ((x =? 120) || (x =? 88))%N then 16%N
                   else if ((x =? 111) || (x =? 79))%N then 8%N
                   else if ((x =? 98) || (x =? 66))%N then 2%N else 0%N in
      if (radix =? 0)%N then
        match scan_decimal t with
        | Some (neg, m, ex, []) => decimal_to_number neg m ex
        | _ => nan
        end
      else match scan_radix radix r 0%N O with
           | Some n => number_of_Z (Z.of_N n)
           | None => nan
           end
  | _ =>
      let '(neg, u) := scan_sign t in
      if str_eqb u (js "Infinity") then (if neg then neg_infinity else infinity)
      else match scan_decimal t with
           | Some (neg, m, ex, []) => decimal_to_number neg m ex
           | _ => nan
           end
  end.

(** *** JSON *)

Definition hex_digit (c : code_unit) : option N :=
  if is_digit c then Some (c - 48)%N
  else if ((97 <=? c) && (c <=? 102))%N then Some (c - 87)%N
  else if ((65 <=? c) && (c <=? 70))%N then Some (c - 55)%N
  else None.

(** The characters of a string literal after its opening quote, up to the
    closing one; [acc] holds what was read, reversed. *)
Fixpoint parse_string_body (s : jsstring) (acc : jsstring) : option (jsstring * jsstring) :=
  match s with
  | [] => None
  | c :: r =>
      if (c =? 34)%N then Some (rev acc, r)
      else if (c <? 32)%N then None
      else if (c =? 92)%N then
        match r with
        | [] => None
        | e :: r2 =>
            if (e =? 34)%N then parse_string_body r2 (34%N :: acc)
            else if (e =? 92)%N then parse_string_body r2 (92%N :: acc)
            else if (e =? 47)%N then parse_string_body r2 (47%N :: acc)
            else if (e =? 98)%N then parse_string_body r2 (8%N :: acc)
            else if (e =? 102)%N then parse_string_body r2 (12%N :: acc)
            else if (e =? 110)%N then parse_string_body r2 (10%N :: acc)
            else if (e =? 114)%N then parse_string_body r2 (13%N :: acc)
            else if (e =? 116)%N then parse_string_body r2 (9%N :: acc)
            else if (e =? 117)%N then
              match r2 with
              | h1 :: h2 :: h3 :: h4 :: r6 =>
                  match hex_digit h1, hex_digit h2, hex_digit h3, hex_digit h4 with
                  | Some a, Some b, Some c', Some d =>
                      parse_string_body r6 ((4096 * a + 256 * b + 16 * c' + d)%N :: acc)
                  | _, _, _, _ => None
                  end
              | _ => None
              end
            else None
        end
      else parse_string_body r (c :: acc)
  end.

(** A JSON number: no leading [+], no leading zero before another digit, and
    digits on both sides of the point. *)
Definition parse_json_number (s : jsstring) : option (value * jsstring) :=
  let '(neg, s1) := match s with 45%N :: r => (true, r) | _ => (false, s) end in
  let '(ip, ni, s2) := scan_digits s1 0%N O in
  let leading_zero := match s1 with
                      | 48%N :: _ => negb (ni =? 1)%nat
                      | _ => false
                      end in
  let bare_point := match s2 with
                    | 46%N :: c :: _ => negb (is_digit c)
                    | 46%N :: [] => true
                    | _ => false
                    end in
  if (ni =? 0)%nat || leading_zero || bare_point then None
  else match scan_decimal s with
       | Some (_, m, ex, rest) => Some (VNum (decimal_to_number neg m ex), rest)
       | None => None
       end.

Definition expect (word : string) (v : value) (s : jsstring) : option (value * jsstring) :=
  if starts_with (js word) s then Some (v, skipn (length (js word)) s) else None.

Fixpoint parse_value (fuel : nat) (s : jsstring) : option (value * jsstring) :=
  match fuel with
  | O => None
  | S fuel' =>
      match drop_while is_json_space s with
      | [] => None
      | c :: r =>
          if (c =? 123)%N then
            match drop_while is_json_space r with
            | 125%N :: rest => Some (VObj [], rest)
            | after => parse_members fuel' after []
            end
          else if (c =? 91)%N then
            match drop_while is_json_space r with
            | 93%N :: rest => Some (VArr [], rest)
            | after => parse_elements fuel' after []
            end
          else if (c =? 34)%N then
            match parse_string_body r [] with
            | Some (str, rest) => Some (VStr str, rest)
            | None => None
            end
          else if (c =? 116)%N then expect "true" (VBool true) (c :: r)
          else if (c =? 102)%N then expect "false" (VBool false) (c :: r)
          else if (c =? 110)%N then expect "null" VNull (c :: r)
          else parse_json_number (c :: r)
      end
  end
with parse_elements (fuel : nat) (s : jsstring) (acc : list value)
    : option (value * jsstring) :=
  match fuel with
  | O => None
  | S fuel' =>
      match parse_value fuel' s with
      | None => None
      | Some (v, rest) =>
          match drop_while is_json_space rest with
          | 44%N :: more => parse_elements fuel' more (v :: acc)
          | 93%N :: more => Some (VArr (rev (v :: acc)), more)
          | _ => None
          end
      end
  end
with parse_members (fuel : nat) (s : jsstring) (acc : list (jsstring * value))
    : option (value * jsstring) :=
  match fuel with
  | O => None
  | S fuel' =>
      match drop_while is_json_space s with
      | 34%N :: r =>
          match parse_string_body r [] with
          | None => None
          | Some (key, rest) =>
              match drop_while is_json_space rest with
              | 58%N :: rest' =>
                  match parse_value fuel' rest' with
                  | None => None
                  | Some (v, rest'') =>
                      let acc' := set_property key v acc in
                      match drop_while is_json_space rest'' with
                      | 44%N :: more => parse_members fuel' more acc'
                      | 125%N :: more => Some (VObj acc', more)
                      | _ => None
                      end
                  end
              | _ => None
              end
          end
      | _ => None
      end
  end.

(** [JSON.parse]. *)
Definition JSON_parse (text : jsstring) : completion value :=
  match parse_value (2 * length text + 2) text with
  | Some (v, rest) =>
      match drop_while is_json_space rest with
      | [] => Normal v
      | _ :: _ => Throw (mkError SyntaxError (js "Unexpected non-whitespace character after JSON"))
      end
  | None => Throw (mkError SyntaxError (js "Unexpected token in JSON"))
  end.

(** *** Printing a fractional number: the shortest digits that read back *)

(** [10^p <= num / den]. *)
Definition pow10_le (p num den : Z) : bool :=
  if (0 <=? p)%Z then (10 ^ p * den <=? num)%Z else (den <=? num * 10 ^ (- p))%Z.

(** The [n] with [10^(n-1) <= num/den < 10^n], searched downward from [n]. *)
Fixpoint find_magnitude (fuel : nat) (n num den : Z) : Z :=
  match fuel with
  | O => n
  | S fuel' => if pow10_le (n - 1) num den then n
               else find_magnitude fuel' (n - 1)%Z num den
  end.

(** [floor (num / den / 10^t)]. *)
Definition scaled_floor (t num den : Z) : Z :=
  if (0 <=? t)%Z then (num / (den * 10 ^ t))%Z else (num * 10 ^ (- t) / den)%Z.

(** Where [num/den] lies between [lo * 10^t] and [(lo+1) * 10^t]: [Lt] nearer
    the lower one, [Gt] nearer the upper one, [Eq] half way. *)
Definition side (lo t num den : Z) : comparison :=
  if (0 <=? t)%Z then (2 * num ?= (2 * lo + 1) * 10 ^ t * den)%Z
  else (2 * num * 10 ^ (- t) ?= (2 * lo + 1) * den)%Z.

(** The first [k] for which a [k]-digit decimal [s * 10^(n-k)] reads back as
    [x]; of two such decimals the nearer, at a tie the even one. *)
Fixpoint shortest (fuel : nat) (k n : Z) (x : number) (num den : Z) : Z * Z :=
  match fuel with
  | O => (0%Z, 0%Z)
  | S fuel' =>
      let t := (n - k)%Z in
      let lo := scaled_floor t num den in
      let hi := (lo + 1)%Z in
      let reads c := PrimFloat.eqb (decimal_to_number false (Z.to_N c) t) x in
      match reads lo, reads hi with
      | true, true =>
          match side lo t num den with
          | Lt => (lo, t)
          | Gt => (hi, t)
          | Eq => if Z.even lo then (lo, t) else (hi, t)
          end
      | true, false => (lo, t)
      | false, true => (hi, t)
      | false, false => shortest fuel' (k + 1)%Z n x num den
      end
  end.

Definition strip_zeros (digits : jsstring) : jsstring :=
  rev (drop_while (fun c => (c =? 48)%N) (rev digits)).

(** The notation of [Number::toString] for the digits [ds] of a number in
    [10^(n-1), 10^n). *)
Definition notation (ds : jsstring) (n : Z) : jsstring :=
  let k := Z.of_nat (length ds) in
  if ((k <=? n) && (n <=? 21))%Z then ds ++ repeat 48%N (Z.to_nat (n - k))
  else if ((0 <? n) && (n <=? 21))%Z
  then firstn (Z.to_nat n) ds ++ js "." ++ skipn (Z.to_nat n) ds
  else if ((-6 <? n) && (n <=? 0))%Z
  then js "0." ++ repeat 48%N (Z.to_nat (- n)) ++ ds
  else
    let exponent := (if (0 <=? n - 1)%Z then js "+" else js "-") ++
                    dec (Z.to_N (Z.abs (n - 1))) in
    match ds with
    | [d] => [d] ++ js "e" ++ exponent
    | d :: more => [d] ++ js "." ++ more ++ js "e" ++ exponent
    | [] => []
    end.

Definition fraction_to_string (x : number) : jsstring :=
  match Prim2SF x with
  | S754_finite _ m e =>
      let num := (Zpos m * 2 ^ Z.max e 0)%Z in
      let den := (2 ^ Z.max (- e) 0)%Z in
      let n := find_magnitude 700 310%Z num den in
      let '(s, t) := shortest 17 1%Z n x num den in
      let all := dec (Z.to_N s) in
      notation (strip_zeros all) (t + Z.of_nat (length all))
  | _ => []
  end.

Definition describe (v : value) : jsstring :=
  match v with
  | VNull => js "null"
  | VUndefined => js "undefined"
  | _ => js "value"
  end.

Definition type_error_message (f : fault) : jsstring :=
  match f with
  | CannotReadProperty base prop =>
      js "Cannot read properties of " ++ describe base ++ js " (reading '" ++ prop ++ js "')"
  | CannotSetProperty base prop =>
      js "Cannot set properties of " ++ describe base ++ js " (setting '" ++ prop ++ js "')"
  | NotAFunction _ prop => prop ++ js " is not a function"
  | CannotConvertToPrimitive => js "Cannot convert object to primitive value"
  end.

End Reference.

Definition ref_engine : engine :=
  {| toLowerCase := map latin_lower;
     toUpperCase := map ascii_upper;
     JSON_parse := Reference.JSON_parse;
     string_to_number := Reference.string_to_number;
     parseFloat := Reference.parseFloat;
     fraction_to_string := Reference.fraction_to_string;
     type_error_message := Reference.type_error_message |}.

(** ** Vocabulary of the properties *)

(** What real engines do on Basic Latin: a string of Basic Latin is
    lower-cased letter by letter, and a lower-cased string lies in Basic Latin
    only if every code unit of the original does or is the Kelvin sign. *)
Record conforming (E : engine) : Prop := {
  lower_ascii : forall s, Forall is_ascii s -> toLowerCase E s = map ascii_lower s;
  lower_ascii_image :
    forall s, Forall is_ascii (toLowerCase E s) -> toLowerCase E s = map latin_lower s
}.

Definition lower_letter (c : code_unit) : Prop := (97 <= c <= 122)%N.

(** [s] spells [word], a word in lower case, up to case: the test that decides
    [is_casing_of]. *)
Definition spells (word : string) (s : jsstring) : bool :=
  str_eqb (map ascii_lower s) (js word).

(** The markup of the element [h]. *)
Definition html_of (w : world) (h : handle) : option jsstring :=
  option_map innerHTML (nth_error (document w) h).

Definition is_pane (el : element) : bool := has_class (js "tab-content") el.
Definition is_button (el : element) : bool := has_class (js "tab-btn") el.
Definition is_active (el : element) : bool := has_class (js "active") el.

Definition is_tab_pane (d : list element) (h : handle) : bool :=
  match nth_error d h with
  | Some el => is_pane el
  | None => false
  end.

(** The tab panes that are shown, and the tab buttons that are lit. *)
Definition active_tabs (d : list element) : list handle :=
  indices_where (fun el => is_pane el && is_active el) O d.

Definition active_buttons (d : list element) : list handle :=
  indices_where (fun el => is_button el && is_active el) O d.

(** What the two loops of [openTab] leave of an element. *)
Definition deactivated (el : element) : element :=
  let el := if has_class (js "tab-content") el then remove_class (js "active") el else el in
  if has_class (js "tab-btn") el then remove_class (js "active") el else el.

Definition activate : element -> element := add_class (js "active").

(** The document after [openTab] found its target: every pane and button
    deactivated, then the target and the clicked element activated. *)
Definition switched (target clicked : handle) (d : list element) : list element :=
  update_at clicked activate (update_at target activate (map deactivated d)).

(** The same, element by element. *)
Definition touch (target clicked j : handle) (el : element) : element :=
  let el := deactivated el in
  let el := if (j =? target)%nat then activate el else el in
  if (j =? clicked)%nat then activate el else el.

(** [n] calls in a row. *)
Fixpoint repeatedly (n : nat) (call : M unit) : M unit :=
  match n with
  | O => ret tt
  | S n' => call ;; repeatedly n' call
  end.

(** [{ prediction: label }] and [{ prediction: label, confidence: c }]. *)
Definition result_object (label : jsstring) (confidence : option value) : value :=
  VObj ((js "prediction", VStr label) ::
        match confidence with
        | Some c => [(js "confidence", c)]
        | None => []
        end).

Definition prediction_object (p : jsstring * option number) : value :=
  result_object (fst p) (option_map VNum (snd p)).

(** The confidence [displayResult] shows for a number or for none. *)
Definition shown_confidence (c : option number) : number :=
  match c with
  | Some x => if truthy (VNum x) then x else 0.85%float
  | None => 0.85%float
  end.

(** The confidence cell of a table row. *)
Definition confidence_cell (E : engine) (c : option number) : jsstring :=
  match c with
  | Some x => if truthy (VNum x) then toFixed E (x * 100)%float 1 ++ js "%" else js "N/A"
  | None => js "N/A"
  end.

(** The rows of the table for predictions that carry a label. *)
Fixpoint table_body (E : engine) (ps : list (jsstring * option number)) (index : nat)
    : jsstring :=
  match ps with
  | [] => []
  | p :: rest =>
      Static.row_markup (dec (N.of_nat (index + 1)))
        (Static.className_of (toLowerCase E (fst p))) (fst p)
        (confidence_cell E (snd p)) ++
      table_body E rest (S index)
  end.

(** A batch answer: the predictions, the two counts when given, and nothing
    about columns. *)
Definition batch_object (ps : list (jsstring * option number))
    (benign malignant : option number) : value :=
  VObj ((js "predictions", VArr (map prediction_object ps)) ::
        match benign with Some b => [(js "benign_count", VNum b)] | None => [] end ++
        match malignant with Some m => [(js "malignant_count", VNum m)] | None => [] end).

(** The count the summary shows: the one given unless it is falsy, else the
    one counted. *)
Definition count_shown (given : option number) (counted : nat) : number :=
  match given with
  | Some x => if truthy (VNum x) then x else number_of_nat counted
  | None => number_of_nat counted
  end.


(** *** Pages, services and forms to run the scripts on *)

Definition tabbed_page : list element :=
  [ {| el_id := None; classList := [js "tab-btn"; js "active"]; innerHTML := js "Manual" |};
    {| el_id := None; classList := [js "tab-btn"]; innerHTML := js "CSV" |};
    {| el_id := Some (js "manual"); classList := [js "tab-content"; js "active"];
       innerHTML := [] |};
    {| el_id := Some (js "csv"); classList := [js "tab-content"]; innerHTML := [] |};
    {| el_id := Some (js "manualResult"); classList := []; innerHTML := [] |};
    {| el_id := Some (js "csvResult"); classList := []; innerHTML := [] |} ].

Definition fresh_world : world :=
  {| document := tabbed_page; console := []; sent := []; timers := [];
     randoms_drawn := O |}.

Definition answering (r : response) : browser :=
  {| server := fun _ => Resolves r; random := fun _ => 0%float |}.

Definition unreachable : browser :=
  {| server := fun _ => Rejects (mkError TypeError (js "Failed to fetch"));
     random := fun _ => 0%float |}.

Definition server_error : response :=
  {| status := 500; statusText := js "Internal Server Error";
     resp_body := BodyText (js "model not loaded") |}.

Definition ok_with (text : jsstring) : response :=
  {| status := 200; statusText := js "OK"; resp_body := BodyText text |}.

Definition csv_upload : formdata :=
  [(js "file", FormFile {| file_name := js "samples.csv"; file_size := 2048 |})].


Definition csv_button_click : event := {| currentTarget := 1 |}.

(** What [new FormData(form)] holds for a file input with nothing chosen: an
    entry whose value is an empty [File], without a name. *)
Definition empty_selection : formdata :=
  [(js "file", FormFile {| file_name := []; file_size := 0 |})].

(** *** Vocabulary of the further properties *)

(** An element without its [active] class. *)
Definition unlit : element -> element := remove_class (js "active").

(** The element of a handle is a tab pane or a tab button. *)
Definition tab_element (d : list element) (h : handle) : bool :=
  match nth_error d h with
  | Some el => is_pane el || is_button el
  | None => false
  end.

(** A handle whose element is lit without being a pane or a button. *)
Definition lit_outside_tabs (d : list element) (h : handle) : bool :=
  match nth_error d h with
  | Some el => is_active el && negb (is_pane el || is_button el)
  | None => false
  end.

(** Calls of [openTab] in a row, each on the page the one before left,
    whether it returned or threw. *)
Definition static_clicks (calls : list (event * jsstring)) (w : world) : world :=
  fold_left (fun w c => final_world (Static.openTab (fst c) (snd c) w)) calls w.

Definition templates_clicks (E : engine) (calls : list (event * jsstring)) (w : world)
    : world :=
  fold_left (fun w c => final_world (Templates.openTab E (fst c) (snd c) w)) calls w.

(** The document either script leaves. *)
Definition after_openTab (evt : event) (id : jsstring) (d : list element) : list element :=
  match find_index (has_id id) d with
  | Some t => switched t (currentTarget evt) d
  | None => map deactivated d
  end.

(** A call of [openTab] whose target, when there is one, and whose clicked
    element are tab panes or tab buttons. *)
Definition lights_tabs_only (evt : event) (id : jsstring) (d : list element) : bool :=
  match find_index (has_id id) d with
  | Some t => tab_element d t && tab_element d (currentTarget evt)
  | None => true
  end.

(** A run that stops at the assignment to [innerHTML] of a missing element:
    nothing was sent, drawn or scheduled, and the page is as it was. *)
Definition fails_fast {A} (E : engine) (o : outcome A) (w : world) : Prop :=
  exists w',
    o = Raised (type_error E (CannotSetProperty VNull (js "innerHTML"))) w' /\
    document w' = document w /\ sent w' = sent w /\ timers w' = timers w /\
    randoms_drawn w' = randoms_drawn w.

(** A handler that returns normally when the element [id] is on the page,
    and fails fast when it is not. *)
Definition needs_region {A} (E : engine) (id : string) (run : M A) (w : world) : Prop :=
  match find_index (has_id (js id)) (document w) with
  | Some _ => throws (run w) = false
  | None => fails_fast E (run w) w
  end.

(** A label that spells neither word. *)
Definition spells_neither (label : jsstring) : bool :=
  negb (spells "benign" label) && negb (spells "malignant" label).




(** The timer [simulateCSVPrediction] sets for a container. *)
Definition mock_timer (container : handle) : Templates.csv_timer :=
  {| Templates.csv_container := container; Templates.csv_delay := 2000 |}.

(** The loading text of the CSV form of the templates script. *)
Definition processing_csv : jsstring :=
  js "<div class=" ++ quoted "loading" ++ js "></div>Processing CSV file...".

(** The percentage of a table row of the templates script: a missing
    confidence multiplies as [NaN]. *)
Definition templates_cell (E : engine) (c : option number) : jsstring :=
  toFixed E (match c with Some x => x | None => nan end * 100)%float 1.

(** The rows of the table of the templates script for predictions that carry
    a label. *)
Fixpoint templates_table_body (E : engine) (ps : list (jsstring * option number))
    (index : nat) : jsstring :=
  match ps with
  | [] => []
  | p :: rest =>
      Templates.csv_row_markup (dec (N.of_nat (index + 1)))
        (Templates.className_of (toLowerCase E (fst p))) (fst p)
        (templates_cell E (snd p)) ++
      templates_table_body E rest (S index)
  end.

(** The element [id] is on the page. *)
Definition on_page (id : string) (w : world) : bool :=
  match find_index (has_id (js id)) (document w) with
  | Some _ => true
  | None => false
  end.

(** The world after the console took more entries. *)
Definition logged (entries : list log_entry) (w : world) : world :=
  {| document := document w; console := console w ++ entries; sent := sent w;
     timers := timers w; randoms_drawn := randoms_drawn w |}.

(** The field [j] is the one [querySelector] finds for the name [k]. *)
Definition targets (k : string) (fs : list field) (j : nat) : bool :=
  match find_index (named (js k)) fs with
  | Some i => (i =? j)%nat
  | None => false
  end.

(** The number the field [j] ends with when the entries are written in
    order, if any of them is written to it. *)
Fixpoint assigned (entries : list (string * number)) (fs : list field) (j : nat)
    : option number :=
  match entries with
  | [] => None
  | (k, x) :: rest =>
      match assigned rest fs j with
      | Some y => Some y
      | None => if targets k fs j then Some x else None
      end
  end.

(** No string occurs twice. *)
Fixpoint distinct (l : list jsstring) : bool :=
  match l with
  | [] => true
  | x :: rest => negb (existsb (str_eqb x) rest) && distinct rest
  end.

(** * Properties *)

(** ** Strings and lists *)

Lemma str_eqb_refl (a : jsstring) : str_eqb a a = true.
Proof.
  induction a as [|x a IH]; simpl; [reflexivity|].
  now rewrite N.eqb_refl.
Qed.

Lemma str_eqb_eq (a b : jsstring) : str_eqb a b = true <-> a = b.
Proof.
  split.
  - revert b. induction a as [|x a IH]; intros [|y b] H; simpl in H;
      try discriminate; [reflexivity|].
    apply andb_true_iff in H. destruct H as [Hxy Hab].
    apply N.eqb_eq in Hxy. subst y. f_equal. now apply IH.
  - intros ->. apply str_eqb_refl.
Qed.

Lemma starts_with_app (p s : jsstring) : starts_with p (p ++ s) = true.
Proof.
  induction p as [|x p IH]; simpl; [reflexivity|].
  now rewrite N.eqb_refl.
Qed.

Lemma includes_unfold (s sub : jsstring) :
  includes s sub =
  starts_with sub s || match s with [] => false | _ :: s' => includes s' sub end.
Proof. destruct s; reflexivity. Qed.

Lemma includes_app (a sub b : jsstring) : includes (a ++ sub ++ b) sub = true.
Proof.
  induction a as [|x a IH].
  - simpl. rewrite includes_unfold, starts_with_app. reflexivity.
  - simpl. rewrite IH. apply orb_true_r.
Qed.

Lemma substring_prefix (s : jsstring) (n : nat) : substring s 0 n = firstn n s.
Proof.
  unfold substring. simpl. rewrite Nat.sub_0_r.
  destruct (Nat.le_ge_cases n (length s)) as [H|H].
  - now rewrite Nat.min_l.
  - rewrite Nat.min_r by assumption. now rewrite !firstn_all2.
Qed.

Lemma nth_error_update_at {A} (f : A -> A) (l : list A) (i j : nat) :
  nth_error (update_at i f l) j =
  if (j =? i)%nat then option_map f (nth_error l j) else nth_error l j.
Proof.
  revert i j. induction l as [|x l IH]; intros i j.
  - destruct i, j; simpl; try reflexivity. now destruct (j =? i)%nat.
  - destruct i as [|i], j as [|j]; simpl; try reflexivity. apply IH.
Qed.

Lemma nth_error_update_at_same {A} (f : A -> A) (l : list A) (i : nat) :
  nth_error (update_at i f l) i = option_map f (nth_error l i).
Proof. now rewrite nth_error_update_at, Nat.eqb_refl. Qed.

Lemma find_index_some {A} (p : A -> bool) (l : list A) (i : nat) :
  find_index p l = Some i -> exists x, nth_error l i = Some x /\ p x = true.
Proof.
  revert i. induction l as [|x l IH]; intros i H; simpl in H; [discriminate|].
  destruct (p x) eqn:Hp.
  - injection H as <-. now exists x.
  - destruct (find_index p l) as [k|]; [|discriminate].
    injection H as <-. now apply IH.
Qed.

Lemma find_index_map {A} (p : A -> bool) (f : A -> A) (l : list A) :
  (forall x, p (f x) = p x) -> find_index p (map f l) = find_index p l.
Proof.
  intros H. induction l as [|x l IH]; simpl; [reflexivity|].
  now rewrite H, IH.
Qed.

Lemma find_index_pointwise {A} (p : A -> bool) (l l' : list A) :
  (forall j, option_map p (nth_error l' j) = option_map p (nth_error l j)) ->
  find_index p l' = find_index p l.
Proof.
  revert l'. induction l as [|x l IH]; intros [|x' l'] H.
  - reflexivity.
  - specialize (H O). discriminate.
  - specialize (H O). discriminate.
  - simpl. pose proof (H O) as H0. simpl in H0. injection H0 as ->.
    rewrite (IH l'); [reflexivity|]. intros j. apply (H (S j)).
Qed.

Lemma indices_where_map {A} (p : A -> bool) (f : A -> A) (l : list A) (k : nat) :
  (forall x, p (f x) = p x) -> indices_where p k (map f l) = indices_where p k l.
Proof.
  intros H. revert k. induction l as [|x l IH]; intros k; simpl; [reflexivity|].
  now rewrite H, IH.
Qed.

Lemma indices_where_none {A} (p : A -> bool) (l : list A) (k : nat) :
  (forall x, In x l -> p x = false) -> indices_where p k l = [].
Proof.
  revert k. induction l as [|x l IH]; intros k H; simpl; [reflexivity|].
  rewrite (H x) by now left. apply IH. intros y Hy. apply H. now right.
Qed.

Lemma indices_where_single {A} (p : A -> bool) (l : list A) (k t : nat) (x : A) :
  nth_error l t = Some x ->
  p x = true ->
  (forall j y, j <> t -> nth_error l j = Some y -> p y = false) ->
  indices_where p k l = [(k + t)%nat].
Proof.
  revert k t. induction l as [|a l IH]; intros k t Hx Hp Hothers.
  - destruct t; discriminate.
  - destruct t as [|t]; simpl in *.
    + injection Hx as ->. rewrite Hp. simpl. rewrite Nat.add_0_r. f_equal.
      apply indices_where_none. intros y Hy.
      destruct (In_nth_error _ _ Hy) as [j Hj].
      apply (Hothers (S j) y); [discriminate|exact Hj].
    + rewrite (Hothers O a) by (try discriminate; reflexivity). simpl.
      rewrite (IH (S k) t Hx Hp).
      * f_equal. lia.
      * intros j y Hj Hy. apply (Hothers (S j) y); [lia|exact Hy].
Qed.

(** A loop that updates the elements of a collection one by one maps over the
    document. *)
Lemma fold_update_indices {A} (p : A -> bool) (g : A -> A) (pre l : list A) :
  fold_left (fun d h => update_at h g d) (indices_where p (length pre) l) (pre ++ l) =
  pre ++ map (fun x => if p x then g x else x) l.
Proof.
  revert pre. induction l as [|x l IH]; intros pre; simpl; [reflexivity|].
  assert (Hshift : forall y, pre ++ y :: l = (pre ++ [y]) ++ l)
    by (intros y; now rewrite <- app_assoc).
  assert (Hlen : forall y : A, S (length pre) = length (pre ++ [y]))
    by (intros y; rewrite length_app; simpl; lia).
  destruct (p x); simpl.
  - replace (update_at (length pre) g (pre ++ x :: l)) with (pre ++ g x :: l).
    + rewrite (Hshift (g x)), (Hlen (g x)), IH. now rewrite <- app_assoc.
    + clear. induction pre as [|a pre IHp]; simpl; [reflexivity|]. now rewrite <- IHp.
  - rewrite (Hshift x), (Hlen x), IH. now rewrite <- app_assoc.
Qed.

(** Unfolding the page monad. *)
Ltac run_page :=
  cbv [bind ret raise lift try_catch console_log console_warn console_error
       console_write getElementById getElementByIdOf getElementsByClassName
       set_innerHTML classList_add classList_remove setTimeout fetch Math_random
       set_document];
  cbn [document console sent timers randoms_drawn].

(** The markup of an element that was just assigned. *)
Ltac read_html Hel :=
  unfold html_of; cbn [document]; rewrite !nth_error_update_at_same, Hel; reflexivity.

(** ** The class list *)

Lemma has_class_remove_same (c : jsstring) (el : element) :
  has_class c (remove_class c el) = false.
Proof.
  unfold has_class, remove_class. simpl.
  induction (classList el) as [|x l IH]; simpl; [reflexivity|].
  destruct (str_eqb c x) eqn:Hx; simpl; [exact IH|].
  now rewrite Hx, IH.
Qed.

Lemma has_class_remove_other (c c' : jsstring) (el : element) :
  str_eqb c c' = false ->
  has_class c' (remove_class c el) = has_class c' el.
Proof.
  intros Hne. unfold has_class, remove_class. simpl.
  induction (classList el) as [|x l IH]; simpl; [reflexivity|].
  destruct (str_eqb c x) eqn:Hx; simpl.
  - apply str_eqb_eq in Hx. subst x.
    destruct (str_eqb c' c) eqn:Hc; [|exact IH].
    apply str_eqb_eq in Hc. subst c'. now rewrite str_eqb_refl in Hne.
  - now rewrite IH.
Qed.

Lemma has_class_add_same (c : jsstring) (el : element) :
  has_class c (add_class c el) = true.
Proof.
  unfold add_class. destruct (has_class c el) eqn:H.
  - unfold has_class in *. simpl. exact H.
  - unfold has_class. simpl. rewrite existsb_app. simpl.
    rewrite str_eqb_refl. now rewrite orb_true_r.
Qed.

Lemma has_class_add_other (c c' : jsstring) (el : element) :
  str_eqb c' c = false ->
  has_class c' (add_class c el) = has_class c' el.
Proof.
  intros Hne. unfold add_class. destruct (has_class c el) eqn:H.
  - reflexivity.
  - unfold has_class. simpl. rewrite existsb_app. simpl.
    now rewrite Hne, !orb_false_r.
Qed.

Lemma remove_class_twice (c : jsstring) (el : element) :
  remove_class c (remove_class c el) = remove_class c el.
Proof.
  unfold remove_class. simpl. f_equal.
  induction (classList el) as [|x l IH]; simpl; [reflexivity|].
  destruct (str_eqb c x) eqn:Hx; simpl; [exact IH|].
  now rewrite Hx, IH.
Qed.

Lemma add_class_twice (c : jsstring) (el : element) :
  add_class c (add_class c el) = add_class c el.
Proof.
  unfold add_class at 1. now rewrite has_class_add_same.
Qed.

Lemma remove_add_remove (c : jsstring) (el : element) :
  remove_class c (add_class c (remove_class c el)) = remove_class c el.
Proof.
  unfold add_class. rewrite has_class_remove_same.
  unfold remove_class. simpl. f_equal.
  rewrite filter_app. simpl. rewrite str_eqb_refl. simpl. rewrite app_nil_r.
  induction (classList el) as [|x l IH]; simpl; [reflexivity|].
  destruct (str_eqb c x) eqn:Hx; simpl; [exact IH|].
  now rewrite Hx, IH.
Qed.

(** ** What [openTab] does to one element *)

Lemma deactivated_cases (el : element) :
  deactivated el =
  if is_pane el || is_button el then remove_class (js "active") el else el.
Proof.
  unfold deactivated, is_pane, is_button.
  destruct (has_class (js "tab-content") el) eqn:Hp; simpl.
  - rewrite has_class_remove_other by reflexivity.
    destruct (has_class (js "tab-btn") el); [apply remove_class_twice|reflexivity].
  - reflexivity.
Qed.

Lemma deactivated_pane (el : element) : is_pane (deactivated el) = is_pane el.
Proof.
  rewrite deactivated_cases. destruct (is_pane el || is_button el); [|reflexivity].
  unfold is_pane. now apply has_class_remove_other.
Qed.

Lemma deactivated_button (el : element) : is_button (deactivated el) = is_button el.
Proof.
  rewrite deactivated_cases. destruct (is_pane el || is_button el); [|reflexivity].
  unfold is_button. now apply has_class_remove_other.
Qed.

Lemma deactivated_inactive (el : element) :
  is_pane el || is_button el = true -> is_active (deactivated el) = false.
Proof.
  intros H. rewrite deactivated_cases, H. apply has_class_remove_same.
Qed.

Lemma deactivated_id (el : element) : el_id (deactivated el) = el_id el.
Proof.
  rewrite deactivated_cases. now destruct (is_pane el || is_button el).
Qed.

Lemma deactivated_twice (el : element) : deactivated (deactivated el) = deactivated el.
Proof.
  rewrite (deactivated_cases (deactivated el)), deactivated_pane, deactivated_button.
  rewrite (deactivated_cases el).
  destruct (is_pane el || is_button el); [apply remove_class_twice|reflexivity].
Qed.

Lemma activate_pane (el : element) : is_pane (activate el) = is_pane el.
Proof. unfold is_pane, activate. now apply has_class_add_other. Qed.

Lemma activate_button (el : element) : is_button (activate el) = is_button el.
Proof. unfold is_button, activate. now apply has_class_add_other. Qed.

Lemma activate_active (el : element) : is_active (activate el) = true.
Proof. apply has_class_add_same. Qed.

Lemma activate_twice (el : element) : activate (activate el) = activate el.
Proof. apply add_class_twice. Qed.

Lemma reactivated (el : element) :
  activate (deactivated (activate (deactivated el))) = activate (deactivated el).
Proof.
  rewrite (deactivated_cases (activate (deactivated el))).
  rewrite activate_pane, activate_button, deactivated_pane, deactivated_button.
  rewrite (deactivated_cases el).
  destruct (is_pane el || is_button el).
  - unfold activate. now rewrite remove_add_remove.
  - apply activate_twice.
Qed.

Lemma nth_error_switched (t ct j : handle) (d : list element) :
  nth_error (switched t ct d) j = option_map (touch t ct j) (nth_error d j).
Proof.
  unfold switched, touch. rewrite !nth_error_update_at, nth_error_map.
  destruct (nth_error d j) as [el|]; simpl;
    destruct (j =? ct)%nat, (j =? t)%nat; reflexivity.
Qed.

Lemma touch_twice (t ct j : handle) (el : element) :
  touch t ct j (touch t ct j el) = touch t ct j el.
Proof.
  unfold touch. destruct (j =? t)%nat, (j =? ct)%nat.
  - rewrite !activate_twice. apply reactivated.
  - apply reactivated.
  - apply reactivated.
  - apply deactivated_twice.
Qed.

Lemma touch_id (t ct j : handle) (el : element) : el_id (touch t ct j el) = el_id el.
Proof.
  unfold touch, activate, add_class.
  destruct (j =? t)%nat, (j =? ct)%nat; simpl; apply deactivated_id.
Qed.

(** Switching twice to the same tab is switching once. *)
Lemma switched_twice (t ct : handle) (d : list element) :
  switched t ct (switched t ct d) = switched t ct d.
Proof.
  apply nth_error_ext. intros j. rewrite !nth_error_switched.
  destruct (nth_error d j) as [el|]; simpl; [|reflexivity].
  now rewrite touch_twice.
Qed.

Lemma find_by_id_deactivated (id : jsstring) (d : list element) :
  find_index (has_id id) (map deactivated d) = find_index (has_id id) d.
Proof.
  apply find_index_map. intros el. unfold has_id. now rewrite deactivated_id.
Qed.

Lemma find_by_id_switched (id : jsstring) (t ct : handle) (d : list element) :
  find_index (has_id id) (switched t ct d) = find_index (has_id id) d.
Proof.
  apply find_index_pointwise. intros j. rewrite nth_error_switched.
  destruct (nth_error d j) as [el|]; simpl; [|reflexivity].
  unfold has_id. now rewrite touch_id.
Qed.

Lemma pane_stays_dark (x : element) : is_pane (deactivated x) && is_active (deactivated x) = false.
Proof.
  rewrite deactivated_pane.
  destruct (is_pane x) eqn:Hp; [|reflexivity].
  rewrite deactivated_inactive; [reflexivity|]. now rewrite Hp.
Qed.

Lemma button_stays_dark (x : element) :
  is_button (deactivated x) && is_active (deactivated x) = false.
Proof.
  rewrite deactivated_button.
  destruct (is_button x) eqn:Hp; [|reflexivity].
  rewrite deactivated_inactive; [reflexivity|]. now rewrite Hp, orb_true_r.
Qed.

(** After a switch the target is the one pane shown, when the clicked element
    is not a pane itself. *)
Lemma active_tabs_switched (t ct : handle) (d : list element) :
  is_tab_pane d t = true ->
  is_tab_pane d ct = false ->
  active_tabs (switched t ct d) = [t].
Proof.
  unfold is_tab_pane. intros Ht Hct.
  destruct (nth_error d t) as [el|] eqn:Hel; [|discriminate].
  assert (Hne : (t =? ct)%nat = false).
  { destruct (t =? ct)%nat eqn:Heq; [|reflexivity].
    apply Nat.eqb_eq in Heq. subst ct. now rewrite Hel, Ht in Hct. }
  unfold active_tabs.
  apply (indices_where_single _ _ O t (touch t ct t el)).
  - now rewrite nth_error_switched, Hel.
  - unfold touch. rewrite Nat.eqb_refl, Hne.
    now rewrite activate_pane, deactivated_pane, Ht, activate_active.
  - intros j y Hj Hy. rewrite nth_error_switched in Hy.
    destruct (nth_error d j) as [x|] eqn:Hx; [|discriminate].
    injection Hy as <-. unfold touch.
    assert (Hjt : (j =? t)%nat = false) by now apply Nat.eqb_neq.
    rewrite Hjt.
    destruct (j =? ct)%nat eqn:Hjc.
    + apply Nat.eqb_eq in Hjc. subst j. rewrite Hx in Hct.
      now rewrite activate_pane, deactivated_pane, Hct.
    + apply pane_stays_dark.
Qed.

Lemma active_tabs_deactivated (d : list element) : active_tabs (map deactivated d) = [].
Proof.
  unfold active_tabs. apply indices_where_none.
  intros y Hy. apply in_map_iff in Hy. destruct Hy as [x [<- _]].
  apply pane_stays_dark.
Qed.

Lemma active_buttons_deactivated (d : list element) :
  active_buttons (map deactivated d) = [].
Proof.
  unfold active_buttons. apply indices_where_none.
  intros y Hy. apply in_map_iff in Hy. destruct Hy as [x [<- _]].
  apply button_stays_dark.
Qed.

(** ** The loops of [openTab] *)

Lemma for_each_remove (hs : list handle) (c : string) (w : world) :
  for_each hs (fun h => classList_remove h c) w =
  Done tt (set_document
             (fold_left (fun d h => update_at h (remove_class (js c)) d) hs (document w)) w).
Proof.
  revert w. induction hs as [|h hs IH]; intros w.
  - destruct w; reflexivity.
  - simpl. unfold bind, classList_remove at 1. rewrite IH. reflexivity.
Qed.

Lemma loop_over_class (cls c : string) (d0 : list element) (w : world) :
  indices_where (has_class (js cls)) O d0 =
  indices_where (has_class (js cls)) O (document w) ->
  for_each (indices_where (has_class (js cls)) O d0)
    (fun h => classList_remove h c) w =
  Done tt (set_document
             (map (fun el => if has_class (js cls) el then remove_class (js c) el else el)
                (document w))
             w).
Proof.
  intros H. rewrite for_each_remove, H.
  pose proof (fold_update_indices (has_class (js cls)) (remove_class (js c)) []
                (document w)) as Hf.
  cbn [length app] in Hf. now rewrite Hf.
Qed.

Lemma loops_deactivate (d : list element) :
  map (fun el => if has_class (js "tab-btn") el then remove_class (js "active") el else el)
    (map (fun el => if has_class (js "tab-content") el
                    then remove_class (js "active") el else el) d) =
  map deactivated d.
Proof. rewrite map_map. reflexivity. Qed.

Lemma buttons_unmoved (d : list element) :
  indices_where (has_class (js "tab-btn")) O d =
  indices_where (has_class (js "tab-btn")) O
    (map (fun el => if has_class (js "tab-content") el
                    then remove_class (js "active") el else el) d).
Proof.
  symmetry. apply indices_where_map. intros el.
  destruct (has_class (js "tab-content") el); [|reflexivity].
  now apply has_class_remove_other.
Qed.

(** [openTab] of the static script, as a function on the document and the
    console. *)
Lemma static_openTab_run (evt : event) (id : jsstring) (w : world) :
  exists w',
    Static.openTab evt id w = Done tt w' /\
    document w' =
      match find_index (has_id id) (document w) with
      | Some t => switched t (currentTarget evt) (document w)
      | None => map deactivated (document w)
      end /\
    console w' = console w ++
      [{| level := LevelLog; args := [ArgStr (js "Tab clicked:"); ArgStr id] |};
       match find_index (has_id id) (document w) with
       | Some _ => {| level := LevelLog;
                      args := [ArgStr (check_mark ++ js " Tab switched to:"); ArgStr id] |}
       | None => {| level := LevelError;
                    args := [ArgStr (cross_mark ++ js " Tab not found:"); ArgStr id] |}
       end].
Proof.
  unfold Static.openTab.
  unfold bind at 1, console_log at 1, console_write.
  unfold bind at 1, getElementsByClassName at 1. cbn [document].
  unfold bind at 1, getElementsByClassName at 1. cbn [document].
  unfold bind at 1.
  rewrite loop_over_class by reflexivity. cbn [document].
  unfold bind at 1.
  rewrite loop_over_class by apply buttons_unmoved.
  unfold set_document at 1 2. cbn [document console sent timers randoms_drawn].
  rewrite loops_deactivate.
  unfold bind at 1, getElementByIdOf. cbn [document].
  rewrite find_by_id_deactivated.
  destruct (find_index (has_id id) (document w)) as [t|]; run_page.
  - eexists. split; [reflexivity|]. split; [reflexivity|].
    cbn [console]. rewrite <- app_assoc. reflexivity.
  - eexists. split; [reflexivity|]. split; [reflexivity|].
    cbn [console]. rewrite <- app_assoc. reflexivity.
Qed.

(** [openTab] of the templates script. *)
Lemma templates_openTab_run (E : engine) (evt : event) (id : jsstring) (w : world) :
  Templates.openTab E evt id w =
  match find_index (has_id id) (document w) with
  | Some t => Done tt (set_document (switched t (currentTarget evt) (document w)) w)
  | None => Raised (type_error E (CannotReadProperty VNull (js "classList")))
              (set_document (map deactivated (document w)) w)
  end.
Proof.
  unfold Templates.openTab.
  unfold bind at 1, getElementsByClassName at 1. cbn [document].
  unfold bind at 1, getElementsByClassName at 1. cbn [document].
  unfold bind at 1.
  rewrite loop_over_class by reflexivity.
  unfold bind at 1.
  rewrite loop_over_class by apply buttons_unmoved.
  unfold set_document at 1 2. cbn [document console sent timers randoms_drawn].
  rewrite loops_deactivate.
  unfold bind at 1, getElementByIdOf. cbn [document].
  rewrite find_by_id_deactivated.
  destruct (find_index (has_id id) (document w)) as [t|]; run_page; reflexivity.
Qed.

Lemma static_openTab_repeated (evt : event) (id : jsstring) (t : handle) (n : nat) :
  forall w,
    find_index (has_id id) (document w) = Some t ->
    exists w',
      repeatedly (S n) (Static.openTab evt id) w = Done tt w' /\
      document w' = switched t (currentTarget evt) (document w).
Proof.
  induction n as [|n IH]; intros w Hfind.
  - destruct (static_openTab_run evt id w) as [w1 [Hrun [Hdoc _]]].
    exists w1. rewrite Hfind in Hdoc. split; [|exact Hdoc].
    simpl. unfold bind. now rewrite Hrun.
  - destruct (static_openTab_run evt id w) as [w1 [Hrun [Hdoc _]]].
    rewrite Hfind in Hdoc.
    destruct (IH w1) as [w' [Hrest Hdoc']].
    { now rewrite Hdoc, find_by_id_switched. }
    exists w'. split.
    + change (repeatedly (S (S n)) (Static.openTab evt id) w)
        with (bind (Static.openTab evt id)
                (fun _ => repeatedly (S n) (Static.openTab evt id)) w).
      unfold bind at 1. now rewrite Hrun.
    + now rewrite Hdoc', Hdoc, switched_twice.
Qed.

Lemma templates_openTab_repeated (E : engine) (evt : event) (id : jsstring)
    (t : handle) (n : nat) :
  forall w,
    find_index (has_id id) (document w) = Some t ->
    exists w',
      repeatedly (S n) (Templates.openTab E evt id) w = Done tt w' /\
      document w' = switched t (currentTarget evt) (document w).
Proof.
  induction n as [|n IH]; intros w Hfind.
  - eexists. split.
    + simpl. unfold bind. rewrite templates_openTab_run, Hfind. reflexivity.
    + reflexivity.
  - destruct (IH (set_document (switched t (currentTarget evt) (document w)) w))
      as [w' [Hrest Hdoc']].
    { cbn [document set_document]. now rewrite find_by_id_switched. }
    exists w'. split.
    + change (repeatedly (S (S n)) (Templates.openTab E evt id) w)
        with (bind (Templates.openTab E evt id)
                (fun _ => repeatedly (S n) (Templates.openTab E evt id)) w).
      unfold bind at 1. now rewrite templates_openTab_run, Hfind.
    + rewrite Hdoc'. cbn [document set_document]. apply switched_twice.
Qed.

(** ** Case *)

Lemma casing_lowers (word s : jsstring) :
  Forall lower_letter word ->
  is_casing_of word s ->
  Forall is_ascii s /\ map ascii_lower s = word.
Proof.
  intros Hword Hcase. induction Hcase as [|c u word s Hcu Hrest IH].
  - split; constructor.
  - inversion Hword as [|? ? Hc Hword']; subst.
    destruct (IH Hword') as [Hascii Hmap]. unfold lower_letter in Hc.
    assert (Hu : is_ascii u /\ ascii_lower u = c).
    { unfold is_ascii, ascii_lower, ascii_upper in *.
      destruct Hcu as [->| ->].
      - split; [lia|].
        destruct ((65 <=? c)%N && (c <=? 90)%N) eqn:Hup; [|reflexivity].
        apply andb_true_iff in Hup. destruct Hup as [_ Hup].
        apply N.leb_le in Hup. lia.
      - replace ((97 <=? c)%N && (c <=? 122)%N) with true
          by (symmetry; apply andb_true_iff; split; apply N.leb_le; lia).
        split; [lia|].
        replace ((65 <=? c - 32)%N && (c - 32 <=? 90)%N) with true
          by (symmetry; apply andb_true_iff; split; apply N.leb_le; lia).
        lia. }
    destruct Hu as [Hu1 Hu2]. split; [now constructor|].
    simpl. now rewrite Hu2, Hmap.
Qed.

Lemma lowered_is_casing (word s : jsstring) :
  Forall (fun c => lower_letter c /\ c <> 107%N) word ->
  map latin_lower s = word ->
  is_casing_of word s.
Proof.
  revert word. induction s as [|u s IH]; intros word Hword Hmap.
  - simpl in Hmap. subst word. constructor.
  - simpl in Hmap. subst word.
    inversion Hword as [|? ? [Hc Hk] Hword']; subst.
    constructor; [|now apply IH].
    unfold latin_lower, ascii_lower, ascii_upper, lower_letter in *.
    destruct (u =? 8490)%N eqn:Hkelvin; [contradiction|].
    destruct ((65 <=? u)%N && (u <=? 90)%N) eqn:Hup.
    + right. apply andb_true_iff in Hup. destruct Hup as [H1 H2].
      apply N.leb_le in H1, H2.
      replace ((97 <=? u + 32)%N && (u + 32 <=? 122)%N) with true
        by (symmetry; apply andb_true_iff; split; apply N.leb_le; lia).
      lia.
    + now left.
Qed.

Lemma spells_lowercase (word : string) (s : jsstring) :
  Forall lower_letter (js word) ->
  (spells word s = true <-> is_casing_of (js word) s).
Proof.
  intros Hword. unfold spells. rewrite str_eqb_eq. split.
  - intros Hmap. rewrite <- Hmap. clear Hmap Hword.
    induction s as [|u s IH]; simpl; constructor; [|exact IH].
    unfold ascii_lower, ascii_upper.
    destruct ((65 <=? u)%N && (u <=? 90)%N) eqn:Hup; [|now left].
    right. apply andb_true_iff in Hup. destruct Hup as [H1 H2].
    apply N.leb_le in H1, H2.
    replace ((97 <=? u + 32)%N && (u + 32 <=? 122)%N) with true
      by (symmetry; apply andb_true_iff; split; apply N.leb_le; lia).
    lia.
  - intros Hcase. now destruct (casing_lowers _ _ Hword Hcase).
Qed.

Lemma word_is_lowercase (word : jsstring) :
  forallb (fun c => (97 <=? c)%N && (c <=? 122)%N && negb (c =? 107)%N) word = true ->
  Forall (fun c => lower_letter c /\ c <> 107%N) word.
Proof.
  intros H. apply Forall_forall. intros c Hc.
  rewrite forallb_forall in H. specialize (H c Hc).
  apply andb_true_iff in H. destruct H as [H Hk].
  apply andb_true_iff in H. destruct H as [H1 H2].
  apply N.leb_le in H1, H2. apply negb_true_iff, N.eqb_neq in Hk.
  split; [split; assumption|assumption].
Qed.

Section Labels.
Variable E : engine.
Hypothesis HE : conforming E.

(** On a conforming engine, comparing the lower-cased label with a word of
    lower-case letters (none of them [k]) is comparing up to case. *)
Lemma label_test (word : string) (label : jsstring) :
  forallb (fun c => (97 <=? c)%N && (c <=? 122)%N && negb (c =? 107)%N) (js word) = true ->
  str_eqb (toLowerCase E label) (js word) = spells word label.
Proof.
  intros Hword. apply word_is_lowercase in Hword.
  assert (Hlow : Forall lower_letter (js word))
    by (eapply Forall_impl; [|exact Hword]; now intros c [Hc _]).
  destruct (spells word label) eqn:Hs.
  - apply spells_lowercase in Hs; [|exact Hlow].
    destruct (casing_lowers _ _ Hlow Hs) as [Hascii Hmap].
    rewrite (lower_ascii E HE) by exact Hascii. rewrite Hmap. apply str_eqb_refl.
  - destruct (str_eqb (toLowerCase E label) (js word)) eqn:Heq; [|reflexivity].
    apply str_eqb_eq in Heq.
    assert (Hascii : Forall is_ascii (toLowerCase E label)).
    { rewrite Heq. eapply Forall_impl; [|exact Hlow].
      intros c Hc. unfold lower_letter in Hc. unfold is_ascii. lia. }
    rewrite (lower_ascii_image E HE) in Heq by exact Hascii.
    apply lowered_is_casing in Heq; [|exact Hword].
    apply spells_lowercase in Heq; [|exact Hlow]. congruence.
Qed.

Lemma className_spells (label : jsstring) :
  Static.className_of (toLowerCase E label) =
  if spells "malignant" label then js "malignant" else js "benign".
Proof.
  unfold Static.className_of. now rewrite (label_test "malignant").
Qed.

Lemma filter_by_label (word : string) (ps : list (jsstring * option number)) :
  forallb (fun c => (97 <=? c)%N && (c <=? 122)%N && negb (c =? 107)%N) (js word) = true ->
  filter (fun p => str_eqb (toLowerCase E (fst p)) (js word)) ps =
  filter (fun p => spells word (fst p)) ps.
Proof.
  intros Hword. apply filter_ext. intros p. now apply label_test.
Qed.
End Labels.

(** The reference engine conforms. *)
Lemma ref_engine_conforming : conforming ref_engine.
Proof.
  split.
  - intros s Hs. simpl. apply map_ext_Forall.
    eapply Forall_impl; [|exact Hs]. intros u Hu.
    unfold latin_lower, is_ascii in *.
    destruct (u =? 8490)%N eqn:Hk; [|reflexivity].
    apply N.eqb_eq in Hk. lia.
  - intros s _. reflexivity.
Qed.

(** ** Rounding to a fixed number of decimals *)

(** The integer [toFixed] prints is the nearest one to the scaled value, the
    upper one at a tie. *)
Lemma scaled_round_nearest (m : positive) (e : Z) (f : nat) :
  (0 <= scaled_round m e f /\
   (2 * scaled_round m e f - 1) * 2 ^ Z.max (- e) 0
     <= 2 * (Zpos m * 10 ^ Z.of_nat f * 2 ^ Z.max e 0)
     < (2 * scaled_round m e f + 1) * 2 ^ Z.max (- e) 0)%Z.
Proof.
  unfold scaled_round.
  assert (Hp : (0 < Zpos m * 10 ^ Z.of_nat f)%Z).
  { apply Z.mul_pos_pos; [lia|]. apply Z.pow_pos_nonneg; lia. }
  destruct (0 <=? e)%Z eqn:He.
  - apply Z.leb_le in He.
    rewrite (Z.max_r (- e) 0), (Z.max_l e 0) by lia.
    assert (0 < 2 ^ e)%Z by (apply Z.pow_pos_nonneg; lia).
    split; [nia|]. simpl (2 ^ 0)%Z. lia.
  - apply Z.leb_gt in He.
    rewrite (Z.max_l (- e) 0), (Z.max_r e 0) by lia.
    assert (Hd : (0 < 2 ^ (- e))%Z) by (apply Z.pow_pos_nonneg; lia).
    set (p := (Zpos m * 10 ^ Z.of_nat f)%Z) in *.
    set (d := (2 ^ (- e))%Z) in *.
    simpl (2 ^ 0)%Z. rewrite Z.mul_1_r.
    pose proof (Z.div_mod (2 * p + d) (2 * d) ltac:(lia)) as Hdm.
    pose proof (Z.mod_pos_bound (2 * p + d) (2 * d) ltac:(lia)) as Hmod.
    split; [apply Z.div_pos; lia|]. nia.
Qed.

Lemma toFixed_finite (E : engine) (x : number) (s : bool) (m : positive) (e : Z) (f : nat) :
  Prim2SF x = S754_finite s m e ->
  at_least_1e21 m e = false ->
  toFixed E x f =
  (if s then js "-" else []) ++ place_point (dec (Z.to_N (scaled_round m e f))) f.
Proof. intros Hx Hsmall. unfold toFixed. now rewrite Hx, Hsmall. Qed.

(** ** Rendering *)

Section Rendering.
Variable E : engine.

Lemma confidence_of (label : jsstring) (conf : option value) :
  get E (result_object label conf) (js "confidence") =
  Normal match conf with Some v => v | None => VUndefined end.
Proof. destruct conf; reflexivity. Qed.

Lemma prediction_of (label : jsstring) (conf : option value) :
  get E (result_object label conf) (js "prediction") = Normal (VStr label).
Proof. reflexivity. Qed.

(** [displayResult] on an answer that carries a label, once its confidence is
    known to convert to the number [x]. *)
Lemma displayResult_number (label : jsstring) (conf : option value) (x : number)
    (container : handle) (w : world) :
  to_number E (or_else match conf with Some v => v | None => VUndefined end
                       (VNum 0.85%float)) = Normal x ->
  Static.displayResult E (result_object label conf) container w =
  set_innerHTML container
    (Static.result_markup
       (Static.className_of (toLowerCase E label))
       (Static.emoji_of (Static.className_of (toLowerCase E label)))
       (toUpperCase E label)
       (toFixed E (x * 100)%float 1)
       (Static.message_of (Static.className_of (toLowerCase E label)))) w.
Proof.
  intros Hx. unfold Static.displayResult.
  rewrite prediction_of, confidence_of.
  cbv [bind ret raise lift string_method]. now rewrite Hx.
Qed.

Lemma markup_shows_confidence (cls emoji upper message : jsstring) :
  includes (Static.result_markup cls emoji upper (js "85.0") message)
           (js "Confidence: 85.0%") = true.
Proof.
  unfold Static.result_markup.
  match goal with |- includes ?l _ = true =>
    replace l with
      ((nl ++ js "    <div class=" ++ [34%N] ++ js "result " ++ cls ++ [34%N] ++ js ">" ++
        nl ++ js "      <h3>" ++ emoji ++ js " ML Model Prediction</h3>" ++
        nl ++ js "      <p><strong>" ++ upper ++ js "</strong></p>" ++
        nl ++ js "      <p>") ++
       js "Confidence: 85.0%" ++
       (js "</p>" ++
        nl ++ js "      <small>" ++ robot_face ++ js " " ++ message ++ js "</small>" ++
        nl ++ js "    </div>" ++
        nl ++ js "  "))
      by (rewrite <- !app_assoc; reflexivity)
  end.
  apply includes_app.
Qed.

Lemma row_of_prediction (p : jsstring * option number) (index : nat) :
  Static.row E (prediction_object p) index =
  Normal (Static.row_markup (dec (N.of_nat (index + 1)))
            (Static.className_of (toLowerCase E (fst p))) (fst p)
            (confidence_cell E (snd p))).
Proof.
  destruct p as [label [c|]]; unfold Static.row, prediction_object; cbn [fst snd option_map].
  - rewrite prediction_of, confidence_of. cbn [cbind string_method to_string].
    unfold confidence_cell. destruct (truthy (VNum c)); reflexivity.
  - rewrite prediction_of, confidence_of. reflexivity.
Qed.

Lemma rows_of_predictions (ps : list (jsstring * option number)) (index : nat) :
  Static.rows E (map prediction_object ps) index = Normal (table_body E ps index).
Proof.
  revert index. induction ps as [|p ps IH]; intros index; [reflexivity|].
  cbn [map Static.rows table_body]. rewrite row_of_prediction. cbn [cbind].
  now rewrite IH.
Qed.

Lemma count_of_predictions (label : string) (ps : list (jsstring * option number)) :
  Static.count_label E label (map prediction_object ps) =
  Normal (length (filter (fun p => str_eqb (toLowerCase E (fst p)) (js label)) ps)).
Proof.
  induction ps as [|p ps IH]; [reflexivity|].
  cbn [map Static.count_label filter]. unfold prediction_object at 1.
  rewrite prediction_of. cbn [cbind string_method]. rewrite IH. cbn [cbind].
  destruct (str_eqb (toLowerCase E (fst p)) (js label)); reflexivity.
Qed.

Lemma batch_predictions ps bc mc :
  get E (batch_object ps bc mc) (js "predictions") =
  Normal (VArr (map prediction_object ps)).
Proof. reflexivity. Qed.

Lemma batch_original_columns ps bc mc :
  get E (batch_object ps bc mc) (js "original_columns") = Normal VUndefined.
Proof. destruct bc, mc; reflexivity. Qed.

Lemma batch_columns_used ps bc mc :
  get E (batch_object ps bc mc) (js "columns_used") = Normal VUndefined.
Proof. destruct bc, mc; reflexivity. Qed.

Lemma batch_benign_count ps bc mc :
  get E (batch_object ps bc mc) (js "benign_count") =
  Normal match bc with Some b => VNum b | None => VUndefined end.
Proof. destruct bc, mc; reflexivity. Qed.

Lemma batch_malignant_count ps bc mc :
  get E (batch_object ps bc mc) (js "malignant_count") =
  Normal match mc with Some m => VNum m | None => VUndefined end.
Proof. destruct bc, mc; reflexivity. Qed.

Lemma count_or_filter_shown (given : option number) (label : string)
    (ps : list (jsstring * option number)) :
  Static.count_or_filter E
    match given with Some b => VNum b | None => VUndefined end
    label (map prediction_object ps) =
  Normal (VNum (count_shown given
                  (length (filter (fun p => str_eqb (toLowerCase E (fst p)) (js label)) ps)))).
Proof.
  unfold Static.count_or_filter, count_shown.
  destruct given as [b|].
  - destruct (truthy (VNum b)); [reflexivity|].
    now rewrite count_of_predictions.
  - cbn [truthy]. now rewrite count_of_predictions.
Qed.

End Rendering.

(** ** The submit handlers *)

Lemma error_markup_includes (before text after : jsstring) :
  includes (Static.error_markup (before ++ text ++ after)) text = true.
Proof.
  unfold Static.error_markup.
  replace (js "<div class=" ++ quoted "error" ++ js ">" ++ cross_mark ++ js " " ++
           (before ++ text ++ after) ++ js "</div>")
    with ((js "<div class=" ++ quoted "error" ++ js ">" ++ cross_mark ++ js " " ++ before)
          ++ text ++ (after ++ js "</div>"))
    by (rewrite <- !app_assoc; reflexivity).
  apply includes_app.
Qed.

Section Handlers.
Variable E : engine.
Variable B : browser.

(** The static handler on a request that fails. *)
Lemma static_failure (form : formdata) (w : world) (div : handle) :
  find_index (has_id (js "manualResult")) (document w) = Some div ->
  match server B (Static.predict_request (fromEntries form)) with
  | Resolves r => ok r = false
  | Rejects _ => True
  end ->
  exists w',
    Static.cancerForm_submit E B form w = Done tt w' /\
    sent w' = sent w ++ [Static.predict_request (fromEntries form)] /\
    html_of w' div = Some (Static.error_markup
      match server B (Static.predict_request (fromEntries form)) with
      | Resolves r =>
          match resp_body r with
          | BodyText t => js "Server Error (" ++ dec (status r) ++ js "): " ++
                          Static.text_or t (statusText r)
          | BodyFails e => js "Connection error: " ++ message e
          end
      | Rejects e => js "Connection error: " ++ message e
      end).
Proof.
  intros Hdiv Hfail.
  destruct (find_index_some _ _ _ Hdiv) as [el [Hel _]].
  unfold Static.cancerForm_submit. run_page. rewrite Hdiv.
  destruct (server B (Static.predict_request (fromEntries form))) as [r|e].
  - rewrite Hfail. cbn [negb].
    unfold response_text. destruct (resp_body r) as [t|e]; run_page.
    + eexists. split; [reflexivity|]. split; [reflexivity|]. read_html Hel.
    + eexists. split; [reflexivity|]. split; [reflexivity|]. read_html Hel.
  - eexists. split; [reflexivity|]. split; [reflexivity|]. read_html Hel.
Qed.

(** The templates handler on a request that fails. *)
Lemma templates_failure (form : formdata) (w : world) (div : handle) :
  find_index (has_id (js "manualResult")) (document w) = Some div ->
  match server B (Templates.predict_request (fromEntries form)) with
  | Resolves r => ok r = false
  | Rejects _ => True
  end ->
  exists w',
    Templates.cancerForm_submit E B form w = Done tt w' /\
    html_of w' div =
      Some (js "<div class=" ++ quoted "loading" ++ js "></div>Analyzing data...") /\
    timers w' = timers w ++
      [{| timer_callback := SimulatedPrediction (fromEntries form) div;
          timer_delay := 1500 |}].
Proof.
  intros Hdiv Hfail.
  destruct (find_index_some _ _ _ Hdiv) as [el [Hel _]].
  unfold Templates.cancerForm_submit, Templates.simulatePrediction. run_page. rewrite Hdiv.
  destruct (server B (Templates.predict_request (fromEntries form))) as [r|e].
  - rewrite Hfail. cbv iota. run_page.
    eexists. split; [reflexivity|]. split; [|reflexivity]. read_html Hel.
  - eexists. split; [reflexivity|]. split; [|reflexivity]. read_html Hel.
Qed.

Lemma try_catch_returns {A} (body : M A) (handler : js_error -> M A) (w : world) :
  (forall e w', throws (handler e w') = false) ->
  throws (try_catch body handler w) = false.
Proof.
  intros H. unfold try_catch. destruct (body w); [reflexivity|apply H].
Qed.

(** Whatever the service answers, the handlers of the static script return
    normally when their result region is on the page. *)
Lemma static_cancerForm_returns (form : formdata) (w : world) (div : handle) :
  find_index (has_id (js "manualResult")) (document w) = Some div ->
  throws (Static.cancerForm_submit E B form w) = false.
Proof.
  intros Hdiv. unfold Static.cancerForm_submit.
  unfold bind at 1, console_log at 1, console_write.
  unfold bind at 1, getElementById. cbn [document]. rewrite Hdiv.
  unfold bind at 1, set_innerHTML at 1.
  unfold bind at 1, console_log at 1, console_write.
  apply try_catch_returns. intros e w'. reflexivity.
Qed.

Lemma static_csvForm_returns (form : formdata) (w : world) (div : handle) :
  find_index (has_id (js "csvResult")) (document w) = Some div ->
  throws (Static.csvForm_submit E B form w) = false.
Proof.
  intros Hdiv. unfold Static.csvForm_submit.
  unfold bind at 1, console_log at 1, console_write.
  unfold bind at 1, getElementById. cbn [document]. rewrite Hdiv.
  unfold bind at 1, set_innerHTML at 1.
  destruct (negb (form_truthy (formdata_get form (js "file")))); [reflexivity|].
  unfold bind at 1, console_log at 1, console_write.
  apply try_catch_returns. intros e w'. reflexivity.
Qed.
End Handlers.

Section CsvHandler.
Variable E : engine.
Variable B : browser.



(** A [File] entry passes the guard of the CSV handler whatever its name and
    size, and the request is sent. *)
Lemma csv_file_entry_is_sent (form : formdata) (w : world) (div : handle) (f : file) :
  find_index (has_id (js "csvResult")) (document w) = Some div ->
  formdata_get form (js "file") = Some (FormFile f) ->
  sent (final_world (Static.csvForm_submit E B form w)) =
  sent w ++ [Static.predict_csv_request form].
Proof.
  intros Hdiv Hfile.
  unfold Static.csvForm_submit. run_page. rewrite Hdiv, Hfile.
  cbn [form_truthy negb]. run_page.
  destruct (server B (Static.predict_csv_request form)) as [r|e]; [|reflexivity].
  destruct (ok r); cbn [negb]; run_page.
  - destruct (Static.safeJsonResponse E r) as [v|e]; run_page; [|reflexivity].
    destruct (get E v (js "total_samples")) as [ts|e]; run_page; [|reflexivity].
    destruct (get E v (js "predictions")) as [p|e]; run_page; [|reflexivity].
    destruct (truthy p && isArray p); run_page; [|reflexivity].
    unfold Static.displayCSVResults.
    destruct (Static.csv_markup E v) as [html|e]; run_page; reflexivity.
  - destruct (response_text r) as [t|e]; run_page; reflexivity.
Qed.
End CsvHandler.

(** ** Markup that contains a piece of markup *)

Lemma starts_with_longer (p s b : jsstring) :
  starts_with p s = true -> starts_with p (s ++ b) = true.
Proof.
  revert s. induction p as [|x p IH]; intros [|y s] H; simpl in *;
    try reflexivity; try discriminate.
  apply andb_true_iff in H. destruct H as [Hxy Hp].
  now rewrite Hxy, (IH s Hp).
Qed.

Lemma includes_before (s sub b : jsstring) :
  includes s sub = true -> includes (s ++ b) sub = true.
Proof.
  induction s as [|x s IH]; intros H.
  - rewrite includes_unfold in H. rewrite orb_false_r in H.
    rewrite includes_unfold.
    pose proof (starts_with_longer sub [] b H) as Hb. cbn [app] in *.
    now rewrite Hb.
  - rewrite includes_unfold in H. apply orb_true_iff in H.
    rewrite includes_unfold. apply orb_true_iff. destruct H as [H|H].
    + left. now apply (starts_with_longer sub (x :: s) b).
    + right. cbn [app]. now apply IH.
Qed.

Lemma includes_after (a s sub : jsstring) :
  includes s sub = true -> includes (a ++ s) sub = true.
Proof.
  intros H. induction a as [|x a IH]; [exact H|].
  cbn [app]. rewrite includes_unfold. rewrite IH. apply orb_true_r.
Qed.

Lemma includes_inside (a s b sub : jsstring) :
  includes s sub = true -> includes (a ++ s ++ b) sub = true.
Proof.
  intros H. apply includes_after. now apply includes_before.
Qed.

Lemma includes_self (s : jsstring) : includes s s = true.
Proof.
  pose proof (includes_app [] s []) as H. cbn [app] in H. now rewrite app_nil_r in H.
Qed.

Lemma starts_with_refl (s : jsstring) : starts_with s s = true.
Proof. induction s as [|x s IH]; simpl; [reflexivity|]. now rewrite N.eqb_refl. Qed.

Lemma starts_with_same_head (a p s : jsstring) :
  starts_with p s = true -> starts_with (a ++ p) (a ++ s) = true.
Proof.
  intros H. induction a as [|x a IH]; [exact H|].
  simpl. now rewrite N.eqb_refl.
Qed.

Lemma includes_here (s sub : jsstring) : starts_with sub s = true -> includes s sub = true.
Proof. intros H. rewrite includes_unfold, H. reflexivity. Qed.

(** The pieces of a markup and of the markup looked for are compared one by
    one. *)
Ltac starts_chain :=
  first [ apply starts_with_app
        | apply starts_with_refl
        | apply starts_with_same_head; starts_chain ].

Ltac find_piece :=
  first [ apply includes_here; starts_chain
        | apply includes_after; find_piece ].

Section Styling.
Variable E : engine.

Lemma displayResult_shown (label : jsstring) (c : option number) (container : handle)
    (w : world) (el : element) :
  nth_error (document w) container = Some el ->
  exists w',
    Static.displayResult E (prediction_object (label, c)) container w = Done tt w' /\
    html_of w' container =
      Some (Static.result_markup
              (Static.className_of (toLowerCase E label))
              (Static.emoji_of (Static.className_of (toLowerCase E label)))
              (toUpperCase E label)
              (toFixed E (shown_confidence c * 100)%float 1)
              (Static.message_of (Static.className_of (toLowerCase E label)))).
Proof.
  intros Hel. unfold prediction_object. cbn [fst snd].
  rewrite (displayResult_number E label (option_map VNum c) (shown_confidence c)).
  - run_page. eexists. split; [reflexivity|]. read_html Hel.
  - unfold or_else, shown_confidence. destruct c as [x|]; cbn [option_map]; [|reflexivity].
    destruct (truthy (VNum x)); reflexivity.
Qed.

Lemma table_body_row (ps : list (jsstring * option number)) (i k : nat)
    (p : jsstring * option number) :
  nth_error ps i = Some p ->
  exists before after,
    table_body E ps k =
    before ++
    Static.row_markup (dec (N.of_nat (k + i + 1)))
      (Static.className_of (toLowerCase E (fst p))) (fst p) (confidence_cell E (snd p)) ++
    after.
Proof.
  revert i k. induction ps as [|q ps IH]; intros [|i] k Hp; try discriminate.
  - injection Hp as ->. exists [], (table_body E ps (S k)).
    cbn [table_body app]. now rewrite Nat.add_0_r.
  - destruct (IH i (S k) Hp) as [before [after Hbody]].
    exists (Static.row_markup (dec (N.of_nat (k + 1)))
              (Static.className_of (toLowerCase E (fst q))) (fst q)
              (confidence_cell E (snd q)) ++ before), after.
    cbn [table_body]. rewrite Hbody, <- app_assoc.
    now replace (S k + i + 1)%nat with (k + S i + 1)%nat by lia.
Qed.

Lemma around_the_rows (h b t s d : jsstring) :
  (((h ++ b) ++ t) ++ s) ++ d = h ++ b ++ t ++ s ++ d.
Proof. now rewrite <- !app_assoc. Qed.

Lemma csv_markup_of_batch (ps : list (jsstring * option number)) (bc mc : option number) :
  exists before after,
    Static.csv_markup E (batch_object ps bc mc) =
    Normal (before ++ table_body E ps 0 ++ after).
Proof.
  unfold Static.csv_markup.
  rewrite batch_predictions, batch_original_columns, batch_columns_used,
    batch_benign_count, batch_malignant_count.
  cbn [cbind get array_method truthy andb].
  rewrite rows_of_predictions, str_eqb_refl.
  rewrite !count_or_filter_shown.
  cbn [cbind to_string Static.share to_number].
  match goal with
  | |- exists _ _, Normal ((((?h ++ _) ++ ?t) ++ ?s) ++ ?d) = _ =>
      exists h, (t ++ s ++ d)
  end.
  f_equal. apply around_the_rows.
Qed.
End Styling.

(** * The properties of the specification *)

(** C1 (amended).  A single-record submission fails when the transport fails
    or the answer has a status outside 200-299.  In the static script the
    handler then returns normally, having sent exactly one request, and the
    result region shows an error: [Server Error (status): text] with the body
    text (the status text when the body is empty) when the body of the answer
    could be read, so that the region contains the status and the body text;
    and [Connection error: message] with the message of the rejection when the
    transport failed or the body could not be read.  In the templates script
    the handler returns normally as well, but leaves the loading text in the
    region and sets a timer that will show a simulated prediction. *)
Theorem C1_failed_submission_reported (E : engine) (B : browser) (form : formdata)
    (w : world) (div : handle) :
  find_index (has_id (js "manualResult")) (document w) = Some div ->
  match server B (Static.predict_request (fromEntries form)) with
  | Resolves r => ok r = false
  | Rejects _ => True
  end ->
  (exists w',
     Static.cancerForm_submit E B form w = Done tt w' /\
     sent w' = sent w ++ [Static.predict_request (fromEntries form)] /\
     html_of w' div = Some (Static.error_markup
       match server B (Static.predict_request (fromEntries form)) with
       | Resolves r =>
           match resp_body r with
           | BodyText t => js "Server Error (" ++ dec (status r) ++ js "): " ++
                           Static.text_or t (statusText r)
           | BodyFails e => js "Connection error: " ++ message e
           end
       | Rejects e => js "Connection error: " ++ message e
       end)) /\
  (forall (code : N) (text : jsstring),
     includes (Static.error_markup (js "Server Error (" ++ dec code ++ js "): " ++ text))
              (dec code) = true /\
     includes (Static.error_markup (js "Server Error (" ++ dec code ++ js "): " ++ text))
              text = true) /\
  (exists w',
     Templates.cancerForm_submit E B form w = Done tt w' /\
     html_of w' div =
       Some (js "<div class=" ++ quoted "loading" ++ js "></div>Analyzing data...") /\
     timers w' = timers w ++
       [{| timer_callback := SimulatedPrediction (fromEntries form) div;
           timer_delay := 1500 |}]).
Proof.
  intros Hdiv Hfail. split; [|split].
  - now apply static_failure.
  - intros code text. split.
    + apply error_markup_includes.
    + replace (js "Server Error (" ++ dec code ++ js "): " ++ text)
        with ((js "Server Error (" ++ dec code ++ js "): ") ++ text ++ [])
        by (rewrite <- !app_assoc, app_nil_r; reflexivity).
      apply error_markup_includes.
  - apply templates_failure; assumption.
Qed.

Lemma C1_failed_submission_witness :
  exists w',
    Static.cancerForm_submit ref_engine (answering server_error) [] fresh_world =
      Done tt w' /\
    html_of w' 4 =
      Some (Static.error_markup (js "Server Error (500): model not loaded")).
Proof.
  destruct (C1_failed_submission_reported ref_engine (answering server_error) []
              fresh_world 4 eq_refl eq_refl) as [[w' [Hrun [_ Hhtml]]] _].
  exists w'. split; [exact Hrun|exact Hhtml].
Defined.

(** C1 as stated fails: in the templates script an answer with status 500 and
    body [model not loaded] leaves no error message; the region first keeps
    the loading text and, once the timer fires, shows a prediction, with
    neither the status nor the body text in it. *)
Lemma C1_templates_show_simulated_prediction :
  ok server_error = false /\
  html_of (final_world
             (Templates.cancerForm_submit ref_engine (answering server_error) []
                fresh_world)) 4 =
    Some (js "<div class=" ++ quoted "loading" ++ js "></div>Analyzing data...") /\
  html_of (final_world
             ((Templates.cancerForm_submit ref_engine (answering server_error) [] ;;
               Templates.run_timers ref_engine (answering server_error)) fresh_world)) 4 =
    Some (Templates.result_markup (js "benign") check_mark (js "BENIGN") (js "75.0")) /\
  includes (Templates.result_markup (js "benign") check_mark (js "BENIGN") (js "75.0"))
           (dec 500) = false /\
  includes (Templates.result_markup (js "benign") check_mark (js "BENIGN") (js "75.0"))
           (js "model not loaded") = false.
Proof. vm_compute. repeat split; reflexivity. Qed.

(** C2 (amended).  When no element of the page has the requested id, [openTab]
    still removes [active] from every tab pane and tab button and activates
    nothing, so that no tab is shown afterwards.  The static script then
    reports the id with [console.error] and returns; the templates script
    throws a [TypeError]. *)
Theorem C2_unknown_tab_deactivates_all (E : engine) (evt : event) (id : jsstring)
    (w : world) :
  find_index (has_id id) (document w) = None ->
  (exists w',
     Static.openTab evt id w = Done tt w' /\
     document w' = map deactivated (document w) /\
     active_tabs (document w') = [] /\
     active_buttons (document w') = [] /\
     console w' = console w ++
       [{| level := LevelLog; args := [ArgStr (js "Tab clicked:"); ArgStr id] |};
        {| level := LevelError;
           args := [ArgStr (cross_mark ++ js " Tab not found:"); ArgStr id] |}]) /\
  (exists w',
     Templates.openTab E evt id w =
       Raised (type_error E (CannotReadProperty VNull (js "classList"))) w' /\
     document w' = map deactivated (document w) /\
     active_tabs (document w') = []).
Proof.
  intros Hfind. split.
  - destruct (static_openTab_run evt id w) as [w' [Hrun [Hdoc Hlog]]].
    rewrite Hfind in Hdoc, Hlog.
    exists w'. repeat split; try assumption.
    + rewrite Hdoc. apply active_tabs_deactivated.
    + rewrite Hdoc. apply active_buttons_deactivated.
  - rewrite templates_openTab_run, Hfind. eexists. split; [reflexivity|].
    cbn [document set_document]. split; [reflexivity|]. apply active_tabs_deactivated.
Qed.

Lemma C2_unknown_tab_witness :
  exists w',
    Static.openTab csv_button_click (js "settings") fresh_world = Done tt w' /\
    active_tabs (document w') = [].
Proof.
  destruct (C2_unknown_tab_deactivates_all ref_engine csv_button_click (js "settings")
              fresh_world eq_refl) as [[w' [Hrun [_ [Hact _]]]] _].
  exists w'. split; [exact Hrun|exact Hact].
Defined.

(** C2 as stated fails: on a page whose [manual] pane is shown, [openTab] with
    the id [settings], which no element has, leaves no pane shown, and the
    static script logs at the error level, not as a warning; the templates
    script throws. *)
Lemma C2_unknown_tab_not_a_noop :
  find_index (has_id (js "settings")) tabbed_page = None /\
  active_tabs tabbed_page = [2%nat] /\
  active_tabs (document (final_world
     (Static.openTab csv_button_click (js "settings") fresh_world))) = [] /\
  map level (console (final_world
     (Static.openTab csv_button_click (js "settings") fresh_world))) =
    [LevelLog; LevelError] /\
  throws (Templates.openTab ref_engine csv_button_click (js "settings") fresh_world) = true.
Proof. vm_compute. repeat split; reflexivity. Qed.



(** C4.  When the body of the answer is not empty and [JSON.parse] rejects it,
    [safeJsonResponse] throws an error whose message is [Invalid JSON
    response: ] followed by the first 100 code units of the body (all of it
    when it is shorter) and three dots. *)
Theorem C4_invalid_json_reported (E : engine) (r : response) (text : jsstring)
    (e : js_error) :
  resp_body r = BodyText text ->
  text <> [] ->
  JSON_parse E text = Throw e ->
  Static.safeJsonResponse E r =
    Throw (mkError PlainError
             (js "Invalid JSON response: " ++ firstn 100 text ++ js "...")) /\
  (exists rest, text = firstn 100 text ++ rest) /\
  length (firstn 100 text) = Nat.min 100 (length text) /\
  includes (js "Invalid JSON response: " ++ firstn 100 text ++ js "...")
           (firstn 100 text) = true.
Proof.
  intros Hbody Hne Hbad.
  split; [|split; [|split]].
  - unfold Static.safeJsonResponse, response_text. rewrite Hbody. simpl cbind.
    destruct text as [|c text']; [contradiction|].
    rewrite Hbad, substring_prefix. reflexivity.
  - exists (skipn 100 text). symmetry. apply firstn_skipn.
  - apply length_firstn.
  - apply includes_app.
Qed.

Lemma C4_invalid_json_witness :
  Static.safeJsonResponse ref_engine (ok_with (js "{not json")) =
    Throw (mkError PlainError (js "Invalid JSON response: {not json...")).
Proof.
  refine (proj1 (C4_invalid_json_reported ref_engine (ok_with (js "{not json"))
                   (js "{not json") (mkError SyntaxError (js "Unexpected token in JSON"))
                   eq_refl _ eq_refl)).
  intros H. vm_compute in H. discriminate H.
Defined.

(** The guard of the CSV handler of the static script: when the form data
    holds nothing under the name [file] ([FormData.get] returns [null]) or an
    empty string, the region shows [No file selected] and nothing is sent. *)
Lemma csv_guard_without_entry (E : engine) (B : browser) (form : formdata)
    (w : world) (div : handle) :
  find_index (has_id (js "csvResult")) (document w) = Some div ->
  form_truthy (formdata_get form (js "file")) = false ->
  exists w' html,
    Static.csvForm_submit E B form w = Done tt w' /\
    html_of w' div = Some html /\
    includes html (js "No file selected") = true /\
    sent w' = sent w.
Proof.
  intros Hdiv Hfile.
  destruct (find_index_some _ _ _ Hdiv) as [el [Hel _]].
  unfold Static.csvForm_submit. run_page. rewrite Hdiv, Hfile. cbn [negb].
  run_page.
  do 2 eexists. split; [reflexivity|]. split; [read_html Hel|]. split; [|reflexivity].
  unfold Static.error_markup. find_piece.
Qed.

(** C5 (the failing input).  A file input with nothing chosen still gives the
    form data an entry [file]: an empty [File], an object.  [!file] is then
    false, the guard of the CSV handler of the static script does not fire,
    and the handler uploads: the multipart request is sent, and the region
    never shows [No file selected] (here the service cannot be reached, and
    the region ends with the connection error). *)
Lemma C5_empty_selection_is_uploaded :
  formdata_get empty_selection (js "file") =
    Some (FormFile {| file_name := []; file_size := 0 |}) /\
  form_truthy (formdata_get empty_selection (js "file")) = true /\
  sent (final_world
          (Static.csvForm_submit ref_engine unreachable empty_selection fresh_world)) =
    [{| url := js "/predict_csv"; http_method := js "POST"; content_type := None;
        body := MultipartBody empty_selection |}] /\
  (exists html,
     html_of (final_world
                (Static.csvForm_submit ref_engine unreachable empty_selection fresh_world)) 5
       = Some html /\
     includes html (js "No file selected") = false /\
     includes html (js "Connection error: Failed to fetch") = true).
Proof.
  split; [reflexivity|]. split; [reflexivity|]. split; [reflexivity|].
  eexists. split; [reflexivity|]. split; vm_compute; reflexivity.
Qed.

(** C6 (the failing input).  An answer with status 200 and body [null] parses,
    and its [predictions] field is absent; the CSV handler of the static
    script shows neither the table nor the format error but a connection
    error, the message of the [TypeError] thrown when it reads
    [result.total_samples] for the console before checking the shape. *)
Lemma C6_null_answer_shows_connection_error :
  JSON_parse ref_engine (js "null") = Normal VNull /\
  html_of (final_world
             (Static.csvForm_submit ref_engine (answering (ok_with (js "null")))
                csv_upload fresh_world)) 5 =
    Some (Static.error_markup
            (js "Connection error: Cannot read properties of null (reading 'total_samples')")) /\
  includes (Static.error_markup
              (js "Connection error: Cannot read properties of null (reading 'total_samples')"))
           (js "Unexpected response format") = false.
Proof. vm_compute. repeat split; reflexivity. Qed.




(** C8.  When the requested id is that of a tab pane and the clicked element
    is not a pane, any number of calls of [openTab] in a row with that id,
    one or more, leave the document as a single call does: the requested pane
    is the only pane shown.  Both scripts. *)
Theorem C8_switching_is_idempotent (E : engine) (evt : event) (id : jsstring)
    (w : world) (t : handle) (n : nat) :
  find_index (has_id id) (document w) = Some t ->
  is_tab_pane (document w) t = true ->
  is_tab_pane (document w) (currentTarget evt) = false ->
  (exists w',
     repeatedly (S n) (Static.openTab evt id) w = Done tt w' /\
     document w' = switched t (currentTarget evt) (document w) /\
     active_tabs (document w') = [t]) /\
  (exists w',
     repeatedly (S n) (Templates.openTab E evt id) w = Done tt w' /\
     document w' = switched t (currentTarget evt) (document w) /\
     active_tabs (document w') = [t]).
Proof.
  intros Hfind Ht Hct. split.
  - destruct (static_openTab_repeated evt id t n w Hfind) as [w' [Hrun Hdoc]].
    exists w'. repeat split; try assumption.
    rewrite Hdoc. now apply active_tabs_switched.
  - destruct (templates_openTab_repeated E evt id t n w Hfind) as [w' [Hrun Hdoc]].
    exists w'. repeat split; try assumption.
    rewrite Hdoc. now apply active_tabs_switched.
Qed.

Lemma C8_switching_witness :
  exists w',
    repeatedly 3 (Static.openTab csv_button_click (js "csv")) fresh_world = Done tt w' /\
    document w' = switched 3 1 tabbed_page /\
    active_tabs (document w') = [3%nat].
Proof.
  exact (proj1 (C8_switching_is_idempotent ref_engine csv_button_click (js "csv")
                  fresh_world 3 2 eq_refl eq_refl eq_refl)).
Defined.

(** C9.  On a conforming engine a label is styled as malignant exactly when it
    spells [malignant] up to the case of each letter, and as benign otherwise:
    in [displayResult] the class, the pictograph and the advice follow that
    test, and so does the class of the label's row in [displayCSVResults].
    Read back from the page: the card [displayResult] leaves in its container
    opens with a [div] of class [result malignant] and has the warning sign
    in its heading when the label spells [malignant], opens with a [div] of
    class [result benign] and has the check mark otherwise, and holds the
    matching advice; and the table [displayCSVResults] leaves in its
    container holds, for each prediction of the batch, the row of its number
    whose label cell has the class [malignant] or [benign] by the same
    test. *)
Theorem C9_label_case_insensitive (E : engine) (HE : conforming E) (label : jsstring) :
  (spells "malignant" label = true <-> is_casing_of (js "malignant") label) /\
  (forall (c : option number) (container : handle) (w : world),
     Static.displayResult E (prediction_object (label, c)) container w =
       set_innerHTML container
         (Static.result_markup
            (if spells "malignant" label then js "malignant" else js "benign")
            (if spells "malignant" label then warning_sign else check_mark)
            (toUpperCase E label)
            (toFixed E (shown_confidence c * 100)%float 1)
            (if spells "malignant" label
             then js "Please consult with a healthcare professional immediately"
             else js "The tumor appears to be non-cancerous")) w) /\
  (forall (c : option number) (index : nat),
     Static.row E (prediction_object (label, c)) index =
       Normal (Static.row_markup (dec (N.of_nat (index + 1)))
                 (if spells "malignant" label then js "malignant" else js "benign")
                 label (confidence_cell E c))) /\
  (forall (c : option number) (container : handle) (w : world) (el : element),
     nth_error (document w) container = Some el ->
     exists w' html,
       Static.displayResult E (prediction_object (label, c)) container w = Done tt w' /\
       html_of w' container = Some html /\
       starts_with
         (nl ++ js "    <div class=" ++ [34%N] ++ js "result " ++
          (if spells "malignant" label then js "malignant" else js "benign") ++
          [34%N] ++ js ">" ++
          nl ++ js "      <h3>" ++
          (if spells "malignant" label then warning_sign else check_mark) ++
          js " ML Model Prediction</h3>")
         html = true /\
       includes html
         (nl ++ js "      <small>" ++ robot_face ++ js " " ++
          (if spells "malignant" label
           then js "Please consult with a healthcare professional immediately"
           else js "The tumor appears to be non-cancerous") ++
          js "</small>") = true) /\
  (forall (ps : list (jsstring * option number)) (bc mc : option number) (i : nat)
          (c : option number) (container : handle) (w : world) (el : element),
     nth_error (document w) container = Some el ->
     nth_error ps i = Some (label, c) ->
     exists w' html,
       Static.displayCSVResults E (batch_object ps bc mc) container w = Done tt w' /\
       html_of w' container = Some html /\
       includes html
         (nl ++ js "      <tr>" ++
          nl ++ js "        <td>" ++ dec (N.of_nat (i + 1)) ++ js "</td>" ++
          nl ++ js "        <td class=" ++ [34%N] ++
          (if spells "malignant" label then js "malignant" else js "benign") ++
          [34%N] ++ js "><strong>" ++ label ++ js "</strong></td>") = true).
Proof.
  split; [|split; [|split; [|split]]].
  - apply spells_lowercase. repeat constructor; unfold lower_letter; simpl; lia.
  - intros c container w. unfold prediction_object. cbn [fst snd].
    rewrite (displayResult_number E label (option_map VNum c) (shown_confidence c)).
    + rewrite (className_spells E HE).
      destruct (spells "malignant" label); reflexivity.
    + unfold or_else, shown_confidence. destruct c as [x|]; cbn [option_map]; [|reflexivity].
      destruct (truthy (VNum x)); reflexivity.
  - intros c index. rewrite row_of_prediction. cbn [fst snd].
    now rewrite (className_spells E HE).
  - intros c container w el Hel.
    destruct (displayResult_shown E label c container w el Hel) as [w' [Hrun Hhtml]].
    exists w'. eexists. split; [exact Hrun|]. split; [exact Hhtml|].
    rewrite (className_spells E HE). unfold Static.result_markup.
    destruct (spells "malignant" label);
      (split; [cbn [Static.emoji_of str_eqb]; starts_chain
              |cbn [Static.message_of str_eqb]; find_piece]).
  - intros ps bc mc i c container w el Hel Hp.
    destruct (csv_markup_of_batch E ps bc mc) as [before [after Hmarkup]].
    destruct (table_body_row E ps i 0 (label, c) Hp) as [above [below Hbody]].
    unfold Static.displayCSVResults. rewrite Hmarkup. run_page.
    do 2 eexists. split; [reflexivity|]. split; [read_html Hel|].
    rewrite Hbody. cbn [fst snd]. rewrite (className_spells E HE).
    apply includes_inside, includes_inside.
    unfold Static.row_markup. cbn [Nat.add]. find_piece.
Qed.

Lemma C9_label_witness :
  is_casing_of (js "malignant") (js "MALIGNANT") /\
  (exists w' html,
     Static.displayResult ref_engine (prediction_object (js "MALIGNANT", None)) 4
       fresh_world = Done tt w' /\
     html_of w' 4 = Some html /\
     starts_with
       (nl ++ js "    <div class=" ++ [34%N] ++ js "result malignant" ++ [34%N] ++ js ">" ++
        nl ++ js "      <h3>" ++ warning_sign ++ js " ML Model Prediction</h3>")
       html = true) /\
  (exists w' html,
     Static.displayCSVResults ref_engine
       (batch_object [(js "Benign", None); (js "MALIGNANT", None)] None None) 5
       fresh_world = Done tt w' /\
     html_of w' 5 = Some html /\
     includes html
       (nl ++ js "      <tr>" ++
        nl ++ js "        <td>2</td>" ++
        nl ++ js "        <td class=" ++ [34%N] ++ js "malignant" ++ [34%N] ++
        js "><strong>MALIGNANT</strong></td>") = true).
Proof.
  destruct (C9_label_case_insensitive ref_engine ref_engine_conforming (js "MALIGNANT"))
    as [Hcase [_ [_ [Hcard Hrow]]]].
  split; [apply Hcase; reflexivity|]. split.
  - destruct (Hcard None 4%nat fresh_world _ eq_refl) as [w' [html [Hrun [Hhtml [Hclass _]]]]].
    exists w', html. split; [exact Hrun|]. split; [exact Hhtml|exact Hclass].
  - destruct (Hrow [(js "Benign", None); (js "MALIGNANT", None)] None None 1%nat None 5%nat
                fresh_world _ eq_refl eq_refl) as [w' [html [Hrun [Hhtml Hcell]]]].
    exists w', html. split; [exact Hrun|]. split; [exact Hhtml|exact Hcell].
Defined.

(** C10.  In the static script [displayResult] shows [Confidence: 85.0%] for
    every answer whose confidence is absent or falsy (zero, NaN, [null],
    [false], the empty string), and for a confidence [c] that is a number and
    truthy it shows [(c * 100).toFixed(1)]: when the product is finite and
    below 10^21, the decimal [n / 10] where [n] is the integer nearest to ten
    times the product, the larger one at a tie.  Read back from the page: the
    markup the container holds after the call has the line
    [<p>Confidence: 85.0%</p>] in the first case and the line
    [<p>Confidence: ] [(c * 100).toFixed(1)] [%</p>] in the second. *)
Theorem C10_confidence_default (E : engine) (label : jsstring) (container : handle)
    (w : world) :
  (forall conf : option value,
     match conf with Some v => truthy v = false | None => True end ->
     Static.displayResult E (result_object label conf) container w =
       set_innerHTML container
         (Static.result_markup
            (Static.className_of (toLowerCase E label))
            (Static.emoji_of (Static.className_of (toLowerCase E label)))
            (toUpperCase E label)
            (js "85.0")
            (Static.message_of (Static.className_of (toLowerCase E label)))) w /\
     includes
       (Static.result_markup
            (Static.className_of (toLowerCase E label))
            (Static.emoji_of (Static.className_of (toLowerCase E label)))
            (toUpperCase E label)
            (js "85.0")
            (Static.message_of (Static.className_of (toLowerCase E label))))
       (js "Confidence: 85.0%") = true) /\
  (forall c : number,
     truthy (VNum c) = true ->
     Static.displayResult E (result_object label (Some (VNum c))) container w =
       set_innerHTML container
         (Static.result_markup
            (Static.className_of (toLowerCase E label))
            (Static.emoji_of (Static.className_of (toLowerCase E label)))
            (toUpperCase E label)
            (toFixed E (c * 100)%float 1)
            (Static.message_of (Static.className_of (toLowerCase E label)))) w) /\
  (forall (c : number) (s : bool) (m : positive) (e : Z),
     Prim2SF (c * 100)%float = S754_finite s m e ->
     at_least_1e21 m e = false ->
     exists n : Z,
       toFixed E (c * 100)%float 1 =
         (if s then js "-" else []) ++ place_point (dec (Z.to_N n)) 1 /\
       (0 <= n /\
        (2 * n - 1) * 2 ^ Z.max (- e) 0
          <= 2 * (Zpos m * 10 * 2 ^ Z.max e 0)
          < (2 * n + 1) * 2 ^ Z.max (- e) 0)%Z) /\
  (forall (conf : option value) (el : element),
     nth_error (document w) container = Some el ->
     match conf with Some v => truthy v = false | None => True end ->
     exists w' html,
       Static.displayResult E (result_object label conf) container w = Done tt w' /\
       html_of w' container = Some html /\
       includes html (nl ++ js "      <p>Confidence: 85.0%</p>" ++ nl) = true) /\
  (forall (c : number) (el : element),
     nth_error (document w) container = Some el ->
     truthy (VNum c) = true ->
     exists w' html,
       Static.displayResult E (result_object label (Some (VNum c))) container w =
         Done tt w' /\
       html_of w' container = Some html /\
       includes html
         (nl ++ js "      <p>Confidence: " ++ toFixed E (c * 100)%float 1 ++ js "%</p>" ++ nl)
       = true).
Proof.
  split; [|split; [|split; [|split]]].
  - intros conf Hfalsy. split; [|apply markup_shows_confidence].
    rewrite (displayResult_number E label conf 0.85%float).
    + reflexivity.
    + unfold or_else. destruct conf as [v|]; [rewrite Hfalsy|]; reflexivity.
  - intros c Hc. apply displayResult_number. unfold or_else. now rewrite Hc.
  - intros c s m e Hx Hsmall. exists (scaled_round m e 1). split.
    + now apply toFixed_finite.
    + apply (scaled_round_nearest m e 1).
  - intros conf el Hel Hfalsy.
    rewrite (displayResult_number E label conf 0.85%float).
    + run_page. do 2 eexists. split; [reflexivity|]. split; [read_html Hel|].
      change (js "      <p>Confidence: 85.0%</p>")
        with (js "      <p>Confidence: " ++ js "85.0" ++ js "%</p>").
      rewrite <- !app_assoc.
      change (toFixed E (0.85 * 100)%float 1) with (js "85.0").
      unfold Static.result_markup. find_piece.
    + unfold or_else. destruct conf as [v|]; [rewrite Hfalsy|]; reflexivity.
  - intros c el Hel Hc.
    rewrite (displayResult_number E label (Some (VNum c)) c).
    + run_page. do 2 eexists. split; [reflexivity|]. split; [read_html Hel|].
      unfold Static.result_markup. find_piece.
    + unfold or_else. now rewrite Hc.
Qed.

Lemma C10_confidence_witness :
  (exists w' html,
     Static.displayResult ref_engine (result_object (js "Benign") (Some (VNum 0%float))) 4
       fresh_world = Done tt w' /\
     html_of w' 4 = Some html /\
     includes html (nl ++ js "      <p>Confidence: 85.0%</p>" ++ nl) = true) /\
  (exists w' html,
     Static.displayResult ref_engine
       (result_object (js "Benign") (Some (VNum 0.9731%float))) 4 fresh_world = Done tt w' /\
     html_of w' 4 = Some html /\
     includes html (nl ++ js "      <p>Confidence: 97.3%</p>" ++ nl) = true).
Proof.
  destruct (C10_confidence_default ref_engine (js "Benign") 4 fresh_world)
    as [_ [_ [_ [Hdefault Hgiven]]]].
  split.
  - exact (Hdefault (Some (VNum 0%float)) _ eq_refl eq_refl).
  - exact (Hgiven 0.9731%float _ eq_refl eq_refl).
Defined.

(** * Further properties of the scripts *)

(** ** Switching tabs: what moves and what stays *)

Lemma unlit_deactivated (el : element) : unlit (deactivated el) = unlit el.
Proof.
  rewrite deactivated_cases. destruct (is_pane el || is_button el); [|reflexivity].
  apply remove_class_twice.
Qed.

Lemma unlit_activate (el : element) : unlit (activate el) = unlit el.
Proof.
  unfold unlit, activate, add_class, remove_class. cbn [el_id classList innerHTML]. f_equal.
  destruct (has_class (js "active") el); [reflexivity|].
  rewrite filter_app. cbn [filter]. rewrite str_eqb_refl. apply app_nil_r.
Qed.

Lemma unlit_touch (t ct j : handle) (el : element) : unlit (touch t ct j el) = unlit el.
Proof.
  unfold touch. destruct (j =? t)%nat, (j =? ct)%nat;
    rewrite ?unlit_activate; apply unlit_deactivated.
Qed.

Lemma unlit_switched (t ct : handle) (d : list element) :
  map unlit (switched t ct d) = map unlit d.
Proof.
  apply nth_error_ext. intros j. rewrite !nth_error_map, nth_error_switched.
  destruct (nth_error d j) as [el|]; simpl; [|reflexivity].
  now rewrite unlit_touch.
Qed.

Lemma unlit_all_deactivated (d : list element) : map unlit (map deactivated d) = map unlit d.
Proof.
  rewrite map_map. apply map_ext. apply unlit_deactivated.
Qed.

Lemma static_openTab_document (evt : event) (id : jsstring) (w : world) :
  document (final_world (Static.openTab evt id w)) = after_openTab evt id (document w).
Proof.
  destruct (static_openTab_run evt id w) as [w' [Hrun [Hdoc _]]].
  rewrite Hrun. exact Hdoc.
Qed.

Lemma templates_openTab_document (E : engine) (evt : event) (id : jsstring) (w : world) :
  document (final_world (Templates.openTab E evt id w)) = after_openTab evt id (document w).
Proof.
  rewrite templates_openTab_run. unfold after_openTab.
  destruct (find_index (has_id id) (document w)); reflexivity.
Qed.

Lemma static_openTab_world (evt : event) (id : jsstring) (w : world) :
  exists c,
    Static.openTab evt id w =
    Done tt {| document := after_openTab evt id (document w); console := c;
               sent := sent w; timers := timers w; randoms_drawn := randoms_drawn w |}.
Proof.
  unfold Static.openTab, after_openTab.
  unfold bind at 1, console_log at 1, console_write.
  unfold bind at 1, getElementsByClassName at 1. cbn [document].
  unfold bind at 1, getElementsByClassName at 1. cbn [document].
  unfold bind at 1.
  rewrite loop_over_class by reflexivity. cbn [document].
  unfold bind at 1.
  rewrite loop_over_class by apply buttons_unmoved.
  unfold set_document at 1 2. cbn [document console sent timers randoms_drawn].
  rewrite loops_deactivate.
  unfold bind at 1, getElementByIdOf. cbn [document].
  rewrite find_by_id_deactivated.
  destruct (find_index (has_id id) (document w)) as [t|]; run_page;
    eexists; reflexivity.
Qed.

(** X1.  [openTab] only moves the class [active].  Whatever the event and the
    id, and whether the call returns or throws, the page it leaves has the
    same elements with the same ids, markup and other classes, in the same
    order; both scripts leave the same document; no request is sent and no
    timer is set, and the templates script writes nothing to the console. *)
Theorem X1_openTab_only_moves_active (E : engine) (evt : event) (id : jsstring) (w : world) :
  let ws := final_world (Static.openTab evt id w) in
  let wt := final_world (Templates.openTab E evt id w) in
  map unlit (document ws) = map unlit (document w) /\
  document wt = document ws /\
  sent ws = sent w /\ timers ws = timers w /\
  sent wt = sent w /\ timers wt = timers w /\ console wt = console w.
Proof.
  intros ws wt. subst ws wt.
  rewrite templates_openTab_document.
  destruct (static_openTab_world evt id w) as [c Hrun]. rewrite Hrun.
  cbn [final_world document sent timers].
  split.
  { unfold after_openTab. destruct (find_index (has_id id) (document w)).
    - apply unlit_switched.
    - apply unlit_all_deactivated. }
  split; [reflexivity|]. split; [reflexivity|]. split; [reflexivity|].
  rewrite templates_openTab_run.
  destruct (find_index (has_id id) (document w)); cbn; auto.
Qed.

Lemma deactivated_relit (el : element) :
  is_pane el || is_button el = true ->
  deactivated (activate (deactivated el)) = deactivated el.
Proof.
  intros Htab.
  rewrite (deactivated_cases (activate (deactivated el))).
  rewrite activate_pane, activate_button, deactivated_pane, deactivated_button, Htab.
  rewrite (deactivated_cases el), Htab. apply remove_add_remove.
Qed.

Lemma deactivated_touch (t ct j : handle) (el : element) :
  ((j =? t)%nat || (j =? ct)%nat = true -> is_pane el || is_button el = true) ->
  deactivated (touch t ct j el) = deactivated el.
Proof.
  intros Htab. unfold touch.
  destruct (j =? t)%nat, (j =? ct)%nat; cbn [orb] in Htab;
    rewrite ?activate_twice;
    try (apply deactivated_relit; now apply Htab).
  apply deactivated_twice.
Qed.

Lemma after_openTab_relit (evt : event) (id : jsstring) (d : list element) :
  lights_tabs_only evt id d = true ->
  map deactivated (after_openTab evt id d) = map deactivated d.
Proof.
  unfold lights_tabs_only, after_openTab.
  destruct (find_index (has_id id) d) as [t|]; intros Htabs.
  - apply andb_prop in Htabs. destruct Htabs as [Ht Hct].
    apply nth_error_ext. intros j. rewrite !nth_error_map, nth_error_switched.
    destruct (nth_error d j) as [el|] eqn:Hel; simpl; [|reflexivity].
    f_equal. apply deactivated_touch. intros Hj.
    apply orb_prop in Hj. destruct Hj as [Hj|Hj]; apply Nat.eqb_eq in Hj; subst j.
    + unfold tab_element in Ht. now rewrite Hel in Ht.
    + unfold tab_element in Hct. now rewrite Hel in Hct.
  - rewrite map_map. apply map_ext. apply deactivated_twice.
Qed.

Lemma find_after_openTab (id : jsstring) (evt : event) (id' : jsstring) (d : list element) :
  find_index (has_id id) (after_openTab evt id' d) = find_index (has_id id) d.
Proof.
  unfold after_openTab. destruct (find_index (has_id id') d).
  - apply find_by_id_switched.
  - apply find_by_id_deactivated.
Qed.

Lemma after_openTab_twice (e1 e2 : event) (id1 id2 : jsstring) (d : list element) :
  lights_tabs_only e1 id1 d = true ->
  after_openTab e2 id2 (after_openTab e1 id1 d) = after_openTab e2 id2 d.
Proof.
  intros Htabs. unfold after_openTab at 1 3. rewrite find_after_openTab.
  unfold switched. rewrite (after_openTab_relit _ _ _ Htabs). reflexivity.
Qed.

(** X2.  The last switch wins.  When a call of [openTab] lights only tab
    elements (its target, if the id is known, and the clicked element are
    panes or buttons), a second call leaves the document it would have left
    without the first one: nothing of the first switch stays behind.  Both
    scripts. *)
Theorem X2_last_switch_wins (E : engine) (e1 e2 : event) (id1 id2 : jsstring) (w : world) :
  lights_tabs_only e1 id1 (document w) = true ->
  document (static_clicks [(e1, id1); (e2, id2)] w) =
    document (static_clicks [(e2, id2)] w) /\
  document (templates_clicks E [(e1, id1); (e2, id2)] w) =
    document (templates_clicks E [(e2, id2)] w).
Proof.
  intros Htabs. unfold static_clicks, templates_clicks. cbn [fold_left fst snd].
  rewrite !static_openTab_document, !templates_openTab_document.
  now rewrite (after_openTab_twice _ _ _ _ _ Htabs).
Qed.

Lemma X2_last_switch_witness :
  lights_tabs_only {| currentTarget := 1 |} (js "csv") (document fresh_world) = true /\
  document (static_clicks [({| currentTarget := 1 |}, js "csv");
                           ({| currentTarget := 0 |}, js "manual")] fresh_world) =
    document (static_clicks [({| currentTarget := 0 |}, js "manual")] fresh_world).
Proof.
  split; [reflexivity|].
  apply (X2_last_switch_wins ref_engine {| currentTarget := 1 |} {| currentTarget := 0 |}
           (js "csv") (js "manual") fresh_world).
  reflexivity.
Defined.

Lemma lit_outside_kept (evt : event) (id : jsstring) (d : list element) (h : handle) :
  lit_outside_tabs d h = true ->
  lit_outside_tabs (after_openTab evt id d) h = true.
Proof.
  unfold lit_outside_tabs. intros Hlit.
  assert (Hel : nth_error (after_openTab evt id d) h =
                option_map (fun el => el) (nth_error d h) \/
                nth_error (after_openTab evt id d) h =
                option_map activate (nth_error d h)).
  { unfold after_openTab. destruct (find_index (has_id id) d) as [t|].
    - rewrite nth_error_switched. destruct (nth_error d h) as [el|]; [|now left].
      apply andb_prop in Hlit. destruct Hlit as [_ Hout].
      apply negb_true_iff in Hout.
      cbn [option_map]. unfold touch. rewrite (deactivated_cases el), Hout.
      destruct (h =? t)%nat, (h =? currentTarget evt)%nat;
        rewrite ?activate_twice; auto.
    - rewrite nth_error_map. destruct (nth_error d h) as [el|]; [|now left].
      apply andb_prop in Hlit. destruct Hlit as [_ Hout].
      apply negb_true_iff in Hout.
      cbn [option_map]. rewrite (deactivated_cases el), Hout. now left. }
  destruct (nth_error d h) as [el|]; [|discriminate].
  destruct Hel as [Hel|Hel]; rewrite Hel; simpl; [exact Hlit|].
  rewrite activate_active, activate_pane, activate_button.
  apply andb_prop in Hlit. now destruct Hlit as [_ ->].
Qed.

Lemma lit_outside_first (evt : event) (id : jsstring) (d : list element) (t : handle) :
  find_index (has_id id) d = Some t ->
  tab_element d t = false ->
  lit_outside_tabs (after_openTab evt id d) t = true.
Proof.
  intros Hfind Htab. unfold after_openTab, lit_outside_tabs. rewrite Hfind.
  rewrite nth_error_switched.
  destruct (find_index_some _ _ _ Hfind) as [el [Hel _]].
  unfold tab_element in Htab. rewrite Hel in *. simpl.
  unfold touch. rewrite Nat.eqb_refl, (deactivated_cases el), Htab.
  destruct (t =? currentTarget evt)%nat; rewrite ?activate_twice;
    now rewrite activate_active, activate_pane, activate_button, Htab.
Qed.

(** X3.  [openTab] does not look at what the id names.  Called with the id of
    an element that is neither a tab pane nor a tab button, it gives that
    element the class [active], and no later call of [openTab], whatever its
    event and id, takes it away again: the loops only visit panes and
    buttons.  Both scripts, also when a later call of the templates script
    throws. *)
Theorem X3_active_sticks_outside_tabs (E : engine) (evt : event) (id : jsstring)
    (t : handle) (calls : list (event * jsstring)) (w : world) :
  find_index (has_id id) (document w) = Some t ->
  tab_element (document w) t = false ->
  lit_outside_tabs (document (static_clicks ((evt, id) :: calls) w)) t = true /\
  lit_outside_tabs (document (templates_clicks E ((evt, id) :: calls) w)) t = true.
Proof.
  intros Hfind Htab.
  pose proof (lit_outside_first evt id _ _ Hfind Htab) as Hfirst.
  unfold static_clicks, templates_clicks. cbn [fold_left fst snd].
  split.
  - rewrite <- static_openTab_document in Hfirst.
    revert Hfirst. generalize (final_world (Static.openTab evt id w)).
    induction calls as [|c calls IH]; intros w1 Hlit; [exact Hlit|].
    cbn [fold_left]. apply IH. rewrite static_openTab_document.
    now apply lit_outside_kept.
  - rewrite <- (templates_openTab_document E) in Hfirst.
    revert Hfirst. generalize (final_world (Templates.openTab E evt id w)).
    induction calls as [|c calls IH]; intros w1 Hlit; [exact Hlit|].
    cbn [fold_left]. apply IH. rewrite templates_openTab_document.
    now apply lit_outside_kept.
Qed.

Lemma X3_active_sticks_witness :
  lit_outside_tabs
    (document (static_clicks [(csv_button_click, js "csvResult");
                              ({| currentTarget := 0 |}, js "manual");
                              (csv_button_click, js "csv")] fresh_world)) 5 = true.
Proof.
  apply (X3_active_sticks_outside_tabs ref_engine csv_button_click (js "csvResult") 5
           [({| currentTarget := 0 |}, js "manual"); (csv_button_click, js "csv")]
           fresh_world); reflexivity.
Defined.

(** ** The result regions, and the answers to a single record *)

Section Regions.
Variable E : engine.
Variable B : browser.

Lemma templates_cancerForm_returns (form : formdata) (w : world) (div : handle) :
  find_index (has_id (js "manualResult")) (document w) = Some div ->
  throws (Templates.cancerForm_submit E B form w) = false.
Proof.
  intros Hdiv. unfold Templates.cancerForm_submit.
  unfold bind at 1, getElementById. cbn [document]. rewrite Hdiv.
  unfold bind at 1, set_innerHTML at 1.
  apply try_catch_returns. intros e w'. reflexivity.
Qed.

Lemma templates_csvForm_returns (form : formdata) (w : world) (div : handle) :
  find_index (has_id (js "csvResult")) (document w) = Some div ->
  throws (Templates.csvForm_submit E B form w) = false.
Proof.
  intros Hdiv. unfold Templates.csvForm_submit.
  unfold bind at 1, getElementById. cbn [document]. rewrite Hdiv.
  unfold bind at 1, set_innerHTML at 1.
  apply try_catch_returns. intros e w'. reflexivity.
Qed.
End Regions.

(** X4.  Each of the four submit handlers throws exactly when its result
    region is not on the page.  With the region it returns normally whatever
    the form and the service; without it the run stops with the [TypeError]
    of the assignment to [innerHTML] of [null], before anything is sent or
    scheduled and with the page as it was. *)
Theorem X4_handlers_need_their_region (E : engine) (B : browser) (form : formdata)
    (w : world) :
  needs_region E "manualResult" (Static.cancerForm_submit E B form) w /\
  needs_region E "csvResult" (Static.csvForm_submit E B form) w /\
  needs_region E "manualResult" (Templates.cancerForm_submit E B form) w /\
  needs_region E "csvResult" (Templates.csvForm_submit E B form) w.
Proof.
  unfold needs_region, fails_fast. repeat split.
  - destruct (find_index (has_id (js "manualResult")) (document w)) as [div|] eqn:Hdiv.
    + now apply static_cancerForm_returns with (div := div).
    + unfold Static.cancerForm_submit. run_page. rewrite Hdiv.
      eexists. split; [reflexivity|]. cbn. repeat split.
  - destruct (find_index (has_id (js "csvResult")) (document w)) as [div|] eqn:Hdiv.
    + now apply static_csvForm_returns with (div := div).
    + unfold Static.csvForm_submit. run_page. rewrite Hdiv.
      eexists. split; [reflexivity|]. cbn. repeat split.
  - destruct (find_index (has_id (js "manualResult")) (document w)) as [div|] eqn:Hdiv.
    + now apply templates_cancerForm_returns with (div := div).
    + unfold Templates.cancerForm_submit. run_page. rewrite Hdiv.
      eexists. split; [reflexivity|]. cbn. repeat split.
  - destruct (find_index (has_id (js "csvResult")) (document w)) as [div|] eqn:Hdiv.
    + now apply templates_csvForm_returns with (div := div).
    + unfold Templates.csvForm_submit. run_page. rewrite Hdiv.
      eexists. split; [reflexivity|]. cbn. repeat split.
Qed.

Section Single.
Variable E : engine.
Variable B : browser.

End Single.





(** ** The table of a batch *)

Lemma spells_one_word (label : jsstring) :
  spells "benign" label && spells "malignant" label = false.
Proof.
  unfold spells.
  destruct (str_eqb (map ascii_lower label) (js "benign")) eqn:Hb; [|reflexivity].
  apply str_eqb_eq in Hb. rewrite Hb. reflexivity.
Qed.

Lemma labels_partition (ps : list (jsstring * option number)) :
  (length (filter (fun p => spells "benign" (fst p)) ps) +
   length (filter (fun p => spells "malignant" (fst p)) ps) +
   length (filter (fun p => spells_neither (fst p)) ps) = length ps)%nat.
Proof.
  induction ps as [|p ps IH]; [reflexivity|].
  cbn [filter length]. unfold spells_neither at 1.
  pose proof (spells_one_word (fst p)) as Hone.
  destruct (spells "benign" (fst p)), (spells "malignant" (fst p));
    try discriminate Hone; cbn [negb andb length]; lia.
Qed.

(** X7.  On a conforming engine the two filters of the summary count disjoint
    sets of rows: the rows spelling [benign] and the rows spelling
    [malignant], up to case.  Rows with any other label are counted by
    neither, so the two counts add up to less than the number of rows when
    there are such rows, although these rows are styled [benign] in the
    table: the rows styled [malignant] are exactly the rows counted
    malignant. *)
Theorem X7_counts_split_the_rows (E : engine) (HE : conforming E)
    (ps : list (jsstring * option number)) :
  exists benign malignant : nat,
    Static.count_label E "benign" (map prediction_object ps) = Normal benign /\
    Static.count_label E "malignant" (map prediction_object ps) = Normal malignant /\
    (benign + malignant + length (filter (fun p => spells_neither (fst p)) ps)
     = length ps)%nat /\
    length (filter (fun p => str_eqb (Static.className_of (toLowerCase E (fst p)))
                               (js "malignant")) ps) = malignant /\
    length (filter (fun p => str_eqb (Static.className_of (toLowerCase E (fst p)))
                               (js "benign")) ps) =
      (benign + length (filter (fun p => spells_neither (fst p)) ps))%nat.
Proof.
  exists (length (filter (fun p => spells "benign" (fst p)) ps)),
         (length (filter (fun p => spells "malignant" (fst p)) ps)).
  rewrite !count_of_predictions, !(filter_by_label E HE) by reflexivity.
  split; [reflexivity|]. split; [reflexivity|]. split; [apply labels_partition|].
  assert (Hcls : forall p : jsstring * option number,
             str_eqb (Static.className_of (toLowerCase E (fst p))) (js "malignant") =
             spells "malignant" (fst p)).
  { intros p. rewrite (className_spells E HE).
    destruct (spells "malignant" (fst p)); reflexivity. }
  assert (Hben : forall p : jsstring * option number,
             str_eqb (Static.className_of (toLowerCase E (fst p))) (js "benign") =
             negb (spells "malignant" (fst p))).
  { intros p. rewrite (className_spells E HE).
    destruct (spells "malignant" (fst p)); reflexivity. }
  split.
  - f_equal. apply filter_ext. exact Hcls.
  - rewrite (filter_ext _ _ Hben).
    pose proof (labels_partition ps) as Hsum.
    assert (Hmal : (length (filter (fun p : jsstring * option number =>
                                      negb (spells "malignant" (fst p))) ps) +
                    length (filter (fun p => spells "malignant" (fst p)) ps)
                    = length ps)%nat).
    { clear. induction ps as [|p ps IH]; [reflexivity|].
      cbn [filter]. destruct (spells "malignant" (fst p)); cbn [negb length]; lia. }
    lia.
Qed.

Lemma X7_counts_split_witness :
  exists benign malignant : nat,
    Static.count_label ref_engine "benign"
      (map prediction_object [(js "Benign", None); (js "unknown", None);
                              (js "MALIGNANT", None)]) = Normal benign /\
    Static.count_label ref_engine "malignant"
      (map prediction_object [(js "Benign", None); (js "unknown", None);
                              (js "MALIGNANT", None)]) = Normal malignant /\
    (benign + malignant + 1 = 3)%nat.
Proof.
  destruct (X7_counts_split_the_rows ref_engine ref_engine_conforming
              [(js "Benign", None); (js "unknown", None); (js "MALIGNANT", None)])
    as [b [m [Hb [Hm [Hsum _]]]]].
  exists b, m. split; [exact Hb|]. split; [exact Hm|]. exact Hsum.
Defined.







(** ** The single-record form of the templates script *)





(** X12.  In the templates script an answer that is a bare non-empty JSON
    string is displayed exactly as the object holding it under [prediction]
    without a confidence: [result.prediction || result] falls back to the
    string itself. *)
Theorem X12_bare_label_is_displayed (E : engine) (B : browser) (label : jsstring)
    (container : handle) (w : world) :
  label <> [] ->
  Templates.displayResult E B (VStr label) container w =
  Templates.displayResult E B (result_object label None) container w.
Proof.
  intros Hlabel. unfold Templates.displayResult.
  rewrite prediction_of, confidence_of.
  assert (Hp : or_else (VStr label) (result_object label None) = VStr label).
  { unfold or_else. cbn [truthy]. destruct label; [contradiction|reflexivity]. }
  cbn [get].
  replace (str_eqb (js "prediction") (js "length")) with false by reflexivity.
  replace (str_eqb (js "confidence") (js "length")) with false by reflexivity.
  run_page. rewrite Hp.
  change (or_else VUndefined (VStr label)) with (VStr label).
  reflexivity.
Qed.

Lemma X12_bare_label_witness :
  Templates.displayResult ref_engine (answering server_error) (VStr (js "Malignant")) 4
    fresh_world =
  Templates.displayResult ref_engine (answering server_error)
    (result_object (js "Malignant") None) 4 fresh_world.
Proof.
  apply (X12_bare_label_is_displayed ref_engine (answering server_error) (js "Malignant") 4
           fresh_world).
  discriminate.
Defined.



(** ** The CSV form of the templates script *)

(** X14.  The CSV handler of the templates script never shows an error and
    does not look at the form.  With its region on the page it returns
    normally having sent exactly one request, with or without a file, and
    then either it set no timer and the region shows a table, or the region
    still shows the loading text and the mock results are scheduled in
    2000 ms. *)
Theorem X14_templates_csv_shows_no_error (E : engine) (B : browser) (form : formdata)
    (w : world) (div : handle) :
  find_index (has_id (js "csvResult")) (document w) = Some div ->
  exists ts w',
    Templates.csvForm_submit E B form w = Done ts w' /\
    sent w' = sent w ++ [Templates.predict_csv_request form] /\
    ((ts = [] /\
      exists body,
        html_of w' div =
          Some (Templates.csv_table_head ++ body ++ js "</tbody></table></div>")) \/
     (ts = [mock_timer div] /\ html_of w' div = Some processing_csv)).
Proof.
  intros Hdiv.
  destruct (find_index_some _ _ _ Hdiv) as [el [Hel _]].
  unfold Templates.csvForm_submit, Templates.simulateCSVPrediction. run_page. rewrite Hdiv.
  destruct (server B (Templates.predict_csv_request form)) as [r|e].
  2:{ do 2 eexists. split; [reflexivity|]. split; [reflexivity|]. right.
      split; [reflexivity|]. read_html Hel. }
  destruct (ok r); cbv iota; run_page.
  2:{ do 2 eexists. split; [reflexivity|]. split; [reflexivity|]. right.
      split; [reflexivity|]. read_html Hel. }
  destruct (Templates.response_json E r) as [v|e]; run_page.
  2:{ do 2 eexists. split; [reflexivity|]. split; [reflexivity|]. right.
      split; [reflexivity|]. read_html Hel. }
  unfold Templates.displayCSVResults, Templates.csv_markup. run_page.
  destruct (array_method E "forEach" v) as [items|e]; cbn [cbind].
  2:{ do 2 eexists. split; [reflexivity|]. split; [reflexivity|]. right.
      split; [reflexivity|]. read_html Hel. }
  destruct (Templates.csv_rows E items 0) as [body|e]; cbn [cbind].
  - do 2 eexists. split; [reflexivity|]. split; [reflexivity|]. left.
    split; [reflexivity|]. exists body. read_html Hel.
  - do 2 eexists. split; [reflexivity|]. split; [reflexivity|]. right.
    split; [reflexivity|]. read_html Hel.
Qed.

Lemma X14_templates_csv_witness :
  exists ts w',
    Templates.csvForm_submit ref_engine unreachable [] fresh_world = Done ts w' /\
    sent w' = [Templates.predict_csv_request []].
Proof.
  destruct (X14_templates_csv_shows_no_error ref_engine unreachable [] fresh_world 5 eq_refl)
    as [ts [w' [Hrun [Hsent _]]]].
  exists ts, w'. split; [exact Hrun|exact Hsent].
Defined.

(** X15.  The templates script expects a bare array of predictions.  An
    answer with a success status that is a JSON object, such as the batch
    object with a [predictions] property that the static script reads, has
    no [forEach]: the error is swallowed, nothing of the answer is shown and
    the mock results are scheduled instead. *)
Theorem X15_batch_object_is_replaced_by_mock (E : engine) (B : browser) (form : formdata)
    (w : world) (div : handle) (r : response) (props : list (jsstring * value)) :
  find_index (has_id (js "csvResult")) (document w) = Some div ->
  server B (Templates.predict_csv_request form) = Resolves r ->
  ok r = true ->
  Templates.response_json E r = Normal (VObj props) ->
  exists w',
    Templates.csvForm_submit E B form w = Done [mock_timer div] w' /\
    html_of w' div = Some processing_csv.
Proof.
  intros Hdiv Hnet Hok Hjson.
  destruct (find_index_some _ _ _ Hdiv) as [el [Hel _]].
  unfold Templates.csvForm_submit, Templates.simulateCSVPrediction. run_page.
  rewrite Hdiv, Hnet, Hok. 
  unfold Templates.displayCSVResults, Templates.csv_markup. run_page.
  rewrite Hjson. cbn [array_method cbind].
  eexists. split; [reflexivity|]. read_html Hel.
Qed.

Lemma X15_batch_object_witness :
  exists w',
    Templates.csvForm_submit ref_engine
      (answering (ok_with (js "{" ++ quoted "predictions" ++ js ": [{" ++
                           quoted "prediction" ++ js ": " ++ quoted "Benign" ++
                           js "}]}")))
      csv_upload fresh_world = Done [mock_timer 5] w' /\
    html_of w' 5 = Some processing_csv.
Proof.
  apply (X15_batch_object_is_replaced_by_mock ref_engine
           (answering (ok_with (js "{" ++ quoted "predictions" ++ js ": [{" ++
                                quoted "prediction" ++ js ": " ++ quoted "Benign" ++
                                js "}]}")))
           csv_upload fresh_world 5
           (ok_with (js "{" ++ quoted "predictions" ++ js ": [{" ++
                     quoted "prediction" ++ js ": " ++ quoted "Benign" ++ js "}]}"))
           [(js "predictions", VArr [VObj [(js "prediction", VStr (js "Benign"))]])]);
    reflexivity.
Defined.






Lemma templates_rows_of_predictions (E : engine) (ps : list (jsstring * option number))
    (index : nat) :
  Templates.csv_rows E (map prediction_object ps) index =
  Normal (templates_table_body E ps index).
Proof.
  revert index. induction ps as [|[label c] ps IH]; intros index; [reflexivity|].
  cbn [map Templates.csv_rows templates_table_body fst snd].
  change (prediction_object (label, c)) with (result_object label (option_map VNum c)).
  unfold Templates.csv_row.
  rewrite prediction_of. cbn [cbind string_method to_string]. rewrite confidence_of.
  destruct c; cbn [option_map cbind to_number]; rewrite IH; reflexivity.
Qed.

Lemma templates_table_body_row (E : engine) (ps : list (jsstring * option number))
    (i k : nat) (p : jsstring * option number) :
  nth_error ps i = Some p ->
  exists before after,
    templates_table_body E ps k =
    before ++
    Templates.csv_row_markup (dec (N.of_nat (k + i + 1)))
      (Templates.className_of (toLowerCase E (fst p))) (fst p) (templates_cell E (snd p)) ++
    after.
Proof.
  revert i k. induction ps as [|q ps IH]; intros [|i] k Hp; try discriminate.
  - injection Hp as ->. exists [], (templates_table_body E ps (S k)).
    cbn [templates_table_body app]. now rewrite Nat.add_0_r.
  - destruct (IH i (S k) Hp) as [before [after Hbody]].
    exists (Templates.csv_row_markup (dec (N.of_nat (k + 1)))
              (Templates.className_of (toLowerCase E (fst q))) (fst q)
              (templates_cell E (snd q)) ++ before), after.
    cbn [templates_table_body]. rewrite Hbody, <- app_assoc.
    now replace (S k + i + 1)%nat with (k + S i + 1)%nat by lia.
Qed.

(** X17.  In the templates script an array of labelled predictions always
    renders.  With the container on the page [displayCSVResults] returns and
    the container holds a table that opens with the heading
    [Prediction Results] and has, for each prediction, the row of its number
    with its label, the class [malignant] or [benign] of the lower-cased
    label, and its confidence times 100 with one decimal.  A missing
    confidence is multiplied as it is, so that its cell reads [NaN%]; the row
    the static script builds for the same prediction reads [N/A] there. *)
Theorem X17_templates_table_of_labelled_rows (E : engine)
    (ps : list (jsstring * option number)) (container : handle) (w : world)
    (el : element) :
  nth_error (document w) container = Some el ->
  exists w' html,
    Templates.displayCSVResults E (VArr (map prediction_object ps)) container w =
      Done tt w' /\
    html_of w' container = Some html /\
    starts_with
      (js "<div class=" ++ [34%N] ++ js "csv-results" ++ [34%N] ++ js ">" ++
       js "<h3>Prediction Results</h3>") html = true /\
    (forall (i : nat) (label : jsstring) (c : option number),
       nth_error ps i = Some (label, c) ->
       includes html
         (nl ++ js "      <tr>" ++
          nl ++ js "        <td>" ++ dec (N.of_nat (i + 1)) ++ js "</td>" ++
          nl ++ js "        <td class=" ++ [34%N] ++
          (if str_eqb (toLowerCase E label) (js "malignant")
           then js "malignant" else js "benign") ++
          [34%N] ++ js ">" ++ label ++ js "</td>" ++
          nl ++ js "        <td>" ++
          match c with
          | Some x => toFixed E (x * 100)%float 1
          | None => js "NaN"
          end ++ js "%</td>" ++
          nl ++ js "      </tr>") = true /\
       exists r,
         Static.row E (prediction_object (label, c)) i = Normal r /\
         includes r
           (nl ++ js "        <td>" ++
            match c with
            | Some x => if truthy (VNum x) then toFixed E (x * 100)%float 1 ++ js "%"
                        else js "N/A"
            | None => js "N/A"
            end ++ js "</td>" ++
            nl ++ js "      </tr>") = true).
Proof.
  intros Hel.
  unfold Templates.displayCSVResults, Templates.csv_markup.
  cbn [array_method cbind]. rewrite templates_rows_of_predictions. cbn [cbind].
  run_page. do 2 eexists. split; [reflexivity|]. split; [read_html Hel|].
  split.
  - unfold Templates.csv_table_head, quoted. rewrite <- !app_assoc. starts_chain.
  - intros i label c Hp. split.
    + destruct (templates_table_body_row E ps i 0 (label, c) Hp) as [above [below Hbody]].
      rewrite Hbody. cbn [fst snd Nat.add]. apply includes_inside, includes_inside.
      unfold Templates.csv_row_markup, Templates.className_of, templates_cell.
      destruct c as [x|]; [find_piece|].
      change (toFixed E (nan * 100)%float 1) with (js "NaN"). find_piece.
    + rewrite row_of_prediction. eexists. split; [reflexivity|].
      unfold Static.row_markup, confidence_cell. cbn [fst snd].
      destruct c as [x|]; [destruct (truthy (VNum x))|]; find_piece.
Qed.

Lemma X17_templates_table_witness :
  exists w' html,
    Templates.displayCSVResults ref_engine
      (VArr (map prediction_object [(js "Benign", Some 0.5%float); (js "MALIGNANT", None)]))
      5 fresh_world = Done tt w' /\
    html_of w' 5 = Some html /\
    includes html
      (nl ++ js "      <tr>" ++
       nl ++ js "        <td>2</td>" ++
       nl ++ js "        <td class=" ++ [34%N] ++ js "malignant" ++ [34%N] ++
       js ">MALIGNANT</td>" ++
       nl ++ js "        <td>NaN%</td>" ++
       nl ++ js "      </tr>") = true.
Proof.
  destruct (X17_templates_table_of_labelled_rows ref_engine
              [(js "Benign", Some 0.5%float); (js "MALIGNANT", None)] 5 fresh_world _ eq_refl)
    as [w' [html [Hrun [Hhtml [_ Hrows]]]]].
  exists w', html. split; [exact Hrun|]. split; [exact Hhtml|].
  exact (proj1 (Hrows 1%nat (js "MALIGNANT") None eq_refl)).
Defined.

(** ** The health check *)

Lemma checkHealth_logs_once (E : engine) (health : fetch_outcome) (w : world) :
  exists verdict, Static.checkHealth E health w = Done tt (logged [verdict] w).
Proof.
  unfold Static.checkHealth, logged. run_page.
  destruct health as [r|e]; [|eexists; reflexivity].
  destruct (response_text r) as [text|e]; cbn [cbind]; [|eexists; reflexivity].
  destruct (JSON_parse E text) as [status|e]; [|eexists; reflexivity].
  destruct (get E status (js "model_loaded")) as [m|e]; [|eexists; reflexivity].
  destruct (truthy m); eexists; reflexivity.
Qed.

(** X18.  The initialisation of the static script only logs.  Whatever its
    health request settles to, it returns normally with the page and the
    timers as they were, submits nothing, and leaves exactly five more
    console entries: the two banners, whether the elements [manual] and
    [csv] are on the page, and one verdict of the health check. *)
Theorem X18_initialize_only_logs (E : engine) (health : fetch_outcome) (w : world) :
  exists verdict,
    Static.initialize E health w =
    Done tt
      (logged
         [{| level := LevelLog;
             args := [ArgStr (rocket ++ js " Breast Cancer Prediction System Initialized")] |};
          {| level := LevelLog;
             args := [ArgStr (robot_face ++
                              js " Using trained model.pkl for all predictions")] |};
          {| level := LevelLog;
             args := [ArgStr (js "Manual tab found:"); ArgVal (VBool (on_page "manual" w))] |};
          {| level := LevelLog;
             args := [ArgStr (js "CSV tab found:"); ArgVal (VBool (on_page "csv" w))] |};
          verdict] w).
Proof.
  unfold Static.initialize.
  cbv [bind console_log console_write getElementById].
  cbn [document console sent timers randoms_drawn].
  match goal with
  | |- context [Static.checkHealth E health ?w0] =>
      destruct (checkHealth_logs_once E health w0) as [verdict Hv]; rewrite Hv
  end.
  exists verdict. unfold logged, on_page.
  cbn [document console sent timers randoms_drawn].
  rewrite <- !app_assoc. cbn [app].
  destruct (find_index (has_id (js "manual")) (document w)),
           (find_index (has_id (js "csv")) (document w)); reflexivity.
Qed.

(** X19.  The health check does not look at the status of the answer.  For
    every answer whose body parses to an object, whatever its status, the
    verdict is the [log] entry that the model is ready when [model_loaded] is
    truthy, and the warning otherwise: an answer with status 500 and
    [model_loaded] true is reported as ready. *)
Theorem X19_health_status_is_ignored (E : engine) (r : response) (text : jsstring)
    (props : list (jsstring * value)) (w : world) :
  resp_body r = BodyText text ->
  JSON_parse E text = Normal (VObj props) ->
  Static.checkHealth E (Resolves r) w =
  Done tt
    (logged
       [match own_property props (js "model_loaded") with
        | Some m =>
            if truthy m
            then {| level := LevelLog;
                    args := [ArgStr (check_mark ++
                                     js " Trained ML Model is loaded and ready")] |}
            else {| level := LevelWarn;
                    args := [ArgStr (warning_sign ++
                                     js " ML Model may not be loaded properly")] |}
        | None => {| level := LevelWarn;
                     args := [ArgStr (warning_sign ++
                                      js " ML Model may not be loaded properly")] |}
        end] w).
Proof.
  intros Hbody Hparse. unfold Static.checkHealth, response_text, logged.
  run_page. rewrite Hbody. cbn [cbind]. rewrite Hparse. cbn [get].
  destruct (own_property props (js "model_loaded")) as [m|]; [|reflexivity].
  destruct (truthy m); reflexivity.
Qed.

Lemma X19_health_status_witness :
  Static.checkHealth ref_engine
    (Resolves {| status := 500; statusText := js "Internal Server Error";
                 resp_body := BodyText (js "{" ++ quoted "model_loaded" ++ js ": true}") |})
    fresh_world =
  Done tt
    (logged [{| level := LevelLog;
                args := [ArgStr (check_mark ++
                                 js " Trained ML Model is loaded and ready")] |}]
       fresh_world).
Proof.
  apply (X19_health_status_is_ignored ref_engine
           {| status := 500; statusText := js "Internal Server Error";
              resp_body := BodyText (js "{" ++ quoted "model_loaded" ++ js ": true}") |}
           (js "{" ++ quoted "model_loaded" ++ js ": true}")
           [(js "model_loaded", VBool true)] fresh_world); reflexivity.
Defined.

(** ** The entries of the form *)

Lemma str_eqb_sym (a b : jsstring) : str_eqb a b = str_eqb b a.
Proof.
  destruct (str_eqb a b) eqn:Hab, (str_eqb b a) eqn:Hba; try reflexivity.
  - apply str_eqb_eq in Hab. subst b. now rewrite str_eqb_refl in Hba.
  - apply str_eqb_eq in Hba. subst b. now rewrite str_eqb_refl in Hab.
Qed.

Lemma set_property_keys {V} (k : jsstring) (v : V) (props : list (jsstring * V)) :
  map fst (set_property k v props) =
  if existsb (fun k' => str_eqb k' k) (map fst props)
  then map fst props else map fst props ++ [k].
Proof.
  induction props as [|[k' v'] props IH]; [reflexivity|].
  cbn [set_property map fst existsb].
  destruct (str_eqb k' k); [reflexivity|].
  cbn [map fst orb app]. rewrite IH.
  now destruct (existsb (fun k'0 => str_eqb k'0 k) (map fst props)).
Qed.

Lemma set_property_NoDup {V} (k : jsstring) (v : V) (props : list (jsstring * V)) :
  NoDup (map fst props) -> NoDup (map fst (set_property k v props)).
Proof.
  intros Hnd. rewrite set_property_keys.
  destruct (existsb (fun k' => str_eqb k' k) (map fst props)) eqn:Hex; [exact Hnd|].
  apply NoDup_app; [exact Hnd|repeat constructor; intros []|].
  intros x Hin [Hx|[]]. subst x.
  assert (existsb (fun k' => str_eqb k' k) (map fst props) = true); [|congruence].
  apply existsb_exists. exists k. split; [exact Hin|apply str_eqb_refl].
Qed.

Lemma set_property_get (k : jsstring) (v : form_value) (props : list (jsstring * form_value))
    (name : jsstring) :
  formdata_get (set_property k v props) name =
  if str_eqb k name then Some v else formdata_get props name.
Proof.
  induction props as [|[k' v'] props IH].
  - reflexivity.
  - cbn [set_property formdata_get].
    destruct (str_eqb k' k) eqn:Hk.
    + apply str_eqb_eq in Hk. subst k'. cbn [formdata_get].
      destruct (str_eqb k name); reflexivity.
    + cbn [formdata_get]. rewrite IH.
      destruct (str_eqb k' name) eqn:Hn; [|reflexivity].
      apply str_eqb_eq in Hn. subst k'.
      rewrite str_eqb_sym in Hk. now rewrite Hk.
Qed.

Lemma fromEntries_NoDup (form : formdata) : NoDup (map fst (fromEntries form)).
Proof.
  unfold fromEntries.
  assert (H : forall acc : list (jsstring * form_value),
             NoDup (map fst acc) ->
             NoDup (map fst (fold_left (fun obj kv => set_property (fst kv) (snd kv) obj)
                               form acc))).
  { induction form as [|kv form IH]; intros acc Hacc; [exact Hacc|].
    cbn [fold_left]. apply IH. now apply set_property_NoDup. }
  apply H. constructor.
Qed.

Lemma formdata_get_app (a b : formdata) (name : jsstring) :
  formdata_get (a ++ b) name =
  match formdata_get a name with
  | Some v => Some v
  | None => formdata_get b name
  end.
Proof.
  induction a as [|[k v] a IH]; [reflexivity|].
  cbn [app formdata_get]. destruct (str_eqb k name); [reflexivity|exact IH].
Qed.

Lemma fromEntries_get (form : formdata) (name : jsstring) :
  formdata_get (fromEntries form) name = formdata_get (rev form) name.
Proof.
  unfold fromEntries.
  assert (H : forall acc : list (jsstring * form_value),
             formdata_get (fold_left (fun obj kv => set_property (fst kv) (snd kv) obj)
                             form acc) name =
             match formdata_get (rev form) name with
             | Some v => Some v
             | None => formdata_get acc name
             end).
  { induction form as [|[k v] form IH]; intros acc; [reflexivity|].
    cbn [fold_left rev fst snd]. rewrite IH, formdata_get_app, set_property_get.
    cbn [formdata_get].
    destruct (formdata_get (rev form) name); [reflexivity|].
    destruct (str_eqb k name); reflexivity. }
  rewrite H. now destruct (formdata_get (rev form) name).
Qed.

Lemma static_request_is_sent (E : engine) (B : browser) (form : formdata) (w : world)
    (div : handle) :
  find_index (has_id (js "manualResult")) (document w) = Some div ->
  sent (final_world (Static.cancerForm_submit E B form w)) =
  sent w ++ [Static.predict_request (fromEntries form)].
Proof.
  intros Hdiv. unfold Static.cancerForm_submit. run_page. rewrite Hdiv.
  destruct (server B (Static.predict_request (fromEntries form))) as [r|e]; [|reflexivity].
  destruct (ok r); cbn [negb]; run_page.
  - destruct (Static.safeJsonResponse E r) as [v|e]; run_page; [|reflexivity].
    unfold Static.displayResult. run_page.
    destruct (get E v (js "prediction")) as [p|e]; run_page; [|reflexivity].
    destruct (get E v (js "confidence")) as [c|e]; run_page; [|reflexivity].
    destruct (string_method E "toLowerCase" (toLowerCase E) p) as [lower|e]; run_page;
      [|reflexivity].
    destruct (string_method E "toUpperCase" (toUpperCase E) p) as [upper|e]; run_page;
      [|reflexivity].
    destruct (to_number E (or_else c (VNum 0.85%float))) as [x|e]; run_page; reflexivity.
  - destruct (response_text r) as [t|e]; run_page; reflexivity.
Qed.

Lemma templates_request_is_sent (E : engine) (B : browser) (form : formdata) (w : world)
    (div : handle) :
  find_index (has_id (js "manualResult")) (document w) = Some div ->
  sent (final_world (Templates.cancerForm_submit E B form w)) =
  sent w ++ [Templates.predict_request (fromEntries form)].
Proof.
  intros Hdiv. unfold Templates.cancerForm_submit, Templates.simulatePrediction.
  run_page. rewrite Hdiv.
  destruct (server B (Templates.predict_request (fromEntries form))) as [r|e]; [|reflexivity].
  destruct (ok r); cbv iota; run_page; [|reflexivity].
  destruct (Templates.response_json E r) as [v|e]; run_page; [|reflexivity].
  unfold Templates.displayResult. run_page.
  destruct (get E v (js "prediction")) as [p|e]; run_page; [|reflexivity].
  destruct (get E v (js "confidence")) as [c|e]; run_page; [|reflexivity].
  destruct (truthy c); run_page;
    (destruct (string_method E "toLowerCase" (toLowerCase E) (or_else p v)) as [lower|e];
     run_page; [|reflexivity]);
    (destruct (string_method E "toUpperCase" (toUpperCase E) (or_else p v)) as [upper|e];
     run_page; [|reflexivity]); [|reflexivity].
  destruct (to_number E c) as [x|e]; run_page; reflexivity.
Qed.

(** X20.  What a submission of the single-record form sends.  With the
    region on the page, each script sends exactly one request whatever the
    service answers, the same in both: a POST to [/predict] with content
    type [application/json] whose body has one property for each field name
    of the form, no name twice; where the form has several entries of a
    name, the value of the last one is sent. *)
Theorem X20_one_value_per_field_is_sent (E : engine) (B : browser) (form : formdata)
    (w : world) (div : handle) :
  find_index (has_id (js "manualResult")) (document w) = Some div ->
  sent (final_world (Static.cancerForm_submit E B form w)) =
    sent w ++ [{| url := js "/predict"; http_method := js "POST";
                  content_type := Some (js "application/json");
                  body := JsonBody (fromEntries form) |}] /\
  sent (final_world (Templates.cancerForm_submit E B form w)) =
    sent (final_world (Static.cancerForm_submit E B form w)) /\
  NoDup (map fst (fromEntries form)) /\
  (forall name, formdata_get (fromEntries form) name = formdata_get (rev form) name).
Proof.
  intros Hdiv. split; [exact (static_request_is_sent E B form w div Hdiv)|].
  split.
  { rewrite (static_request_is_sent E B form w div Hdiv).
    exact (templates_request_is_sent E B form w div Hdiv). }
  split; [apply fromEntries_NoDup|apply fromEntries_get].
Qed.

Lemma X20_one_value_per_field_witness :
  sent (final_world
          (Static.cancerForm_submit ref_engine unreachable
             [(js "radius_mean", FormString (js "1")); (js "area_mean", FormString (js "2"));
              (js "radius_mean", FormString (js "3"))] fresh_world)) =
  [{| url := js "/predict"; http_method := js "POST";
      content_type := Some (js "application/json");
      body := JsonBody [(js "radius_mean", FormString (js "3"));
                        (js "area_mean", FormString (js "2"))] |}].
Proof.
  exact (proj1 (X20_one_value_per_field_is_sent ref_engine unreachable
                  [(js "radius_mean", FormString (js "1"));
                   (js "area_mean", FormString (js "2"));
                   (js "radius_mean", FormString (js "3"))] fresh_world 4 eq_refl)).
Defined.

(** ** The sample record *)

Section SampleData.
Variable E : engine.

Lemma fill_names (fs : list field) (entry : string * number) :
  map field_name (Static.fill E fs entry) = map field_name fs.
Proof.
  unfold Static.fill. destruct (find_index (named (js (fst entry))) fs) as [i|]; [|reflexivity].
  apply nth_error_ext. intros j. rewrite !nth_error_map, nth_error_update_at.
  destruct (j =? i)%nat, (nth_error fs j) as [f|]; reflexivity.
Qed.

Lemma find_named_same (name : jsstring) (fs fs' : list field) :
  map field_name fs' = map field_name fs ->
  find_index (named name) fs' = find_index (named name) fs.
Proof.
  intros Hnames. apply find_index_pointwise. intros j.
  assert (Hj : nth_error (map field_name fs') j = nth_error (map field_name fs) j)
    by now rewrite Hnames.
  rewrite !nth_error_map in Hj. unfold named.
  destruct (nth_error fs' j), (nth_error fs j); try discriminate; [|reflexivity].
  cbn [option_map] in *. now injection Hj as ->.
Qed.

Lemma assigned_same (entries : list (string * number)) (fs fs' : list field) (j : nat) :
  map field_name fs' = map field_name fs ->
  assigned entries fs' j = assigned entries fs j.
Proof.
  intros Hnames. induction entries as [|[k x] entries IH]; [reflexivity|].
  cbn [assigned]. rewrite IH. unfold targets.
  now rewrite (find_named_same _ _ _ Hnames).
Qed.

Lemma nth_error_fill (fs : list field) (k : string) (x : number) (j : nat) :
  nth_error (Static.fill E fs (k, x)) j =
  option_map (fun f => if targets k fs j then with_value (number_to_string E x) f else f)
    (nth_error fs j).
Proof.
  unfold Static.fill, targets. cbn [fst snd].
  destruct (find_index (named (js k)) fs) as [i|].
  - rewrite nth_error_update_at. rewrite (Nat.eqb_sym i j).
    destruct (j =? i)%nat, (nth_error fs j); reflexivity.
  - now destruct (nth_error fs j).
Qed.

Lemma fold_fill_names (entries : list (string * number)) (fs : list field) :
  map field_name (fold_left (Static.fill E) entries fs) = map field_name fs.
Proof.
  revert fs. induction entries as [|entry entries IH]; intros fs; [reflexivity|].
  cbn [fold_left]. now rewrite IH, fill_names.
Qed.

Lemma nth_error_fold_fill (entries : list (string * number)) (fs : list field) (j : nat) :
  nth_error (fold_left (Static.fill E) entries fs) j =
  option_map (fun f => match assigned entries fs j with
                       | Some x => with_value (number_to_string E x) f
                       | None => f
                       end)
    (nth_error fs j).
Proof.
  revert fs. induction entries as [|[k x] entries IH]; intros fs.
  - cbn [fold_left assigned]. now destruct (nth_error fs j).
  - cbn [fold_left assigned]. rewrite IH, nth_error_fill.
    rewrite (assigned_same entries fs (Static.fill E fs (k, x)) j (fill_names fs (k, x))).
    destruct (nth_error fs j) as [f|]; [|reflexivity]. cbn [option_map]. f_equal.
    destruct (assigned entries fs j); destruct (targets k fs j); reflexivity.
Qed.

Lemma fold_fill_twice (entries : list (string * number)) (fs : list field) :
  fold_left (Static.fill E) entries (fold_left (Static.fill E) entries fs) =
  fold_left (Static.fill E) entries fs.
Proof.
  apply nth_error_ext. intros j. rewrite (nth_error_fold_fill entries (fold_left _ _ _)).
  rewrite (assigned_same entries fs _ j (fold_fill_names entries fs)).
  rewrite nth_error_fold_fill.
  destruct (nth_error fs j) as [f|]; [|reflexivity]. cbn [option_map].
  now destruct (assigned entries fs j).
Qed.
End SampleData.

Lemma targets_same_name (k k' : string) (fs : list field) (j : nat) :
  targets k fs j = true -> targets k' fs j = true -> js k = js k'.
Proof.
  unfold targets. intros Hk Hk'.
  destruct (find_index (named (js k)) fs) as [i|] eqn:Hi; [|discriminate].
  destruct (find_index (named (js k')) fs) as [i'|] eqn:Hi'; [|discriminate].
  apply Nat.eqb_eq in Hk, Hk'. subst i i'.
  destruct (find_index_some _ _ _ Hi) as [f [Hf Hn]].
  destruct (find_index_some _ _ _ Hi') as [f' [Hf' Hn']].
  rewrite Hf in Hf'. injection Hf' as <-.
  unfold named in *. destruct (field_name f) as [n|]; [|discriminate].
  apply str_eqb_eq in Hn, Hn'. congruence.
Qed.

Lemma distinct_not_in (x : jsstring) (l : list jsstring) :
  existsb (str_eqb x) l = false -> ~ In x l.
Proof.
  intros Hex Hin.
  assert (existsb (str_eqb x) l = true); [|congruence].
  apply existsb_exists. exists x. split; [exact Hin|apply str_eqb_refl].
Qed.

Lemma assigned_none (entries : list (string * number)) (fs : list field) (j : nat) :
  (forall k x, In (k, x) entries -> targets k fs j = false) ->
  assigned entries fs j = None.
Proof.
  induction entries as [|[k x] entries IH]; intros Hno; [reflexivity|].
  cbn [assigned]. rewrite IH.
  - now rewrite (Hno k x) by now left.
  - intros k' x' Hin. apply (Hno k' x'). now right.
Qed.

Lemma assigned_entry (entries : list (string * number)) (fs : list field) (j : nat)
    (k : string) (x : number) :
  distinct (map (fun entry => js (fst entry)) entries) = true ->
  In (k, x) entries ->
  targets k fs j = true ->
  assigned entries fs j = Some x.
Proof.
  induction entries as [|[k' x'] entries IH]; intros Hd Hin Ht; [contradiction|].
  cbn [map distinct fst] in Hd. apply andb_prop in Hd. destruct Hd as [Hfresh Hd].
  apply negb_true_iff in Hfresh. apply distinct_not_in in Hfresh.
  cbn [assigned]. destruct Hin as [Heq|Hin].
  - injection Heq as -> ->. rewrite assigned_none; [now rewrite Ht|].
    intros k' x' Hin'. destruct (targets k' fs j) eqn:Ht'; [|reflexivity].
    exfalso. apply Hfresh. rewrite (targets_same_name k k' fs j Ht Ht').
    apply in_map_iff. now exists (k', x').
  - now rewrite (IH Hd Hin Ht).
Qed.

Lemma sampleData_distinct :
  distinct (map (fun entry => js (fst entry)) Static.sampleData) = true.
Proof. vm_compute. reflexivity. Qed.

(** X21.  [loadSampleData] keeps the fields of the page and their names; for
    each of the 30 keys of the sample record, the first field of that name,
    when there is one, takes the number of that key as its value; every
    other field, a later field of a sample name included, keeps its
    value. *)
Theorem X21_sample_fills_first_field_of_each_name (E : engine) (p : form_page) :
  map field_name (fields (Static.loadSampleData E p)) = map field_name (fields p) /\
  (forall k x j,
     In (k, x) Static.sampleData ->
     find_index (named (js k)) (fields p) = Some j ->
     option_map field_value (nth_error (fields (Static.loadSampleData E p)) j) =
       Some (number_to_string E x)) /\
  (forall j,
     (forall k x, In (k, x) Static.sampleData ->
                  find_index (named (js k)) (fields p) <> Some j) ->
     nth_error (fields (Static.loadSampleData E p)) j = nth_error (fields p) j).
Proof.
  unfold Static.loadSampleData. cbn [fields].
  split; [apply fold_fill_names|]. split.
  - intros k x j Hin Hfind. rewrite nth_error_fold_fill.
    rewrite (assigned_entry Static.sampleData (fields p) j k x sampleData_distinct Hin).
    + destruct (find_index_some _ _ _ Hfind) as [f [-> _]]. reflexivity.
    + unfold targets. rewrite Hfind. apply Nat.eqb_refl.
  - intros j Hno. rewrite nth_error_fold_fill, assigned_none.
    + now destruct (nth_error (fields p) j).
    + intros k x Hin. unfold targets.
      destruct (find_index (named (js k)) (fields p)) as [i|] eqn:Hi; [|reflexivity].
      apply Nat.eqb_neq. intros ->. now apply (Hno k x Hin).
Qed.

Lemma X21_sample_fills_witness :
  option_map field_value
    (nth_error
       (fields (Static.loadSampleData ref_engine
                  {| fields := [{| field_name := Some (js "area_mean"); field_value := [] |};
                                {| field_name := Some (js "radius_mean");
                                   field_value := js "9" |};
                                {| field_name := Some (js "radius_mean");
                                   field_value := js "7" |}];
                     form_console := [] |})) 1) = Some (js "14.127").
Proof.
  apply (proj1 (proj2 (X21_sample_fills_first_field_of_each_name ref_engine
                         {| fields := [{| field_name := Some (js "area_mean");
                                          field_value := [] |};
                                       {| field_name := Some (js "radius_mean");
                                          field_value := js "9" |};
                                       {| field_name := Some (js "radius_mean");
                                          field_value := js "7" |}];
                            form_console := [] |}))
           "radius_mean"%string 14.127%float 1%nat).
  - left. reflexivity.
  - reflexivity.
Defined.

(** X22.  Loading the sample record twice leaves the fields as loading it
    once.  The two scripts fill the fields alike; the templates script
    writes nothing to the console, the static script exactly two entries at
    level [log]. *)
Theorem X22_sample_load_is_repeatable (E : engine) (p : form_page) :
  fields (Static.loadSampleData E (Static.loadSampleData E p)) =
    fields (Static.loadSampleData E p) /\
  fields (Templates.loadSampleData E p) = fields (Static.loadSampleData E p) /\
  form_console (Templates.loadSampleData E p) = form_console p /\
  form_console (Static.loadSampleData E p) =
    form_console p ++
    [{| level := LevelLog; args := [ArgStr (js "Loading sample data...")] |};
     {| level := LevelLog; args := [ArgStr (check_mark ++ js " Sample data loaded")] |}].
Proof.
  unfold Templates.loadSampleData, Static.loadSampleData. cbn [fields form_console].
  split; [apply fold_fill_twice|].
  split; [reflexivity|]. split; reflexivity.
Qed.

(** ** The upload request *)

Lemma static_csv_requests (E : engine) (B : browser) (form : formdata) (w : world)
    (div : handle) :
  find_index (has_id (js "csvResult")) (document w) = Some div ->
  sent (final_world (Static.csvForm_submit E B form w)) =
  sent w ++ (if form_truthy (formdata_get form (js "file"))
             then [Static.predict_csv_request form] else []).
Proof.
  intros Hdiv.
  unfold Static.csvForm_submit. run_page. rewrite Hdiv.
  destruct (form_truthy (formdata_get form (js "file"))); cbn [negb]; run_page;
    [|now rewrite app_nil_r].
  destruct (server B (Static.predict_csv_request form)) as [r|e]; [|reflexivity].
  destruct (ok r); cbn [negb]; run_page.
  - destruct (Static.safeJsonResponse E r) as [v|e]; run_page; [|reflexivity].
    destruct (get E v (js "total_samples")) as [ts|e]; run_page; [|reflexivity].
    destruct (get E v (js "predictions")) as [p|e]; run_page; [|reflexivity].
    destruct (truthy p && isArray p); run_page; [|reflexivity].
    unfold Static.displayCSVResults.
    destruct (Static.csv_markup E v) as [html|e]; run_page; reflexivity.
  - destruct (response_text r) as [t|e]; run_page; reflexivity.
Qed.

Lemma templates_csv_requests (E : engine) (B : browser) (form : formdata) (w : world)
    (div : handle) :
  find_index (has_id (js "csvResult")) (document w) = Some div ->
  sent (final_world (Templates.csvForm_submit E B form w)) =
  sent w ++ [Templates.predict_csv_request form].
Proof.
  intros Hdiv.
  unfold Templates.csvForm_submit, Templates.simulateCSVPrediction. run_page. rewrite Hdiv.
  destruct (server B (Templates.predict_csv_request form)) as [r|e]; [|reflexivity].
  destruct (ok r); cbv iota; run_page; [|reflexivity].
  destruct (Templates.response_json E r) as [v|e]; run_page; [|reflexivity].
  unfold Templates.displayCSVResults.
  destruct (Templates.csv_markup E v) as [html|e]; run_page; reflexivity.
Qed.

(** X23.  With the region on the page the static CSV handler sends one
    multipart POST to [/predict_csv] when the form has a truthy [file]
    entry, whatever the service answers, and nothing otherwise; the
    templates CSV handler sends that request for every form, also one
    without a file. *)
Theorem X23_upload_needs_a_file_only_in_static (E : engine) (B : browser)
    (form : formdata) (w : world) (div : handle) :
  find_index (has_id (js "csvResult")) (document w) = Some div ->
  sent (final_world (Static.csvForm_submit E B form w)) =
    sent w ++ (if form_truthy (formdata_get form (js "file"))
               then [{| url := js "/predict_csv"; http_method := js "POST";
                        content_type := None; body := MultipartBody form |}]
               else []) /\
  sent (final_world (Templates.csvForm_submit E B form w)) =
    sent w ++ [{| url := js "/predict_csv"; http_method := js "POST";
                  content_type := None; body := MultipartBody form |}].
Proof.
  intros Hdiv. split.
  - exact (static_csv_requests E B form w div Hdiv).
  - exact (templates_csv_requests E B form w div Hdiv).
Qed.

Lemma X23_upload_needs_a_file_witness :
  sent (final_world (Static.csvForm_submit ref_engine unreachable [] fresh_world)) = [] /\
  sent (final_world (Templates.csvForm_submit ref_engine unreachable [] fresh_world)) =
    [{| url := js "/predict_csv"; http_method := js "POST";
        content_type := None; body := MultipartBody [] |}].
Proof.
  exact (X23_upload_needs_a_file_only_in_static ref_engine unreachable [] fresh_world 5
           eq_refl).
Defined.
